(** * AGO WASH backend: cache-coherent ledger gateway and transaction
      orchestration

    A shallow embedding of
    - [src/services/cacheService.js]      (Redis read-through cache),
    - [src/services/blockchainService.js] (gateway to the loyalty contract),
    - [src/services/ipfsService.js]       (tiers, frames and metadata),
    - [src/services/emailService.js]      (SES notifications),
    - [src/controllers/transactionController.js],
      [src/controllers/blockchainController.js] and
      [src/controllers/priceController.js] (request handlers),
    - [src/middlewares/auth.js] and [src/middlewares/validation.js]
      (API key, admin check, address pattern),
    followed by the properties of the specification that concern them
    and by further properties of the code.

    Asynchronous functions are sequential computations over an explicit
    [World]: every [await] is a bind of the monad [M], a rejected promise
    is [Throw], and [try { } catch { }] is [try_catch]. *)

From Stdlib Require Import Ascii.
From stdpp Require Import base numbers strings gmap list pretty sorting.

Local Open Scope Z_scope.

(** ** JavaScript values that cross the cache *)

Module Js.

(** Result of [metadata] after the gateway's transformation; the numeric
    fields are JS numbers with integer values. *)
Record NFTMetadata := {
  nft_tokenId : Z;
  nft_metadataURI : string;
  nft_points : Z;
  nft_tier : string;
  nft_expiryTime : Z;
  nft_exists : bool
}.

Record FreeWashStatus := {
  fw_available : bool;
  fw_expiryTime : Z;
  fw_used : bool
}.

(** What [JSON.parse] can hand back from a cache entry written by the
    gateway.  [JSON.parse (JSON.stringify v)] is [v] for these values
    (finite numbers, strings, booleans), so an entry stores the value. *)
Inductive value :=
| VNum (n : Z)
| VNft (m : NFTMetadata)
| VStatus (s : FreeWashStatus).

(** [Number(big.toString())] for an integer: the nearest IEEE-754 double,
    ties to even.  Integers below 2^53 are exact; beyond, only 53
    significant bits survive.  (A uint256 is below 2^1024, so the result
    is finite.) *)
Definition round53 (n : Z) : Z :=
  if n <? 2 ^ 53 then n
  else
    let e := Z.log2 n - 52 in
    let q := Z.shiftr n e in
    let r := Z.land n (Z.ones e) in
    let half := Z.shiftl 1 (e - 1) in
    let q' := if r <? half then q
              else if half <? r then q + 1
              else if Z.even q then q else q + 1 in
    Z.shiftl q' e.

Definition Number (n : Z) : Z :=
  if n <? 0 then - round53 (- n) else round53 n.

Definition MAX_SAFE_INTEGER : Z := 2 ^ 53 - 1.

(** [v >= k] and [v < k] against a number literal.  An object operand
    converts to NaN and every comparison with NaN is false. *)
Definition ge (v : value) (k : Z) : bool :=
  match v with VNum n => k <=? n | _ => false end.

Definition lt (v : value) (k : Z) : bool :=
  match v with VNum n => n <? k | _ => false end.

(** Property reads; [None] is [undefined]. *)
Definition tier (v : value) : option string :=
  match v with VNft m => Some (nft_tier m) | _ => None end.

Definition available (v : value) : option bool :=
  match v with VStatus s => Some (fw_available s) | _ => None end.

Definition used (v : value) : option bool :=
  match v with VStatus s => Some (fw_used s) | _ => None end.

Definition expiryTime (v : value) : option Z :=
  match v with
  | VStatus s => Some (fw_expiryTime s)
  | VNft m => Some (nft_expiryTime m)
  | VNum _ => None
  end.

(** [s || d] on an optional string: [undefined] and the empty string are
    falsy. *)
Definition or_default (s : option string) (d : string) : string :=
  match s with
  | Some EmptyString | None => d
  | Some t => t
  end.

(** [!b] where [b] may be [undefined]. *)
Definition not (b : option bool) : bool :=
  match b with Some true => false | _ => true end.

(** [a && b] where [a] may be [undefined]: a falsy [a] is the result. *)
Definition and (a : option bool) (b : bool) : option bool :=
  match a with
  | Some true => Some b
  | other => other
  end.

(** Template-literal rendering of a value. *)
Definition show (v : value) : string :=
  match v with
  | VNum n => pretty n
  | _ => "[object Object]"
  end.

End Js.

(** ** ipfsService.js *)

Definition determineTierByPoints (points : Js.value) : string :=
  if Js.ge points 5000 then "Gold"
  else if Js.ge points 1000 then "Silver"
  else "Bronze".

(** ** The world outside the process

    Redis, the loyalty contract, MongoDB, SES and the socket.io server are
    external services.  Each one is a component of the [World] with the
    data it holds and a fault oracle: the [n]-th request to the service
    (counted from process start) is rejected when the oracle says so.  The
    oracles are arbitrary, so a statement about every world covers every
    pattern of outages. *)

Record Entry := { payload : Js.value; expireAt : Z }.

Inductive RedisCommand :=
| GET (key : string)
| SETEX (key : string) (seconds : Z) (data : Js.value)
| DEL (key : string).

Record Redis := {
  keyspace : gmap string Entry;
  redis_log : list RedisCommand;
  redis_fail : nat → bool
}.

(** On-chain storage as the read functions of the contract see it.  A
    Solidity mapping answers an unknown key with the zero value. *)
Record Ledger := {
  points_of : gmap string Z;
  nft_of : gmap string Js.NFTMetadata;
  freeWash_of : gmap string Js.FreeWashStatus
}.

Inductive ChainCall :=
| call_getUserPoints (user : string)
| call_getNFTMetadata (user : string)
| call_getFreeWashStatus (user : string)
| call_recordTransaction (user : string) (timestampInSeconds : Z)
| call_encode (user : string) (packageType nonce : Z).

(** The contract's code is not part of the repository: what
    [recordTransaction] does to the ledger and the transaction hash it
    yields is the parameter [onRecordTransaction]; [encode] is the
    signer's encoder.  A failing call ([chain_fail n = Some message])
    leaves the ledger untouched. *)
Record Chain := {
  ledger : Ledger;
  onRecordTransaction : Ledger → string → Z → Ledger * string;
  encode : string → Z → Z → string;
  chain_log : list ChainCall;
  chain_fail : nat → option string
}.

Record User := { userAddress : string; email : string; name : string }.

Record Transaction := {
  tx_userAddress : string;
  tx_date : string;
  tx_vehicleType : string;
  tx_serviceType : string;
  tx_price : Z;
  recordedOnChain : bool;
  blockchainTxHash : option string;
  createdAt : Z
}.

(** A mongoose session: [InTransaction d] holds the document written
    under the session and not yet visible to queries. *)
Inductive Session :=
| NoSession
| InTransaction (written : option Transaction)
| Committed
| Aborted.

Record Mongo := {
  users : list User;
  transactions : list Transaction;
  session : Session;
  mongo_ops : nat;
  mongo_fail : nat → option string
}.

Record Mail := { mail_to : string; mail_subject : string; mail_category : string }.

(** [outbox] lists every message handed to SES with whether SES took it. *)
Record Ses := {
  outbox : list (Mail * bool);
  ses_fail : nat → bool
}.

Inductive Event :=
| transaction_recorded (userAddress date vehicleType serviceType : string)
                       (points : Js.value)
| tier_upgraded (userAddress previousTier newTier : string) (points : Js.value).

Record World := {
  clock : Z;                 (* Date.now(), milliseconds *)
  redis : Redis;
  chain : Chain;
  mongo : Mongo;
  ses : Ses;
  ADMIN_EMAIL : string;      (* process.env.ADMIN_EMAIL *)
  emitted : list Event       (* io.emit, oldest first *)
}.

Definition with_clock (t : Z) (w : World) : World :=
  {| clock := t; redis := redis w; chain := chain w; mongo := mongo w;
     ses := ses w; ADMIN_EMAIL := ADMIN_EMAIL w; emitted := emitted w |}.

Definition with_redis (r : Redis) (w : World) : World :=
  {| clock := clock w; redis := r; chain := chain w; mongo := mongo w;
     ses := ses w; ADMIN_EMAIL := ADMIN_EMAIL w; emitted := emitted w |}.

Definition with_chain (c : Chain) (w : World) : World :=
  {| clock := clock w; redis := redis w; chain := c; mongo := mongo w;
     ses := ses w; ADMIN_EMAIL := ADMIN_EMAIL w; emitted := emitted w |}.

Definition with_mongo (m : Mongo) (w : World) : World :=
  {| clock := clock w; redis := redis w; chain := chain w; mongo := m;
     ses := ses w; ADMIN_EMAIL := ADMIN_EMAIL w; emitted := emitted w |}.

Definition with_ses (s : Ses) (w : World) : World :=
  {| clock := clock w; redis := redis w; chain := chain w; mongo := mongo w;
     ses := s; ADMIN_EMAIL := ADMIN_EMAIL w; emitted := emitted w |}.

Definition with_emitted (l : list Event) (w : World) : World :=
  {| clock := clock w; redis := redis w; chain := chain w; mongo := mongo w;
     ses := ses w; ADMIN_EMAIL := ADMIN_EMAIL w; emitted := l |}.

(** Time passing between two requests. *)
Definition elapse (ms : Z) (w : World) : World := with_clock (clock w + ms) w.

(** ** Promises: state and exceptions *)

Inductive Res (A : Type) :=
| Ok (a : A)
| Throw (message : string).
Arguments Ok {A} a.
Arguments Throw {A} message.

Definition M (A : Type) : Type := World → Res A * World.

Definition ret {A} (a : A) : M A := λ w, (Ok a, w).

Definition throw {A} (message : string) : M A := λ w, (Throw message, w).

Definition bind {A B} (m : M A) (k : A → M B) : M B :=
  λ w, match m w with
       | (Ok a, w') => k a w'
       | (Throw e, w') => (Throw e, w')
       end.

Definition try_catch {A} (body : M A) (handler : string → M A) : M A :=
  λ w, match body w with
       | (Throw e, w') => handler e w'
       | done => done
       end.

Notation "'let!' x := m 'in' k" := (bind m (λ x, k))
  (at level 10, x name, m at level 100, k at level 200, only parsing).
Notation "'do!' m 'in' k" := (bind m (λ _, k))
  (at level 10, m at level 100, k at level 200, only parsing).

(** ** The Redis client (config/database.js)

    [getRedisClient] throws when the client was never connected and every
    command can be rejected; both are the oracle [redis_fail].  A command
    is logged whether it is served or not.  An entry set with [SETEX] for
    [seconds] is served until the clock reaches its expiry. *)

Definition live (now : Z) (e : Entry) : bool := now <? expireAt e.

Definition redis_command {A} (c : RedisCommand)
    (run : Z → gmap string Entry → A * gmap string Entry) : M A :=
  λ w,
    let r := redis w in
    let log' := redis_log r ++ [c] in
    if redis_fail r (length (redis_log r)) then
      (Throw "Redis command failed",
       with_redis {| keyspace := keyspace r; redis_log := log';
                     redis_fail := redis_fail r |} w)
    else
      let '(a, ks) := run (clock w) (keyspace r) in
      (Ok a,
       with_redis {| keyspace := ks; redis_log := log';
                     redis_fail := redis_fail r |} w).

Definition redis_get (key : string) : M (option Js.value) :=
  redis_command (GET key) (λ now ks,
    (match ks !! key with
     | Some e => if live now e then Some (payload e) else None
     | None => None
     end, ks)).

Definition redis_setEx (key : string) (seconds : Z) (data : Js.value) : M unit :=
  redis_command (SETEX key seconds data) (λ now ks,
    (tt, <[key := {| payload := data; expireAt := now + seconds * 1000 |}]> ks)).

Definition redis_del (key : string) : M unit :=
  redis_command (DEL key) (λ _ ks, (tt, delete key ks)).

(** ** services/cacheService.js *)

Definition DEFAULT_EXPIRY : Z := 60 * 10.

Definition generateKey (prefix identifier : string) : string :=
  prefix +:+ ":" +:+ identifier.

Module CacheKeys.

Definition USER_POINTS : string := "userPoints".
Definition FREE_WASH_STATUS : string := "freeWashStatus".
Definition ACTIVITY_LOG : string := "activityLog".
Definition NFT_METADATA : string := "nftMetadata".
Definition ADMINS : string := "admins".
Definition PRICES : string := "prices".

End CacheKeys.

Definition cacheData (key : string) (data : Js.value) (expirySeconds : Z) : M bool :=
  try_catch
    (do! redis_setEx key expirySeconds data in
     ret true)
    (λ _, ret false).

(** [None] is the [null] of a miss. *)
Definition getCachedData (key : string) : M (option Js.value) :=
  try_catch
    (let! data := redis_get key in
     match data with
     | None => ret None
     | Some parsed => ret (Some parsed)
     end)
    (λ _, ret None).

Definition invalidateCache (key : string) : M bool :=
  try_catch
    (do! redis_del key in
     ret true)
    (λ _, ret false).

(** ** The contract handle (config/blockchain.js)

    [getContract] / [getContractWithSigner] followed by one method call is
    one request to the chain: it is logged, and the oracle decides whether
    it fails (provider unreachable, revert, timeout). *)

Definition chain_call {A} (c : ChainCall) (run : Chain → A * Ledger) : M A :=
  λ w,
    let ch := chain w in
    let log' := chain_log ch ++ [c] in
    match chain_fail ch (length (chain_log ch)) with
    | Some message =>
        (Throw message,
         with_chain {| ledger := ledger ch;
                       onRecordTransaction := onRecordTransaction ch;
                       encode := encode ch; chain_log := log';
                       chain_fail := chain_fail ch |} w)
    | None =>
        let '(a, l) := run ch in
        (Ok a,
         with_chain {| ledger := l;
                       onRecordTransaction := onRecordTransaction ch;
                       encode := encode ch; chain_log := log';
                       chain_fail := chain_fail ch |} w)
    end.

Definition zero_nft : Js.NFTMetadata :=
  {| Js.nft_tokenId := 0; Js.nft_metadataURI := ""; Js.nft_points := 0;
     Js.nft_tier := ""; Js.nft_expiryTime := 0; Js.nft_exists := false |}.

Definition zero_status : Js.FreeWashStatus :=
  {| Js.fw_available := false; Js.fw_expiryTime := 0; Js.fw_used := false |}.

Definition contract_getUserPoints (user : string) : M Z :=
  chain_call (call_getUserPoints user)
    (λ ch, (default 0 (points_of (ledger ch) !! user), ledger ch)).

Definition contract_getNFTMetadata (user : string) : M Js.NFTMetadata :=
  chain_call (call_getNFTMetadata user)
    (λ ch, (default zero_nft (nft_of (ledger ch) !! user), ledger ch)).

Definition contract_getFreeWashStatus (user : string) : M Js.FreeWashStatus :=
  chain_call (call_getFreeWashStatus user)
    (λ ch, (default zero_status (freeWash_of (ledger ch) !! user), ledger ch)).

(** [contract.call("recordTransaction", [user, seconds])]; the result is
    [tx.receipt.transactionHash]. *)
Definition contract_call_recordTransaction (user : string) (seconds : Z) : M string :=
  chain_call (call_recordTransaction user seconds)
    (λ ch, let '(l, txHash) := onRecordTransaction ch (ledger ch) user seconds in
           (txHash, l)).

Definition generateEIP712Signature (userAddress : string) (packageType nonce : Z)
    : M string :=
  try_catch
    (chain_call (call_encode userAddress packageType nonce)
       (λ ch, (encode ch userAddress packageType nonce, ledger ch)))
    (λ error, throw error).

(** ** services/blockchainService.js

    Each function logs the error and rethrows it; logging has no effect on
    the world, so the handler is [throw]. *)

Definition getUserPoints (userAddress : string) : M Js.value :=
  try_catch
    (let cacheKey := generateKey CacheKeys.USER_POINTS userAddress in
     let! cachedPoints := getCachedData cacheKey in
     match cachedPoints with
     | Some cached => ret cached
     | None =>
         let! points := contract_getUserPoints userAddress in
         let pointsValue := Js.VNum (Js.Number points) in
         do! cacheData cacheKey pointsValue DEFAULT_EXPIRY in
         ret pointsValue
     end)
    (λ error, throw error).

Definition getNFTMetadata (userAddress : string) : M Js.value :=
  try_catch
    (let cacheKey := generateKey CacheKeys.NFT_METADATA userAddress in
     let! cachedMetadata := getCachedData cacheKey in
     match cachedMetadata with
     | Some cached => ret cached
     | None =>
         let! metadata := contract_getNFTMetadata userAddress in
         let transformedMetadata := Js.VNft
           {| Js.nft_tokenId := Js.Number (Js.nft_tokenId metadata);
              Js.nft_metadataURI := Js.nft_metadataURI metadata;
              Js.nft_points := Js.Number (Js.nft_points metadata);
              Js.nft_tier := Js.nft_tier metadata;
              Js.nft_expiryTime := Js.Number (Js.nft_expiryTime metadata);
              Js.nft_exists := Js.nft_exists metadata |} in
         do! cacheData cacheKey transformedMetadata DEFAULT_EXPIRY in
         ret transformedMetadata
     end)
    (λ error, throw error).

Record TransactionResult := { success : bool; txHash : string }.

Definition recordTransaction (userAddress : string) (timestamp : Z)
    : M TransactionResult :=
  try_catch
    (let timestampInSeconds := timestamp `div` 1000 in
     let! tx := contract_call_recordTransaction userAddress timestampInSeconds in
     do! invalidateCache (generateKey CacheKeys.USER_POINTS userAddress) in
     do! invalidateCache (generateKey CacheKeys.FREE_WASH_STATUS userAddress) in
     do! invalidateCache (generateKey CacheKeys.NFT_METADATA userAddress) in
     ret {| success := true; txHash := tx |})
    (λ error, throw error).

Definition getFreeWashStatus (userAddress : string) : M Js.value :=
  try_catch
    (let cacheKey := generateKey CacheKeys.FREE_WASH_STATUS userAddress in
     let! cachedStatus := getCachedData cacheKey in
     match cachedStatus with
     | Some cached => ret cached
     | None =>
         let! status := contract_getFreeWashStatus userAddress in
         let transformedStatus := Js.VStatus
           {| Js.fw_available := Js.fw_available status;
              Js.fw_expiryTime := Js.Number (Js.fw_expiryTime status);
              Js.fw_used := Js.fw_used status |} in
         do! cacheData cacheKey transformedStatus DEFAULT_EXPIRY in
         ret transformedStatus
     end)
    (λ error, throw error).

(** The [switch] of [signRedeemPackage]. *)
Definition requiredPointsFor (packageType : Z) : M Z :=
  match packageType with
  | 1 => ret 1000
  | 2 => ret 3000
  | 3 => ret 5000
  | _ => throw "Invalid package type"
  end.

(** The interpolated numbers are rendered in decimal, as JS does for an
    integer of magnitude below 10^21. *)
Definition insufficientPoints (requiredPoints : Z) (points : Js.value) : string :=
  "Insufficient points. Required: " +:+ pretty requiredPoints +:+
  ", Available: " +:+ Js.show points.

Definition signRedeemPackage (userAddress : string) (packageType nonce : Z)
    : M string :=
  try_catch
    (let! points := getUserPoints userAddress in
     let! requiredPoints := requiredPointsFor packageType in
     if Js.lt points requiredPoints then
       throw (insufficientPoints requiredPoints points)
     else
       let! signature := generateEIP712Signature userAddress packageType nonce in
       ret signature)
    (λ error, throw error).

(** ** services/emailService.js

    [sendEmail] catches the SES failure itself and answers [false]; it
    never throws.  The HTML body is not part of the model. *)

Definition sendEmail (to subject category : string) : M bool :=
  λ w,
    let s := ses w in
    let sent := negb (ses_fail s (length (outbox s))) in
    let mail := {| mail_to := to; mail_subject := subject;
                   mail_category := category |} in
    (Ok sent,
     with_ses {| outbox := outbox s ++ [(mail, sent)]; ses_fail := ses_fail s |} w).

Definition sendTierUpgradeNotification (userAddress : string) (points : Js.value)
    (newTier : string) : M bool :=
  λ w, sendEmail (ADMIN_EMAIL w) "[AGO WASH] User Tier Upgrade Notification"
         "tier-upgrade" w.

Definition sendFreeWashActivatedNotification (email date : string) : M bool :=
  sendEmail email "[AGO WASH] Free Wash Coupon Activated" "free-wash-activated".

(** ** MongoDB through mongoose

    Queries, saves and the commit are requests the oracle [mongo_fail] can
    reject (a schema validation error of [save] is such a rejection).
    Starting, aborting and ending a session are bookkeeping: an aborted or
    abandoned transaction never becomes visible, reachable server or
    not. *)

Definition mongo_request {A} (run : Mongo → A * Mongo) : M A :=
  λ w,
    let m := mongo w in
    let counted := {| users := users m; transactions := transactions m;
                      session := session m; mongo_ops := S (mongo_ops m);
                      mongo_fail := mongo_fail m |} in
    match mongo_fail m (mongo_ops m) with
    | Some message => (Throw message, with_mongo counted w)
    | None => let '(a, m') := run counted in (Ok a, with_mongo m' w)
    end.

Definition set_session (s : Session) (m : Mongo) : Mongo :=
  {| users := users m; transactions := transactions m; session := s;
     mongo_ops := mongo_ops m; mongo_fail := mongo_fail m |}.

Definition startSession_startTransaction : M unit :=
  λ w, (Ok tt, with_mongo (set_session (InTransaction None) (mongo w)) w).

Definition abortTransaction : M unit :=
  λ w, (Ok tt, with_mongo (set_session Aborted (mongo w)) w).

Definition endSession : M unit := ret tt.

Definition commitTransaction : M unit :=
  mongo_request (λ m,
    match session m with
    | InTransaction written =>
        (tt, {| users := users m;
                transactions := transactions m ++ option_list written;
                session := Committed; mongo_ops := mongo_ops m;
                mongo_fail := mongo_fail m |})
    | _ => (tt, m)
    end).

(** [User.findOne({ userAddress })]. *)
Definition User_findOne (address : string) : M (option User) :=
  mongo_request (λ m,
    (find (λ u, bool_decide (userAddress u = address)) (users m), m)).

(** [transaction.save({ session })]: the document written under the
    session replaces its earlier version. *)
Definition Transaction_save (t : Transaction) : M unit :=
  mongo_request (λ m, (tt, set_session (InTransaction (Some t)) m)).

(** Schema setters of models/Transaction.js on [userAddress]:
    [lowercase: true, trim: true]. *)
Definition lower (c : ascii) : ascii :=
  let n := nat_of_ascii c in
  if (65 <=? n)%nat && (n <=? 90)%nat then ascii_of_nat (n + 32) else c.

Fixpoint toLowerCase (s : string) : string :=
  match s with
  | EmptyString => EmptyString
  | String c r => String (lower c) (toLowerCase r)
  end.

Definition is_space (c : ascii) : bool :=
  let n := nat_of_ascii c in
  ((9 <=? n)%nat && (n <=? 13)%nat) || (n =? 32)%nat.

Fixpoint trimStart (s : string) : string :=
  match s with
  | String c r => if is_space c then trimStart r else s
  | EmptyString => EmptyString
  end.

Fixpoint trimEnd (s : string) : string :=
  match s with
  | EmptyString => EmptyString
  | String c r =>
      match trimEnd r with
      | EmptyString => if is_space c then EmptyString else String c EmptyString
      | r' => String c r'
      end
  end.

Definition trim (s : string) : string := trimEnd (trimStart s).

Definition Date_now : M Z := λ w, (Ok (clock w), w).

(** [new Transaction({ ..., recordedOnChain: false })] with the schema
    defaults. *)
Definition new_Transaction (userAddress date vehicleType serviceType : string)
    (price : Z) : M Transaction :=
  let! now := Date_now in
  ret {| tx_userAddress := trim (toLowerCase userAddress);
         tx_date := date; tx_vehicleType := vehicleType;
         tx_serviceType := serviceType; tx_price := price;
         recordedOnChain := false; blockchainTxHash := None;
         createdAt := now |}.

Definition confirmed (t : Transaction) (hash : string) : Transaction :=
  {| tx_userAddress := tx_userAddress t; tx_date := tx_date t;
     tx_vehicleType := tx_vehicleType t; tx_serviceType := tx_serviceType t;
     tx_price := tx_price t; recordedOnChain := true;
     blockchainTxHash := Some hash; createdAt := createdAt t |}.

(** [io.emit]. *)
Definition io_emit (e : Event) : M unit :=
  λ w, (Ok tt, with_emitted (emitted w ++ [e]) w).

(** ** Controllers *)

Record Request := {
  body_userAddress : string;   (* also req.query.userAddress *)
  body_date : string;
  body_vehicleType : string;
  body_serviceType : string;
  body_price : Z;
  app_io : bool                (* req.app.get('io') is set *)
}.

Inductive Body :=
| Recorded (txHash : string) (points : Js.value) (tier : string)
    (* { success: true, txHash, points, tier } *)
| Failure (error message : string)
| FreeWash (active : option bool) (expiryTime : option Z) (used : option bool).

Record Response := { status : Z; json : Body }.

(** controllers/transactionController.js

    [recordOnBlockchain] is the body of the inner [try] of the handler
    ("Record on blockchain"), from the gateway call to the 200 response;
    the handler below wraps it in its [catch (blockchainError)]. *)
Definition recordOnBlockchain (req : Request) (user : User)
    (transaction : Transaction) (currentTimestamp : Z) : M Response :=
  let userAddress := body_userAddress req in
  let date := body_date req in
  let vehicleType := body_vehicleType req in
  let serviceType := body_serviceType req in
  let! result := recordTransaction userAddress currentTimestamp in
  let transaction := confirmed transaction (txHash result) in
  do! Transaction_save transaction in
  do! try_catch
        (do! sendFreeWashActivatedNotification (email user) date in
         ret tt)
        (λ emailError, ret tt) in
  let! points := getUserPoints userAddress in
  let newTier := determineTierByPoints points in
  let! nftMetadata := getNFTMetadata userAddress in
  let currentTier := Js.or_default (Js.tier nftMetadata) "Bronze" in
  do! (if bool_decide (newTier ≠ currentTier) then
         try_catch
           (do! sendTierUpgradeNotification userAddress points newTier in
            ret tt)
           (λ emailError, ret tt)
       else ret tt) in
  do! commitTransaction in
  do! endSession in
  do! (if app_io req then
         do! io_emit (transaction_recorded userAddress date
                        vehicleType serviceType points) in
         if bool_decide (newTier ≠ currentTier) then
           io_emit (tier_upgraded userAddress currentTier newTier points)
         else ret tt
       else ret tt) in
  ret {| status := 200;
         json := Recorded (txHash result) points newTier |}.

Definition recordTransactionHandler (req : Request) : M Response :=
  do! startSession_startTransaction in
  try_catch
    (let userAddress := body_userAddress req in
     let date := body_date req in
     let vehicleType := body_vehicleType req in
     let serviceType := body_serviceType req in
     let price := body_price req in
     let! user := User_findOne userAddress in
     match user with
     | None =>
         do! abortTransaction in
         do! endSession in
         ret {| status := 404;
                json := Failure "User Not Found"
                          "User with this address does not exist" |}
     | Some user =>
         let! currentTimestamp := Date_now in
         let! transaction :=
           new_Transaction userAddress date vehicleType serviceType price in
         do! Transaction_save transaction in
         try_catch
           (recordOnBlockchain req user transaction currentTimestamp)
           (λ blockchainError,
              do! abortTransaction in
              do! endSession in
              ret {| status := 500;
                     json := Failure "Blockchain Error"
                               ("Failed to record transaction on blockchain: "
                                +:+ blockchainError) |})
     end)
    (λ error,
       do! abortTransaction in
       do! endSession in
       ret {| status := 500;
              json := Failure "Internal Server Error"
                        "Failed to record transaction" |}).

(** controllers/blockchainController.js *)
Definition getFreeWashStatusHandler (req : Request) : M Response :=
  try_catch
    (let userAddress := body_userAddress req in
     let! status := getFreeWashStatus userAddress in
     ret {| status := 200;
            json := FreeWash (Js.and (Js.available status) (Js.not (Js.used status)))
                             (Js.expiryTime status)
                             (Js.used status) |})
    (λ error,
       ret {| status := 500;
              json := Failure "Blockchain Error" "Failed to get free wash status" |}).

(** ** A concrete deployment

    A small world on which the statements below are run: one registered
    user with 950 points and a Bronze card, every service up, and a
    contract that, on [recordTransaction], (re)issues the 24-hour free-wash
    coupon and credits 60 points unless a coupon was still running. *)

Module Demo.

Definition alice : string := "0x00000000000000000000000000000000000000a1".

Definition up : nat → bool := λ _, false.
Definition down : nat → bool := λ _, true.
Definition healthy : nat → option string := λ _, None.

Definition loyalty (l : Ledger) (user : string) (seconds : Z) : Ledger * string :=
  let coupon := default zero_status (freeWash_of l !! user) in
  let running := Js.fw_available coupon && negb (Js.fw_used coupon)
                 && (seconds <? Js.fw_expiryTime coupon) in
  let earned := if running then 0 else 60 in
  ({| points_of := <[user := default 0 (points_of l !! user) + earned]> (points_of l);
      nft_of := nft_of l;
      freeWash_of := <[user := {| Js.fw_available := true;
                                  Js.fw_expiryTime := seconds + 86400;
                                  Js.fw_used := false |}]> (freeWash_of l) |},
   "0xabc123").

Definition card (tier : string) (points : Z) : Js.NFTMetadata :=
  {| Js.nft_tokenId := 1; Js.nft_metadataURI := "ipfs://QmTestCID";
     Js.nft_points := points; Js.nft_tier := tier;
     Js.nft_expiryTime := 0; Js.nft_exists := true |}.

Definition ledger0 (points : Z) : Ledger :=
  {| points_of := {[ alice := points ]};
     nft_of := {[ alice := card "Bronze" 0 ]};
     freeWash_of := ∅ |}.

Definition world (points : Z) (redis_oracle : nat → bool)
    (chain_oracle : nat → option string) : World :=
  {| clock := 1714110029873;
     redis := {| keyspace := ∅; redis_log := []; redis_fail := redis_oracle |};
     chain := {| ledger := ledger0 points; onRecordTransaction := loyalty;
                 encode := λ user packageType nonce, "0xsignature";
                 chain_log := []; chain_fail := chain_oracle |};
     mongo := {| users := [ {| userAddress := alice;
                               email := "alice@example.com";
                               name := "Alice" |} ];
                 transactions := []; session := NoSession; mongo_ops := 0;
                 mongo_fail := healthy |};
     ses := {| outbox := []; ses_fail := up |};
     ADMIN_EMAIL := "admin@agowash.example";
     emitted := [] |}.

(** The second call to the chain times out. *)
Definition second_call_fails : nat → option string :=
  λ n, if decide (n = 1%nat) then Some "rpc timeout" else None.

(** The same world with a free-wash coupon on the ledger. *)
Definition with_coupon (coupon : Js.FreeWashStatus) (w : World) : World :=
  with_chain
    {| ledger := {| points_of := points_of (ledger (chain w));
                    nft_of := nft_of (ledger (chain w));
                    freeWash_of := {[ alice := coupon ]} |};
       onRecordTransaction := onRecordTransaction (chain w);
       encode := encode (chain w); chain_log := chain_log (chain w);
       chain_fail := chain_fail (chain w) |} w.

(** Available, unused, expired one day before the clock of [world]
    (whether the expiry is read in seconds or in milliseconds). *)
Definition lapsed_coupon : Js.FreeWashStatus :=
  {| Js.fw_available := true; Js.fw_expiryTime := 1714023629;
     Js.fw_used := false |}.

(** Available, unused, running for one more minute at the clock of
    [world] (expiry in seconds, the unit [recordTransaction] hands to the
    contract). *)
Definition running_coupon : Js.FreeWashStatus :=
  {| Js.fw_available := true; Js.fw_expiryTime := 1714110089;
     Js.fw_used := false |}.

(** A contract that, besides what [loyalty] does, rewrites the tier on
    the user's card from the new balance. *)
Definition loyalty_with_card (l : Ledger) (user : string) (seconds : Z)
    : Ledger * string :=
  let l' := (loyalty l user seconds).1 in
  let balance := default 0 (points_of l' !! user) in
  let old := default zero_nft (nft_of l' !! user) in
  ({| points_of := points_of l';
      nft_of := <[user := {| Js.nft_tokenId := Js.nft_tokenId old;
                             Js.nft_metadataURI := Js.nft_metadataURI old;
                             Js.nft_points := balance;
                             Js.nft_tier := determineTierByPoints (Js.VNum balance);
                             Js.nft_expiryTime := Js.nft_expiryTime old;
                             Js.nft_exists := Js.nft_exists old |}]> (nft_of l');
      freeWash_of := freeWash_of l' |},
   "0xabc123").

Definition with_contract (logic : Ledger → string → Z → Ledger * string)
    (w : World) : World :=
  with_chain
    {| ledger := ledger (chain w); onRecordTransaction := logic;
       encode := encode (chain w); chain_log := chain_log (chain w);
       chain_fail := chain_fail (chain w) |} w.

Definition wash : Request :=
  {| body_userAddress := alice; body_date := "2024-04-26";
     body_vehicleType := "Motor Kecil"; body_serviceType := "Reguler";
     body_price := 15000; app_io := true |}.

End Demo.

(** ** Observations used in the statements *)

(** Would the next Redis command be rejected? *)
Definition redis_down (w : World) : bool :=
  redis_fail (redis w) (length (redis_log (redis w))).

(** Would the next call to the chain fail, and with which message? *)
Definition chain_down (w : World) : option string :=
  chain_fail (chain w) (length (chain_log (chain w))).

Definition cache_reachable (w : World) : Prop :=
  ∀ n, redis_fail (redis w) n = false.

Definition cache_unreachable (w : World) : Prop :=
  ∀ n, redis_fail (redis w) n = true.

Definition chain_healthy (w : World) : Prop :=
  ∀ n, chain_fail (chain w) n = None.

Definition store_healthy (w : World) : Prop :=
  ∀ n, mongo_fail (mongo w) n = None.

(** Would the next request to MongoDB be rejected, and with which message? *)
Definition mongo_down (w : World) : option string :=
  mongo_fail (mongo w) (mongo_ops (mongo w)).

(** The world after one more MongoDB request that left the session as [s]
    and the committed transactions as [txs]. *)
Definition mongo_served (s : Session) (txs : list Transaction) (w : World) : World :=
  with_mongo {| users := users (mongo w); transactions := txs; session := s;
                mongo_ops := S (mongo_ops (mongo w));
                mongo_fail := mongo_fail (mongo w) |} w.

(** What a served [GET key] answers. *)
Definition cached (key : string) (w : World) : option Js.value :=
  match keyspace (redis w) !! key with
  | Some e => if live (clock w) e then Some (payload e) else None
  | None => None
  end.

(** What [getCachedData key] answers: a rejected [GET] counts as a miss. *)
Definition cache_answer (key : string) (w : World) : option Js.value :=
  if redis_down w then None else cached key w.

Definition on_chain_points (user : string) (l : Ledger) : Z :=
  default 0 (points_of l !! user).

Definition on_chain_card (user : string) (l : Ledger) : Js.NFTMetadata :=
  default zero_nft (nft_of l !! user).

Definition on_chain_coupon (user : string) (l : Ledger) : Js.FreeWashStatus :=
  default zero_status (freeWash_of l !! user).

(** The card as [getNFTMetadata] hands it on after a chain read. *)
Definition transformed (metadata : Js.NFTMetadata) : Js.value :=
  Js.VNft
    {| Js.nft_tokenId := Js.Number (Js.nft_tokenId metadata);
       Js.nft_metadataURI := Js.nft_metadataURI metadata;
       Js.nft_points := Js.Number (Js.nft_points metadata);
       Js.nft_tier := Js.nft_tier metadata;
       Js.nft_expiryTime := Js.Number (Js.nft_expiryTime metadata);
       Js.nft_exists := Js.nft_exists metadata |}.

Definition registered (address : string) (w : World) : option User :=
  find (λ u, bool_decide (userAddress u = address)) (users (mongo w)).

(** The world after one more logged Redis command that left the keyspace
    as [ks]. *)
Definition redis_logged (c : RedisCommand) (ks : gmap string Entry) (w : World) : World :=
  with_redis {| keyspace := ks; redis_log := redis_log (redis w) ++ [c];
                redis_fail := redis_fail (redis w) |} w.

(** The world after one more logged chain call that left the ledger as [l]. *)
Definition chain_logged (c : ChainCall) (l : Ledger) (w : World) : World :=
  with_chain {| ledger := l; onRecordTransaction := onRecordTransaction (chain w);
                encode := encode (chain w);
                chain_log := chain_log (chain w) ++ [c];
                chain_fail := chain_fail (chain w) |} w.

(** The world after [invalidateCache key]. *)
Definition invalidated (key : string) (w : World) : World :=
  redis_logged (DEL key)
    (if redis_down w then keyspace (redis w) else delete key (keyspace (redis w)))
    w.

(** The three keys [recordTransaction] invalidates. *)
Definition user_keys (userAddress : string) : list string :=
  [ generateKey CacheKeys.USER_POINTS userAddress;
    generateKey CacheKeys.FREE_WASH_STATUS userAddress;
    generateKey CacheKeys.NFT_METADATA userAddress ].

(** From [w] to [w'] the ledger is untouched and the chain saw at most
    reads of the user's points: nothing was signed, nothing was written. *)
Definition only_read_points (a : string) (w w' : World) : Prop :=
  ledger (chain w') = ledger (chain w) ∧
  ∀ c, c ∈ chain_log (chain w') →
       c ∈ chain_log (chain w) ∨ c = call_getUserPoints a.

(** A read through the cache replaces Redis by [r] and the chain handle by
    [c]: the oracles, the ledger and the contract are what they were. *)
Record read_only (w : World) (r : Redis) (c : Chain) : Prop := {
  ro_redis_fail : redis_fail r = redis_fail (redis w);
  ro_chain_fail : chain_fail c = chain_fail (chain w);
  ro_ledger : ledger c = ledger (chain w);
  ro_logic : onRecordTransaction c = onRecordTransaction (chain w);
  ro_encode : encode c = encode (chain w)
}.

(** The activity predicate in the words of the specification:
    [coupon.available && !coupon.used && now < coupon.expiryTime]. *)
Definition spec_isActive (coupon : Js.FreeWashStatus) (now : Z) : bool :=
  Js.fw_available coupon && negb (Js.fw_used coupon)
  && (now <? Js.fw_expiryTime coupon).

(** The two notifications of the transaction handler. *)
Definition tier_mail (w : World) : Mail :=
  {| mail_to := ADMIN_EMAIL w;
     mail_subject := "[AGO WASH] User Tier Upgrade Notification";
     mail_category := "tier-upgrade" |}.

Definition free_wash_mail (to : string) : Mail :=
  {| mail_to := to; mail_subject := "[AGO WASH] Free Wash Coupon Activated";
     mail_category := "free-wash-activated" |}.

(** The document the transaction handler writes for a request. *)
Definition document (req : Request) (w : World) : Transaction :=
  {| tx_userAddress := trim (toLowerCase (body_userAddress req));
     tx_date := body_date req; tx_vehicleType := body_vehicleType req;
     tx_serviceType := body_serviceType req; tx_price := body_price req;
     recordedOnChain := false; blockchainTxHash := None;
     createdAt := clock w |}.

(** The world in which the handler calls the gateway: the session is
    open and holds the unconfirmed document; two requests went to
    MongoDB. *)
Definition persisted (req : Request) (w : World) : World :=
  with_mongo {| users := users (mongo w);
                transactions := transactions (mongo w);
                session := InTransaction (Some (document req w));
                mongo_ops := S (S (mongo_ops (mongo w)));
                mongo_fail := mongo_fail (mongo w) |} w.

(** The world after [abortTransaction]. *)
Definition aborted (w : World) : World :=
  with_mongo (set_session Aborted (mongo w)) w.

Definition blockchain_error (message : string) : Response :=
  {| status := 500;
     json := Failure "Blockchain Error"
               ("Failed to record transaction on blockchain: " +:+ message) |}.

Definition internal_error : Response :=
  {| status := 500;
     json := Failure "Internal Server Error" "Failed to record transaction" |}.

Definition user_not_found : Response :=
  {| status := 404;
     json := Failure "User Not Found" "User with this address does not exist" |}.

(** Messages of one category handed to SES, and tier events emitted. *)
Definition mails_of (category : string) (w : World) : list (Mail * bool) :=
  filter (λ m, mail_category m.1 = category) (outbox (ses w)).

Definition is_tier_upgraded (e : Event) : bool :=
  match e with tier_upgraded _ _ _ _ => true | _ => false end.

Definition tier_events (w : World) : list Event :=
  filter (λ e, is_tier_upgraded e = true) (emitted w).

(** ** More of the controllers

    Handlers whose bodies are not the three constructors of [Body] answer
    with a [Reply]: the status and the JSON body on success, the status
    with [{ error, message }] otherwise. *)

Inductive Reply (B : Type) :=
| Replied (status : Z) (body : B)
| Refused (status : Z) (error message : string).
Arguments Replied {B} status body.
Arguments Refused {B} status error message.

(** [Promise.all(list.map(async ...))]: every promise is started, in list
    order, before any is awaited, so each one has its effects whether or
    not another one rejects; the result rejects when one of them does
    (here with the error of the first in list order). *)
Fixpoint Promise_all {A} (promises : list (M A)) : M (list A) :=
  match promises with
  | [] => ret []
  | promise :: rest =>
      λ w,
        match promise w with
        | (Ok a, w1) =>
            match Promise_all rest w1 with
            | (Ok l, w2) => (Ok (a :: l), w2)
            | (Throw e, w2) => (Throw e, w2)
            end
        | (Throw e, w1) => (Throw e, (Promise_all rest w1).2)
        end
  end.

(** [Transaction.find({ date }).sort({ createdAt: -1 })].  The query runs
    outside any session and sees the committed documents; documents with
    equal [createdAt] come in the order the sort leaves them. *)
Definition newest_first (x y : Transaction) : Prop := createdAt y <= createdAt x.

#[global] Instance newest_first_dec (x y : Transaction) : Decision (newest_first x y) :=
  decide (createdAt y <= createdAt x).

Definition Transaction_find_by_date (date : string) : M (list Transaction) :=
  mongo_request (λ m,
    (merge_sort newest_first
       (filter (λ t, tx_date t = date) (transactions m)), m)).

Record TransactionRow := {
  row_userAddress : string;
  row_userName : string;
  row_date : string;
  row_vehicleType : string;
  row_serviceType : string;
  row_price : Z;
  row_createdAt : Z
}.

(** controllers/transactionController.js, [getTransactionsByDate]. *)
Definition getTransactionsByDate (date : string) : M (Reply (list TransactionRow)) :=
  try_catch
    (let! transactions := Transaction_find_by_date date in
     let! rows :=
       Promise_all
         (map (λ tx,
                 let! user := User_findOne (tx_userAddress tx) in
                 ret {| row_userAddress := tx_userAddress tx;
                        row_userName := match user with
                                        | Some u => name u
                                        | None => "Unknown"
                                        end;
                        row_date := tx_date tx;
                        row_vehicleType := tx_vehicleType tx;
                        row_serviceType := tx_serviceType tx;
                        row_price := tx_price tx;
                        row_createdAt := createdAt tx |})
              transactions) in
     ret (Replied 200 rows))
    (λ error,
       ret (Refused 500 "Internal Server Error" "Failed to get transactions")).

(** controllers/blockchainController.js, [getUserPointsHandler] and
    [signRedeem]. *)
Definition getUserPointsHandler (userAddress : string) : M (Reply Js.value) :=
  try_catch
    (let! points := getUserPoints userAddress in
     ret (Replied 200 points))
    (λ error,
       ret (Refused 500 "Blockchain Error" "Failed to get user points")).

Definition signRedeem (userAddress : string) (packageType nonce : Z)
    : M (Reply string) :=
  try_catch
    (let! signature := signRedeemPackage userAddress packageType nonce in
     ret (Replied 200 signature))
    (λ error, ret (Refused 400 "Signature Error" error)).

(** ** services/ipfsService.js, frames and metadata *)

(** The three variables of [process.env] the frames are read from; a
    variable is a string or unset. *)
Record FrameEnv := {
  BRONZE_FRAME_CID : option string;
  SILVER_FRAME_CID : option string;
  GOLD_FRAME_CID : option string
}.

(** A template literal renders [undefined] as the word. *)
Definition interpolate (v : option string) : string := default "undefined" v.

(** [None] is [null]. *)
Definition getFrameUrlByTier (env : FrameEnv) (tier : string) : option string :=
  let t := toLowerCase tier in
  if bool_decide (t = "bronze") then
    Some ("ipfs://" +:+ interpolate (BRONZE_FRAME_CID env))
  else if bool_decide (t = "silver") then
    Some ("ipfs://" +:+ interpolate (SILVER_FRAME_CID env))
  else if bool_decide (t = "gold") then
    Some ("ipfs://" +:+ interpolate (GOLD_FRAME_CID env))
  else None.

Record Attribute := { trait_type : string; value : string }.

Record Metadata := {
  md_name : string;
  md_image : string;
  md_tier : string;
  md_frame : option string;
  md_description : string;
  md_attributes : list Attribute
}.

Definition generateNFTMetadata (imageUrl tier : string) (frame : option string)
    : Metadata :=
  {| md_name := "AGO WASH Loyalty NFT";
     md_image := imageUrl;
     md_tier := tier;
     md_frame := frame;
     md_description := "AGO WASH Loyalty Program NFT";
     md_attributes := [ {| trait_type := "Tier"; value := tier |} ] |}.

(** ** middlewares/auth.js

    A middleware either calls [next()] or ends the request with a status
    and [{ error, message }]. *)

Inductive Verdict :=
| Next
| Denied (status : Z) (error message : string).

(** [s.startsWith(prefix)]. *)
Fixpoint startsWith (s prefix : string) {struct prefix} : bool :=
  match prefix, s with
  | EmptyString, _ => true
  | String p ps, String c cs => bool_decide (c = p) && startsWith cs ps
  | String _ _, EmptyString => false
  end.

(** [s.split(separator)] for a one-character separator. *)
Fixpoint split (separator : ascii) (s : string) : list string :=
  match s with
  | EmptyString => [EmptyString]
  | String c r =>
      if bool_decide (c = separator) then EmptyString :: split separator r
      else match split separator r with
           | first :: rest => String c first :: rest
           | [] => [String c EmptyString]
           end
  end.

(** Truthiness of a string that may be [undefined]: the empty string is
    falsy. *)
Definition truthy (s : option string) : bool :=
  match s with
  | Some (String _ _) => true
  | _ => false
  end.

(** [a || b]. *)
Definition or_else (a b : option string) : option string :=
  if truthy a then a else b.

(** A string without a space. *)
Fixpoint space_free (s : string) : bool :=
  match s with
  | EmptyString => true
  | String c r => negb (bool_decide (c = " "%char)) && space_free r
  end.

(** [authHeader.split(' ')[1]]; [None] is [undefined]. *)
Definition bearer (authHeader : string) : option string :=
  split " " authHeader !! 1%nat.

(** [checkApiKey], with [process.env.API_KEY] and
    [req.headers.authorization] as arguments.  Nothing in its [try] block
    throws, so its [catch] (500) is never entered. *)
Definition checkApiKey (API_KEY authorization : option string) : Verdict :=
  match authorization with
  | Some authHeader =>
      if negb (truthy authorization) || negb (startsWith authHeader "Bearer ") then
        Denied 401 "Unauthorized" "Missing or invalid API key"
      else
        let apiKey := bearer authHeader in
        if bool_decide (apiKey ≠ API_KEY) then
          Denied 401 "Unauthorized" "Invalid API key"
        else Next
  | None => Denied 401 "Unauthorized" "Missing or invalid API key"
  end.

(** The request as [checkAdmin] reads it, with address fields that are
    strings where they are present; a field of another JSON type is
    outside this record. *)
Record AdminRequest := {
  headers_authorization : option string;
  body_adminAddress : option string;
  query_adminAddress : option string;
  body_callerAddress : option string;
  query_callerAddress : option string
}.

(** The address [checkAdmin] takes for the caller's. *)
Definition adminAddress_of (req : AdminRequest) : option string :=
  or_else (body_adminAddress req)
    (or_else (query_adminAddress req)
       (or_else (body_callerAddress req) (query_callerAddress req))).

Definition key_refused (API_KEY : option string) (req : AdminRequest) : bool :=
  match headers_authorization req with
  | Some authHeader =>
      negb (truthy (headers_authorization req))
      || negb (startsWith authHeader "Bearer ")
      || bool_decide (bearer authHeader ≠ API_KEY)
  | None => true
  end.

Section checkAdmin.

(** [isAdmin] of services/blockchainService.js reads the list of admins
    through a cache entry of its own; [checkAdmin] is embedded over any
    implementation of it. *)
Variable isAdmin : string → M bool.

(** The verdict and, after [next()], [req.adminAddress]. *)
Definition checkAdmin (API_KEY : option string) (req : AdminRequest)
    : M (Verdict * option string) :=
  try_catch
    (if key_refused API_KEY req then
       ret (Denied 401 "Unauthorized" "Invalid API key", None)
     else
       let adminAddress := adminAddress_of req in
       match adminAddress with
       | Some address =>
           if negb (truthy adminAddress) then
             ret (Denied 400 "Bad Request" "Admin address is required", None)
           else
             let! admin := isAdmin address in
             if negb admin then
               ret (Denied 403 "Forbidden" "Not authorized as admin", None)
             else ret (Next, Some address)
       | None => ret (Denied 400 "Bad Request" "Admin address is required", None)
       end)
    (λ error,
       ret (Denied 500 "Internal Server Error"
              "An error occurred during admin authentication", None)).

End checkAdmin.

(** ** middlewares/validation.js and the models: addresses

    [/^0x[a-fA-F0-9]{40}$/], the pattern of [ethereumAddressSchema] and of
    the [match] of [userAddress] in models/Transaction.js. *)

Definition is_hex (c : ascii) : bool :=
  let n := nat_of_ascii c in
  ((48 <=? n)%nat && (n <=? 57)%nat)
  || ((97 <=? n)%nat && (n <=? 102)%nat)
  || ((65 <=? n)%nat && (n <=? 70)%nat).

Fixpoint all_hex (s : string) : bool :=
  match s with
  | EmptyString => true
  | String c r => is_hex c && all_hex r
  end.

Definition ethereumAddress (s : string) : bool :=
  match s with
  | String "0" (String "x" digits) =>
      (String.length digits =? 40)%nat && all_hex digits
  | _ => false
  end.

(** ** controllers/priceController.js

    The module imports [CacheKeys], [generateKey], [cacheData] and
    [invalidateCache] from the cache service, not [getCachedData]: the
    name is unbound where [getPrices] calls it, and the call throws a
    [ReferenceError].  The store of prices and the shape of the answer
    are those of mongoose and of [formatPricesResponse]; the handlers are
    embedded over any of them. *)

Definition unbound {A} (name : string) : M A :=
  throw (name +:+ " is not defined").

Record PriceTable := { kecil : option Z; sedang : option Z; besar : option Z }.

(** Truthiness of a number that may be [undefined]: zero is falsy. *)
Definition truthy_number (n : option Z) : bool :=
  match n with
  | Some 0 => false
  | Some _ => true
  | None => false
  end.

Record PriceBody := {
  body_vehicle : option string;
  body_priceServiceType : option string;
  body_prices : option PriceTable
}.

Section priceController.

Variables (Prices Formatted PriceDocument : Type).
Variable Price_find : M Prices.
Variable cachePrices : string → Prices → Z → M bool.
Variable formatPricesResponse : Prices → Formatted.
Variable Price_findOneAndUpdate : string → string → PriceTable → M PriceDocument.

Definition getPrices : M (Reply Formatted) :=
  try_catch
    (let cacheKey := generateKey CacheKeys.PRICES "all" in
     let! cachedPrices := unbound (A := option Prices) "getCachedData" in
     match cachedPrices with
     | Some cached => ret (Replied 200 (formatPricesResponse cached))
     | None =>
         let! prices := Price_find in
         do! cachePrices cacheKey prices (60 * 60) in
         ret (Replied 200 (formatPricesResponse prices))
     end)
    (λ error, ret (Refused 500 "Internal Server Error" "Failed to get prices")).

Definition updatePrice (body : PriceBody) : M (Reply PriceDocument) :=
  try_catch
    (match body_vehicle body, body_priceServiceType body, body_prices body with
     | Some vehicle, Some serviceType, Some prices =>
         if negb (truthy (body_vehicle body))
            || negb (truthy (body_priceServiceType body)) then
           ret (Refused 400 "Bad Request"
                  "vehicle, serviceType, and prices are required")
         else if negb (truthy_number (kecil prices))
                 || negb (truthy_number (sedang prices))
                 || negb (truthy_number (besar prices)) then
           ret (Refused 400 "Bad Request"
                  "prices must include kecil, sedang, and besar")
         else
           let! result := Price_findOneAndUpdate vehicle serviceType prices in
           do! invalidateCache (generateKey CacheKeys.PRICES "all") in
           ret (Replied 200 result)
     | _, _, _ =>
         ret (Refused 400 "Bad Request"
                "vehicle, serviceType, and prices are required")
     end)
    (λ error, ret (Refused 500 "Internal Server Error" "Failed to update price")).

End priceController.

(** ** Further observations *)

(** Position of a tier in the order Bronze, Silver, Gold. *)
Definition tier_rank (tier : string) : nat :=
  if bool_decide (tier = "Gold") then 2
  else if bool_decide (tier = "Silver") then 1
  else 0.

(** A string without [":"], as the prefixes of [CacheKeys] are. *)
Fixpoint colon_free (s : string) : bool :=
  match s with
  | EmptyString => true
  | String c r => negb (bool_decide (c = ":"%char)) && colon_free r
  end.

(** The world after [n] more served requests to MongoDB that changed no
    data. *)
Definition mongo_counted (n : nat) (w : World) : World :=
  with_mongo {| users := users (mongo w); transactions := transactions (mongo w);
                session := session (mongo w);
                mongo_ops := (n + mongo_ops (mongo w))%nat;
                mongo_fail := mongo_fail (mongo w) |} w.

(** The row [getTransactionsByDate] shows for a document. *)
Definition row_of (w : World) (tx : Transaction) : TransactionRow :=
  {| row_userAddress := tx_userAddress tx;
     row_userName := match registered (tx_userAddress tx) w with
                     | Some u => name u
                     | None => "Unknown"
                     end;
     row_date := tx_date tx;
     row_vehicleType := tx_vehicleType tx;
     row_serviceType := tx_serviceType tx;
     row_price := tx_price tx;
     row_createdAt := createdAt tx |}.

(** The rows of a day as a served [getTransactionsByDate] shows them. *)
Definition listed (date : string) (w : World) : list TransactionRow :=
  map (row_of w)
    (merge_sort newest_first
       (filter (λ t, tx_date t = date) (transactions (mongo w)))).

(** From [w] to [w'] only Redis and the chain may differ: the store, the
    outbox, the socket and the clock are what they were. *)
Record outside_gateway (w w' : World) : Prop := {
  og_mongo : mongo w' = mongo w;
  og_ses : ses w' = ses w;
  og_emitted : emitted w' = emitted w;
  og_clock : clock w' = clock w;
  og_admin : ADMIN_EMAIL w' = ADMIN_EMAIL w
}.

(** The deployment of [Demo] with three washes on the books, two of them
    on 26 April 2024. *)
Module Books.

Definition wash_at (date : string) (at_ms : Z) : Transaction :=
  {| tx_userAddress := Demo.alice; tx_date := date;
     tx_vehicleType := "Motor Kecil"; tx_serviceType := "Reguler";
     tx_price := 15000; recordedOnChain := true;
     blockchainTxHash := Some "0xabc123"; createdAt := at_ms |}.

Definition world (store_oracle : nat → option string) : World :=
  with_mongo
    {| users := users (mongo (Demo.world 950 Demo.up Demo.healthy));
       transactions := [ wash_at "2024-04-25" 1714020000000;
                         wash_at "2024-04-26" 1714100000000;
                         wash_at "2024-04-26" 1714108000000 ];
       session := NoSession; mongo_ops := 0; mongo_fail := store_oracle |}
    (Demo.world 950 Demo.up Demo.healthy).

(** The third request to the store is rejected. *)
Definition third_request_fails : nat → option string :=
  λ n, if decide (n = 2%nat) then Some "connection reset" else None.

(** The second request to the store, the first save of the transaction
    handler, is rejected. *)
Definition save_fails : nat → option string :=
  λ n, match n with 1%nat => Some "write conflict" | _ => None end.

End Books.

(** An address as the schema setters store it, lower-cased and trimmed:
    for such an address the filter mongoose casts for [User.findOne] is
    the address itself. *)
Definition stored_form (address : string) : Prop :=
  trim (toLowerCase address) = address.

(** The fourth request of the transaction handler to the store, its
    commit when it gets that far, is not rejected.  (After a rejected
    commit the driver refuses [abortTransaction]; the statements that
    assume [commit_served] leave that case out.) *)
Definition commit_served (w : World) : Prop :=
  mongo_fail (mongo w) (3 + mongo_ops (mongo w))%nat = None.

(** From now on the store serves every request. *)
Definition store_serves (w : World) : Prop :=
  ∀ n, mongo_fail (mongo w) (mongo_ops (mongo w) + n)%nat = None.

(** The deployment of [Demo] with a warm cache: the points, the card and
    the coupon of the user were read once, so the three entries are
    cached. *)
Module Warm.

Definition bob : string := "0x00000000000000000000000000000000000000b2".

Definition after_reads (w : World) : World :=
  (getFreeWashStatus Demo.alice
     (getNFTMetadata Demo.alice (getUserPoints Demo.alice w).2).2).2.

Definition world : World := after_reads (Demo.world 950 Demo.up Demo.healthy).

(** Redis rejects its seventh to ninth command: the three deletes that
    follow the three reads (a [GET] and a [SETEX] each). *)
Definition deletes_rejected : nat → bool :=
  λ n, (6 <=? n)%nat && (n <=? 8)%nat.

Definition flaky : World := after_reads (Demo.world 950 deletes_rejected Demo.healthy).

End Warm.

(** * Properties *)

(** ** The tier engine *)

(** C5: for every non-negative integer point value [p] the tier is Bronze
    iff 0 <= p < 1000, Silver iff 1000 <= p < 5000 and Gold iff
    p >= 5000; the four boundary values 999, 1000, 4999, 5000 fall on
    Bronze, Silver, Silver, Gold.  [determineTierByPoints] is a total
    function with no state. *)
Theorem determineTierByPoints_intervals (p : Z) (Hp : 0 <= p) :
  (determineTierByPoints (Js.VNum p) = "Bronze" <-> 0 <= p < 1000) /\
  (determineTierByPoints (Js.VNum p) = "Silver" <-> 1000 <= p < 5000) /\
  (determineTierByPoints (Js.VNum p) = "Gold" <-> 5000 <= p) /\
  determineTierByPoints (Js.VNum 999) = "Bronze" /\
  determineTierByPoints (Js.VNum 1000) = "Silver" /\
  determineTierByPoints (Js.VNum 4999) = "Silver" /\
  determineTierByPoints (Js.VNum 5000) = "Gold".
Proof.
  unfold determineTierByPoints, Js.ge.
  repeat split; try reflexivity; try lia;
    repeat case_match; try discriminate; try lia; intros; try reflexivity; lia.
Qed.

Lemma determineTierByPoints_intervals_witness :
  0 <= 1010 /\ determineTierByPoints (Js.VNum 1010) = "Silver".
Proof.
  split; [lia |].
  apply (determineTierByPoints_intervals 1010); lia.
Defined.

(** ** The monad *)

Lemma try_catch_rethrow {A} (m : M A) (w : World) :
  try_catch m (λ error, throw error) w = m w.
Proof.
  unfold try_catch, throw. destruct (m w) as [[a|e] w']; reflexivity.
Qed.

Lemma bind_ok {A B} (m : M A) (k : A → M B) (w w' : World) (a : A) :
  m w = (Ok a, w') → bind m k w = k a w'.
Proof. unfold bind. intros ->. reflexivity. Qed.

Lemma bind_throw {A B} (m : M A) (k : A → M B) (w w' : World) (e : string) :
  m w = (Throw e, w') → bind m k w = (Throw e, w').
Proof. unfold bind. intros ->. reflexivity. Qed.

Lemma try_catch_ok {A} (m : M A) (h : string → M A) (w w' : World) (a : A) :
  m w = (Ok a, w') → try_catch m h w = (Ok a, w').
Proof. unfold try_catch. intros ->. reflexivity. Qed.

Lemma try_catch_throw {A} (m : M A) (h : string → M A) (w w' : World) (e : string) :
  m w = (Throw e, w') → try_catch m h w = h e w'.
Proof. unfold try_catch. intros ->. reflexivity. Qed.

(** Symbolic execution: take the first statement of a block once its
    outcome is known, then put every world back in normal form. *)
Ltac run_ok tac := erewrite bind_ok; [cbv beta | tac].
Ltac run_throw tac := erewrite bind_throw; [cbv beta | tac].

Ltac tidy :=
  cbn [clock redis chain mongo ses ADMIN_EMAIL emitted
       with_clock with_redis with_chain with_mongo with_ses with_emitted
       users transactions session mongo_ops mongo_fail set_session mongo_served
       keyspace redis_log redis_fail redis_logged invalidated
       ledger onRecordTransaction encode chain_log chain_fail chain_logged
       outbox ses_fail txHash success fst snd].

(** ** The cache layer never throws *)

Lemma getCachedData_run (key : string) (w : World) :
  getCachedData key w =
    (Ok (if redis_down w then None else cached key w),
     redis_logged (GET key) (keyspace (redis w)) w).
Proof.
  unfold getCachedData, try_catch, bind, redis_get, redis_command,
    redis_down, cached, redis_logged.
  destruct (redis_fail (redis w) (length (redis_log (redis w)))); simpl.
  - reflexivity.
  - destruct (keyspace (redis w) !! key) as [e|]; [destruct (live (clock w) e)|];
      reflexivity.
Qed.

Lemma cacheData_run (key : string) (data : Js.value) (seconds : Z) (w : World) :
  cacheData key data seconds w =
    (Ok (negb (redis_down w)),
     redis_logged (SETEX key seconds data)
       (if redis_down w then keyspace (redis w)
        else <[key := {| payload := data;
                         expireAt := clock w + seconds * 1000 |}]>
               (keyspace (redis w))) w).
Proof.
  unfold cacheData, try_catch, bind, redis_setEx, redis_command, redis_down,
    redis_logged.
  destruct (redis_fail (redis w) (length (redis_log (redis w)))); reflexivity.
Qed.

Lemma invalidateCache_run (key : string) (w : World) :
  invalidateCache key w = (Ok (negb (redis_down w)), invalidated key w).
Proof.
  unfold invalidated, invalidateCache, try_catch, bind, redis_del, redis_command,
    redis_down, redis_logged.
  destruct (redis_fail (redis w) (length (redis_log (redis w)))); reflexivity.
Qed.

(** ** Calls to the contract *)

Lemma chain_call_run {A} (c : ChainCall) (run : Chain → A * Ledger) (w : World) :
  chain_call c run w =
    match chain_down w with
    | Some message => (Throw message, chain_logged c (ledger (chain w)) w)
    | None => (Ok (run (chain w)).1, chain_logged c (run (chain w)).2 w)
    end.
Proof.
  unfold chain_call, chain_down, chain_logged.
  destruct (chain_fail (chain w) (length (chain_log (chain w)))); [reflexivity|].
  destruct (run (chain w)); reflexivity.
Qed.

(** Different prefixes give different keys. *)
Lemma user_keys_NoDup (a : string) : NoDup (user_keys a).
Proof.
  unfold user_keys, generateKey.
  repeat constructor; rewrite ?elem_of_cons, ?elem_of_nil; simpl;
    intuition discriminate.
Qed.

(** ** Read-through reads *)

Lemma getUserPoints_run (a : string) (w : World) :
  let key := generateKey CacheKeys.USER_POINTS a in
  let w1 := redis_logged (GET key) (keyspace (redis w)) w in
  getUserPoints a w =
    match (if redis_down w then None else cached key w) with
    | Some v => (Ok v, w1)
    | None =>
        match chain_down w with
        | Some message =>
            (Throw message, chain_logged (call_getUserPoints a) (ledger (chain w)) w1)
        | None =>
            let v := Js.VNum (Js.Number (on_chain_points a (ledger (chain w)))) in
            let w2 := chain_logged (call_getUserPoints a) (ledger (chain w)) w1 in
            (Ok v,
             redis_logged (SETEX key DEFAULT_EXPIRY v)
               (if redis_down w2 then keyspace (redis w2)
                else <[key := {| payload := v;
                                 expireAt := clock w + DEFAULT_EXPIRY * 1000 |}]>
                       (keyspace (redis w2))) w2)
        end
    end.
Proof.
  intros key w1. unfold getUserPoints. rewrite try_catch_rethrow.
  fold key. unfold bind at 1. rewrite getCachedData_run. fold w1.
  destruct (if redis_down w then None else cached key w) as [v|]; [reflexivity|].
  unfold bind at 1, contract_getUserPoints. rewrite chain_call_run.
  change (chain_down w1) with (chain_down w).
  destruct (chain_down w) as [message|]; [reflexivity|].
  cbn [fst snd]. unfold bind. rewrite cacheData_run. reflexivity.
Qed.

Lemma getNFTMetadata_run (a : string) (w : World) :
  let key := generateKey CacheKeys.NFT_METADATA a in
  let w1 := redis_logged (GET key) (keyspace (redis w)) w in
  getNFTMetadata a w =
    match (if redis_down w then None else cached key w) with
    | Some v => (Ok v, w1)
    | None =>
        match chain_down w with
        | Some message =>
            (Throw message, chain_logged (call_getNFTMetadata a) (ledger (chain w)) w1)
        | None =>
            let v := transformed (on_chain_card a (ledger (chain w))) in
            let w2 := chain_logged (call_getNFTMetadata a) (ledger (chain w)) w1 in
            (Ok v,
             redis_logged (SETEX key DEFAULT_EXPIRY v)
               (if redis_down w2 then keyspace (redis w2)
                else <[key := {| payload := v;
                                 expireAt := clock w + DEFAULT_EXPIRY * 1000 |}]>
                       (keyspace (redis w2))) w2)
        end
    end.
Proof.
  intros key w1. unfold getNFTMetadata. rewrite try_catch_rethrow.
  fold key. unfold bind at 1. rewrite getCachedData_run. fold w1.
  destruct (if redis_down w then None else cached key w) as [v|]; [reflexivity|].
  unfold bind at 1, contract_getNFTMetadata. rewrite chain_call_run.
  change (chain_down w1) with (chain_down w).
  destruct (chain_down w) as [message|]; [reflexivity|].
  cbn [fst snd]. unfold bind. rewrite cacheData_run. reflexivity.
Qed.

(** ** The write path of the gateway *)

Lemma recordTransaction_run (a : string) (timestamp : Z) (w : World) :
  let call := call_recordTransaction a (timestamp `div` 1000) in
  recordTransaction a timestamp w =
    match chain_down w with
    | Some message => (Throw message, chain_logged call (ledger (chain w)) w)
    | None =>
        let out := onRecordTransaction (chain w) (ledger (chain w)) a
                     (timestamp `div` 1000) in
        (Ok {| success := true; txHash := out.2 |},
         invalidated (generateKey CacheKeys.NFT_METADATA a)
           (invalidated (generateKey CacheKeys.FREE_WASH_STATUS a)
              (invalidated (generateKey CacheKeys.USER_POINTS a)
                 (chain_logged call out.1 w))))
    end.
Proof.
  intros call. unfold recordTransaction. rewrite try_catch_rethrow.
  unfold bind at 1, contract_call_recordTransaction. rewrite chain_call_run.
  fold call. destruct (chain_down w) as [message|]; [reflexivity|].
  destruct (onRecordTransaction (chain w) (ledger (chain w)) a
              (timestamp `div` 1000)) as [l h] eqn:Hout.
  cbn [fst snd]. unfold bind. rewrite !invalidateCache_run. reflexivity.
Qed.

Lemma redis_log_invalidated (key : string) (w : World) :
  redis_log (redis (invalidated key w)) = redis_log (redis w) ++ [DEL key].
Proof. reflexivity. Qed.

Lemma keyspace_invalidated (key : string) (w : World) :
  keyspace (redis (invalidated key w)) =
    if redis_down w then keyspace (redis w) else delete key (keyspace (redis w)).
Proof. reflexivity. Qed.

(** An invalidation can only remove its own key. *)
Lemma invalidated_lookup (key k : string) (w : World) :
  keyspace (redis (invalidated key w)) !! k =
    if bool_decide (k = key) && negb (redis_down w) then None
    else keyspace (redis w) !! k.
Proof.
  rewrite keyspace_invalidated.
  destruct (redis_down w); simpl.
  - rewrite andb_false_r. reflexivity.
  - rewrite andb_true_r. rewrite lookup_delete. 
    case_bool_decide; case_decide; congruence.
Qed.

Lemma invalidated_gone (key : string) (w : World) :
  redis_down w = false → keyspace (redis (invalidated key w)) !! key = None.
Proof.
  intros Hup. rewrite invalidated_lookup, Hup.
  rewrite bool_decide_eq_true_2 by reflexivity. reflexivity.
Qed.

Lemma invalidated_stays_gone (key k : string) (w : World) :
  keyspace (redis w) !! k = None →
  keyspace (redis (invalidated key w)) !! k = None.
Proof.
  intros Hk. rewrite invalidated_lookup, Hk. destruct (_ && _); reflexivity.
Qed.

Lemma redis_down_invalidated (key : string) (w : World) :
  redis_down (invalidated key w)
    = redis_fail (redis w) (length (redis_log (redis w)) + 1)%nat.
Proof. unfold redis_down. cbn. rewrite length_app. reflexivity. Qed.

(** C1: [recordTransaction] of the gateway.  When the call to the chain
    succeeds, the gateway answers [{ success: true, txHash }] after
    having issued, in this order, the invalidation of the user's points
    key, free-wash key and NFT-metadata key; every delete Redis serves
    removes its key, and no other key is touched.  When the call to the
    chain fails, its error is rethrown to the caller, no Redis command is
    issued and the cache is exactly what it was. *)
Theorem recordTransaction_write_invalidate (a : string) (timestamp : Z) (w : World) :
  let seconds := timestamp `div` 1000 in
  let out := onRecordTransaction (chain w) (ledger (chain w)) a seconds in
  (chain_down w = None →
   ∃ w', recordTransaction a timestamp w
           = (Ok {| success := true; txHash := out.2 |}, w')
     ∧ ledger (chain w') = out.1
     ∧ redis_log (redis w') = redis_log (redis w) ++ (DEL <$> user_keys a)
     ∧ (∀ (i : nat) (key : string),
          user_keys a !! i = Some key →
          redis_fail (redis w) (length (redis_log (redis w)) + i)%nat = false →
          keyspace (redis w') !! key = None)
     ∧ (∀ k, k ∉ user_keys a →
          keyspace (redis w') !! k = keyspace (redis w) !! k))
  ∧ (∀ message, chain_down w = Some message →
     ∃ w', recordTransaction a timestamp w = (Throw message, w')
       ∧ redis w' = redis w
       ∧ ledger (chain w') = ledger (chain w)).
Proof.
  intros seconds out. rewrite recordTransaction_run. fold seconds. split.
  - intros ->. fold out. eexists. split; [reflexivity|].
    split; [reflexivity|]. split.
    { rewrite !redis_log_invalidated. cbn. rewrite <- !app_assoc. reflexivity. }
    split.
    + intros i key Hi Hup. unfold user_keys in Hi.
      destruct i as [|[|[|i]]]; cbn in Hi; try discriminate;
        injection Hi as <-.
      * do 2 apply invalidated_stays_gone. apply invalidated_gone.
        unfold redis_down. cbn. rewrite <- Hup. f_equal. lia.
      * apply invalidated_stays_gone. apply invalidated_gone.
        rewrite redis_down_invalidated. exact Hup.
      * apply invalidated_gone. rewrite redis_down_invalidated.
        rewrite redis_log_invalidated, length_app. cbn.
        rewrite <- Hup. f_equal. lia.
    + intros k Hk. rewrite !invalidated_lookup.
      unfold user_keys in Hk. rewrite !not_elem_of_cons in Hk.
      destruct Hk as (H1 & H2 & H3 & _).
      rewrite !bool_decide_eq_false_2 by assumption. reflexivity.
  - intros message ->. eexists. split; [reflexivity|]. split; reflexivity.
Qed.

Lemma recordTransaction_write_invalidate_witness :
  cached (generateKey CacheKeys.USER_POINTS Demo.alice) Warm.world
  = Some (Js.VNum 950)
  ∧ cached (generateKey CacheKeys.FREE_WASH_STATUS Demo.alice) Warm.world
    = Some (Js.VStatus zero_status)
  ∧ cached (generateKey CacheKeys.NFT_METADATA Demo.alice) Warm.world
    = Some (transformed (Demo.card "Bronze" 0))
  ∧ chain_down Warm.world = None
  ∧ ∃ w', recordTransaction Demo.alice 1714110029873 Warm.world
          = (Ok {| success := true; txHash := "0xabc123" |}, w')
      ∧ on_chain_points Demo.alice (ledger (chain w')) = 1010
      ∧ keyspace (redis w') !! generateKey CacheKeys.USER_POINTS Demo.alice = None
      ∧ keyspace (redis w') !! generateKey CacheKeys.FREE_WASH_STATUS Demo.alice
        = None
      ∧ keyspace (redis w') !! generateKey CacheKeys.NFT_METADATA Demo.alice = None.
Proof.
  split; [reflexivity|]. split; [reflexivity|]. split; [reflexivity|].
  split; [reflexivity|].
  destruct (proj1 (recordTransaction_write_invalidate Demo.alice 1714110029873
                     Warm.world) eq_refl)
    as (w' & Hrun & Hledger & _ & Hgone & _).
  exists w'. split; [exact Hrun|]. split; [rewrite Hledger; reflexivity|].
  split; [apply (Hgone 0%nat); reflexivity|].
  split; [apply (Hgone 1%nat); reflexivity|apply (Hgone 2%nat); reflexivity].
Defined.

(** The gateway answers success over entries it could not delete: with
    the three entries cached and Redis rejecting the three deletes, the
    write goes through (the ledger holds 1010 points), the answer is
    [{ success: true, txHash }], and the entry cached before the write
    is still there; the next read, which Redis serves again, returns the
    950 points from before the write. *)
Lemma recordTransaction_success_over_stale_entries :
  (recordTransaction Demo.alice 1714110029873 Warm.flaky).1
  = Ok {| success := true; txHash := "0xabc123" |}
  ∧ on_chain_points Demo.alice
      (ledger (chain (recordTransaction Demo.alice 1714110029873 Warm.flaky).2))
    = 1010
  ∧ cached (generateKey CacheKeys.USER_POINTS Demo.alice)
      (recordTransaction Demo.alice 1714110029873 Warm.flaky).2
    = Some (Js.VNum 950)
  ∧ (getUserPoints Demo.alice
       (recordTransaction Demo.alice 1714110029873 Warm.flaky).2).1
    = Ok (Js.VNum 950).
Proof.
  split; [reflexivity|]. split; [reflexivity|]. split; reflexivity.
Qed.

(** ** Reads through the cache *)

Lemma cached_redis_logged (key : string) (c : RedisCommand) (w : World) :
  cached key (redis_logged c (keyspace (redis w)) w) = cached key w.
Proof. reflexivity. Qed.

(** An entry just set is served until its expiry. *)
Lemma cached_fresh (key : string) (c : RedisCommand) (v : Js.value) (w : World)
    (ks : gmap string Entry) (now dt : Z) :
  0 <= dt < DEFAULT_EXPIRY * 1000 →
  clock w = now →
  cached key
    (elapse dt
       (redis_logged c
          (<[key := {| payload := v; expireAt := now + DEFAULT_EXPIRY * 1000 |}]> ks)
          w)) = Some v.
Proof.
  intros Hdt Hnow. unfold cached, elapse. cbn.
  rewrite lookup_insert_eq. unfold live. cbn.
  rewrite Hnow, (proj2 (Z.ltb_lt _ _)) by lia. reflexivity.
Qed.

Lemma elapse_0 (w : World) : elapse 0 w = w.
Proof. unfold elapse, with_clock. rewrite Z.add_0_r. destruct w; reflexivity. Qed.

Lemma getUserPoints_hit (a : string) (w : World) (v : Js.value) :
  redis_down w = false →
  cached (generateKey CacheKeys.USER_POINTS a) w = Some v →
  getUserPoints a w
    = (Ok v, redis_logged (GET (generateKey CacheKeys.USER_POINTS a))
               (keyspace (redis w)) w).
Proof.
  intros Hup Hhit. rewrite getUserPoints_run. cbn zeta.
  rewrite Hup, Hhit. reflexivity.
Qed.

(** C7: with Redis reachable, a [getUserPoints] that answered [v] is
    followed by a [getUserPoints] that answers the same [v] from the
    cache: its only request is one [GET], and the chain is not called
    (its call log and ledger are what they were).  When the first call
    had to populate the cache, the same holds for a second call made any
    time before the ten-minute expiry. *)
Theorem getUserPoints_twice (a : string) (w w1 : World) (v : Js.value) :
  cache_reachable w →
  getUserPoints a w = (Ok v, w1) →
  let key := generateKey CacheKeys.USER_POINTS a in
  (∃ w2, getUserPoints a w1 = (Ok v, w2)
         ∧ chain w2 = chain w1
         ∧ redis_log (redis w2) = redis_log (redis w1) ++ [GET key])
  ∧ (cached key w = None →
     ∀ dt, 0 <= dt < DEFAULT_EXPIRY * 1000 →
     ∃ w2, getUserPoints a (elapse dt w1) = (Ok v, w2)
           ∧ chain w2 = chain w1
           ∧ redis_log (redis w2) = redis_log (redis w1) ++ [GET key]).
Proof.
  intros Hup Hfirst key.
  (* a later call that finds [v] under the key is a hit *)
  assert (Hserved : ∀ dt, cached key (elapse dt w1) = Some v →
            redis_fail (redis w1) = redis_fail (redis w) →
            ∃ w2, getUserPoints a (elapse dt w1) = (Ok v, w2)
                  ∧ chain w2 = chain w1
                  ∧ redis_log (redis w2) = redis_log (redis w1) ++ [GET key]).
  { intros dt Hhit Horacle. eexists. split.
    - apply getUserPoints_hit; [|exact Hhit].
      unfold redis_down. cbn. rewrite Horacle. apply Hup.
    - split; reflexivity. }
  rewrite getUserPoints_run in Hfirst. fold key in Hfirst.
  rewrite (Hup _ : redis_down w = false) in Hfirst.
  destruct (cached key w) as [v0|] eqn:Hhit.
  - (* the first call was a hit *)
    injection Hfirst as <- <-. split; [|discriminate].
    destruct (Hserved 0) as (w2 & Hrun & Hrest);
      [rewrite elapse_0; exact Hhit | reflexivity |].
    rewrite elapse_0 in Hrun. exists w2. split; [exact Hrun|exact Hrest].
  - (* the first call read the chain and populated the cache *)
    destruct (chain_down w) as [message|]; [discriminate|].
    cbn zeta in Hfirst.
    replace (redis_down _) with false in Hfirst by (symmetry; apply Hup).
    injection Hfirst as <- <-.
    assert (Hlater : ∀ dt, 0 <= dt < DEFAULT_EXPIRY * 1000 → _) by
      (intros dt Hdt; apply (Hserved dt);
       [apply cached_fresh; [exact Hdt|reflexivity] | reflexivity]).
    split; [|intros _; exact Hlater].
    destruct (Hlater 0) as (w2 & Hrun & Hrest); [unfold DEFAULT_EXPIRY; lia|].
    rewrite elapse_0 in Hrun. exists w2. split; [exact Hrun|exact Hrest].
Qed.

Lemma getUserPoints_twice_witness :
  cache_reachable (Demo.world 950 Demo.up Demo.healthy) ∧
  ∃ w2, getUserPoints Demo.alice
          (getUserPoints Demo.alice (Demo.world 950 Demo.up Demo.healthy)).2
        = (Ok (Js.VNum 950), w2)
    ∧ chain_log (chain w2) = [call_getUserPoints Demo.alice].
Proof.
  split; [intros n; reflexivity|].
  destruct (proj1 (getUserPoints_twice Demo.alice
                     (Demo.world 950 Demo.up Demo.healthy)
                     (getUserPoints Demo.alice
                        (Demo.world 950 Demo.up Demo.healthy)).2
                     (Js.VNum 950) (λ n, eq_refl) eq_refl))
    as (w2 & Hrun & Hchain & _).
  exists w2. split; [exact Hrun|]. rewrite Hchain. reflexivity.
Defined.

(** C8: with Redis unreachable, [getCachedData] answers [null] and
    [cacheData] answers [false] instead of throwing, and [getUserPoints]
    is the chain's answer: the number converted from the on-chain
    balance when the chain call succeeds, the chain's own error when it
    fails.  No outcome of [getUserPoints] carries a cache error, and the
    cache layer throws in no world at all. *)
Theorem getUserPoints_cache_unreachable (a : string) (w : World) :
  cache_unreachable w →
  (∀ key, ∃ w', getCachedData key w = (Ok None, w')) ∧
  (∀ key data seconds, ∃ w', cacheData key data seconds w = (Ok false, w')) ∧
  (∀ key, ∃ w', invalidateCache key w = (Ok false, w')) ∧
  (∀ key data seconds (w0 : World),
     (∃ r w', getCachedData key w0 = (Ok r, w')) ∧
     (∃ b w', cacheData key data seconds w0 = (Ok b, w')) ∧
     (∃ b w', invalidateCache key w0 = (Ok b, w'))) ∧
  match chain_down w with
  | None =>
      ∃ w', getUserPoints a w
              = (Ok (Js.VNum (Js.Number (on_chain_points a (ledger (chain w))))), w')
        ∧ keyspace (redis w') = keyspace (redis w)
  | Some message => ∃ w', getUserPoints a w = (Throw message, w')
  end.
Proof.
  intros Hdown.
  assert (Hnow : redis_down w = true) by apply Hdown.
  split; [|split; [|split; [|split]]].
  - intros key. rewrite getCachedData_run, Hnow. eexists; reflexivity.
  - intros key data seconds. rewrite cacheData_run, Hnow. eexists; reflexivity.
  - intros key. rewrite invalidateCache_run, Hnow. eexists; reflexivity.
  - intros key data seconds w0.
    rewrite getCachedData_run, cacheData_run, invalidateCache_run.
    repeat split; do 2 eexists; reflexivity.
  - rewrite getUserPoints_run, Hnow.
    destruct (chain_down w) as [message|]; [eexists; reflexivity|].
    cbn zeta. replace (redis_down _) with true by (symmetry; apply Hdown).
    eexists. split; reflexivity.
Qed.

Lemma getUserPoints_cache_unreachable_witness :
  cache_unreachable (Demo.world 950 Demo.down Demo.healthy) ∧
  ∃ w', getUserPoints Demo.alice (Demo.world 950 Demo.down Demo.healthy)
        = (Ok (Js.VNum 950), w').
Proof.
  split; [intros n; reflexivity|].
  destruct (proj2 (proj2 (proj2 (proj2
             (getUserPoints_cache_unreachable Demo.alice
                (Demo.world 950 Demo.down Demo.healthy) (λ n, eq_refl))))))
    as (w' & Hrun & _).
  exists w'. exact Hrun.
Defined.

(** ** Reading after a write

    The write-invalidate discipline at work: after a successful
    [recordTransaction] with Redis reachable, the next [getUserPoints]
    cannot be served the value cached before the write; it calls the
    chain and answers the balance the ledger now holds. *)
Lemma getUserPoints_after_recordTransaction (a : string) (timestamp : Z) (w : World) :
  chain_down w = None →
  chain_fail (chain w) (S (length (chain_log (chain w)))) = None →
  cache_reachable w →
  ∃ w2, getUserPoints a (recordTransaction a timestamp w).2
        = (Ok (Js.VNum (Js.Number
                 (on_chain_points a
                    (ledger (chain (recordTransaction a timestamp w).2))))), w2)
    ∧ chain_log (chain w2)
      = chain_log (chain (recordTransaction a timestamp w).2)
        ++ [call_getUserPoints a].
Proof.
  intros Hwrite Hread Hup.
  rewrite recordTransaction_run, Hwrite. cbn [snd].
  rewrite getUserPoints_run. cbn zeta.
  replace (redis_down _) with false by (symmetry; apply Hup).
  replace (cached _ _) with (@None Js.value).
  2: { symmetry. unfold cached.
       match goal with |- match ?o with _ => _ end = _ =>
         replace o with (@None Entry); [reflexivity|]
       end.
       symmetry. do 2 apply invalidated_stays_gone. apply invalidated_gone.
       apply Hup. }
  replace (chain_down _) with (@None string).
  2: { symmetry. unfold chain_down. cbn. rewrite length_app, Nat.add_1_r.
       exact Hread. }
  eexists. split; reflexivity.
Qed.

(** The boundary of that discipline: [invalidateCache] absorbs a rejected
    delete and [recordTransaction] does not look at its answer, so an
    entry whose delete Redis rejects is still there when the gateway
    answers success. *)
Lemma recordTransaction_rejected_delete (a : string) (timestamp : Z) (w : World) :
  chain_down w = None →
  redis_down w = true →
  (recordTransaction a timestamp w).1
    = Ok {| success := true;
            txHash := (onRecordTransaction (chain w) (ledger (chain w)) a
                         (timestamp `div` 1000)).2 |}
  ∧ keyspace (redis (recordTransaction a timestamp w).2)
      !! generateKey CacheKeys.USER_POINTS a
    = keyspace (redis w) !! generateKey CacheKeys.USER_POINTS a.
Proof.
  intros Hwrite Hdown. rewrite recordTransaction_run, Hwrite. cbn [fst snd].
  split; [reflexivity|].
  rewrite !invalidated_lookup.
  rewrite !bool_decide_eq_false_2 by (unfold generateKey; simpl; discriminate).
  cbn [andb].
  replace (redis_down (chain_logged _ _ w)) with true
    by (symmetry; exact Hdown).
  rewrite andb_false_r. reflexivity.
Qed.

(** ** Numeric coercion of the balance *)

Lemma Number_exact (n : Z) :
  - Js.MAX_SAFE_INTEGER <= n <= Js.MAX_SAFE_INTEGER → Js.Number n = n.
Proof.
  unfold Js.MAX_SAFE_INTEGER, Js.Number, Js.round53. intros Hn.
  destruct (Z.ltb_spec n 0).
  - rewrite (proj2 (Z.ltb_lt (- n) (2 ^ 53))) by lia. lia.
  - rewrite (proj2 (Z.ltb_lt n (2 ^ 53))) by lia. reflexivity.
Qed.

(** C6, as the code has it: on a cache miss with the chain answering,
    [getUserPoints] returns [Number(points.toString())] of the on-chain
    balance whatever its magnitude; that number is what a reachable cache
    then holds.  The conversion is exact up to [Number.MAX_SAFE_INTEGER];
    beyond it the nearest double is returned and no error is raised. *)
Theorem getUserPoints_coerces (a : string) (w : World) :
  let key := generateKey CacheKeys.USER_POINTS a in
  let p := on_chain_points a (ledger (chain w)) in
  cache_answer key w = None →
  chain_down w = None →
  ∃ w', getUserPoints a w = (Ok (Js.VNum (Js.Number p)), w')
    ∧ (cache_reachable w → cached key w' = Some (Js.VNum (Js.Number p)))
    ∧ (0 <= p <= Js.MAX_SAFE_INTEGER → Js.Number p = p).
Proof.
  intros key p Hmiss Hchain. rewrite getUserPoints_run. fold key.
  unfold cache_answer in Hmiss. rewrite Hmiss, Hchain. cbn zeta. fold p.
  eexists. split; [reflexivity|]. split.
  - intros Hup. replace (redis_down _) with false by (symmetry; apply Hup).
    unfold cached. cbn. rewrite lookup_insert_eq. unfold live. cbn.
    rewrite (proj2 (Z.ltb_lt _ _)) by (unfold DEFAULT_EXPIRY; lia). reflexivity.
  - intros Hp. apply Number_exact. unfold Js.MAX_SAFE_INTEGER in *. lia.
Qed.

Lemma getUserPoints_coerces_witness :
  cache_answer (generateKey CacheKeys.USER_POINTS Demo.alice)
    (Demo.world 9007199254740993 Demo.up Demo.healthy) = None ∧
  chain_down (Demo.world 9007199254740993 Demo.up Demo.healthy) = None ∧
  ∃ w', getUserPoints Demo.alice (Demo.world 9007199254740993 Demo.up Demo.healthy)
        = (Ok (Js.VNum (Js.Number 9007199254740993)), w').
Proof.
  split; [reflexivity|]. split; [reflexivity|].
  destruct (getUserPoints_coerces Demo.alice
              (Demo.world 9007199254740993 Demo.up Demo.healthy)
              eq_refl eq_refl) as (w' & Hrun & _).
  exists w'. exact Hrun.
Defined.

(** C6, as the specification has it, fails: an on-chain balance of
    2^53 + 1, above [Number.MAX_SAFE_INTEGER], makes [getUserPoints]
    succeed with 2^53; the rounded number is returned and cached, and no
    error is raised. *)
Lemma getUserPoints_rounds_beyond_safe_range :
  Js.MAX_SAFE_INTEGER
    < on_chain_points Demo.alice
        (ledger (chain (Demo.world 9007199254740993 Demo.up Demo.healthy))) ∧
  ∃ w', getUserPoints Demo.alice (Demo.world 9007199254740993 Demo.up Demo.healthy)
        = (Ok (Js.VNum 9007199254740992), w')
    ∧ cached (generateKey CacheKeys.USER_POINTS Demo.alice) w'
      = Some (Js.VNum 9007199254740992)
    ∧ on_chain_points Demo.alice (ledger (chain w')) = 9007199254740993.
Proof.
  split; [vm_compute; reflexivity|].
  exists (getUserPoints Demo.alice
            (Demo.world 9007199254740993 Demo.up Demo.healthy)).2.
  repeat split; vm_compute; reflexivity.
Qed.

(** ** Package redemption *)

Lemma getUserPoints_only_reads (a : string) (w : World) :
  only_read_points a w (getUserPoints a w).2.
Proof.
  rewrite getUserPoints_run. cbn zeta.
  destruct (if redis_down w then None else cached _ w) as [v|];
    [|destruct (chain_down w)]; cbn; (split; [reflexivity|]); intros c Hc;
    cbn in Hc; rewrite ?elem_of_app, ?list_elem_of_singleton in Hc; tauto.
Qed.

(** C10: the thresholds of [signRedeemPackage] are 1000, 3000 and 5000
    points for package types 1, 2 and 3, and any other package type is
    rejected: the call throws (the error of the points read if that read
    failed, "Invalid package type" otherwise).  When the points read
    answers a number below the threshold, the call throws the
    insufficient-points error in the very world the read left: no
    signature was requested and the ledger was not written. *)
Theorem signRedeemPackage_thresholds (a : string) (packageType nonce : Z) (w : World) :
  (requiredPointsFor 1 w = (Ok 1000, w) ∧
   requiredPointsFor 2 w = (Ok 3000, w) ∧
   requiredPointsFor 3 w = (Ok 5000, w)) ∧
  (packageType ≠ 1 → packageType ≠ 2 → packageType ≠ 3 →
   requiredPointsFor packageType w = (Throw "Invalid package type", w) ∧
   ∃ e w', signRedeemPackage a packageType nonce w = (Throw e, w')
     ∧ only_read_points a w w'
     ∧ (∀ v w1, getUserPoints a w = (Ok v, w1) → e = "Invalid package type")) ∧
  (∀ p r w1,
     getUserPoints a w = (Ok (Js.VNum p), w1) →
     requiredPointsFor packageType w1 = (Ok r, w1) →
     p < r →
     signRedeemPackage a packageType nonce w
       = (Throw (insufficientPoints r (Js.VNum p)), w1)
     ∧ only_read_points a w w1).
Proof.
  split; [repeat split|]. split.
  - intros H1 H2 H3.
    assert (Hreq : ∀ w0, requiredPointsFor packageType w0
                         = (Throw "Invalid package type", w0)).
    { intros w0. unfold requiredPointsFor.
      destruct packageType as [|[[]|[]|]|]; try reflexivity; lia. }
    split; [apply Hreq|].
    pose proof (getUserPoints_only_reads a w) as Hframe.
    unfold signRedeemPackage. rewrite try_catch_rethrow. unfold bind at 1.
    destruct (getUserPoints a w) as [[v|e] w1] eqn:Hread.
    + unfold bind. rewrite Hreq. exists "Invalid package type", w1.
      split; [reflexivity|]. split; [exact Hframe|]. reflexivity.
    + exists e, w1. split; [reflexivity|]. split; [exact Hframe|].
      intros v w2 [=].
  - intros p r w1 Hread Hreq Hlow.
    pose proof (getUserPoints_only_reads a w) as Hframe.
    rewrite Hread in Hframe. split; [|exact Hframe].
    unfold signRedeemPackage. rewrite try_catch_rethrow.
    rewrite (bind_ok _ _ _ _ _ Hread). rewrite (bind_ok _ _ _ _ _ Hreq).
    cbn [Js.lt]. rewrite (proj2 (Z.ltb_lt _ _) Hlow). reflexivity.
Qed.

Lemma signRedeemPackage_thresholds_witness :
  ∃ w1, getUserPoints Demo.alice (Demo.world 950 Demo.up Demo.healthy)
        = (Ok (Js.VNum 950), w1)
    ∧ requiredPointsFor 1 w1 = (Ok 1000, w1)
    ∧ 950 < 1000
    ∧ signRedeemPackage Demo.alice 1 7 (Demo.world 950 Demo.up Demo.healthy)
      = (Throw "Insufficient points. Required: 1000, Available: 950", w1).
Proof.
  exists (getUserPoints Demo.alice (Demo.world 950 Demo.up Demo.healthy)).2.
  split; [reflexivity|]. split; [reflexivity|]. split; [lia|].
  apply (proj2 (proj2 (signRedeemPackage_thresholds Demo.alice 1 7
                         (Demo.world 950 Demo.up Demo.healthy)))
           950 1000 _ eq_refl eq_refl).
  lia.
Defined.

(** ** MongoDB requests *)

Lemma User_findOne_run (a : string) (w : World) :
  User_findOne a w =
    (match mongo_down w with
     | Some message => Throw message
     | None => Ok (registered a w)
     end,
     mongo_served (session (mongo w)) (transactions (mongo w)) w).
Proof.
  unfold User_findOne, mongo_request, mongo_down, mongo_served, registered.
  destruct (mongo_fail (mongo w) (mongo_ops (mongo w))); reflexivity.
Qed.

Lemma Transaction_save_run (t : Transaction) (w : World) :
  Transaction_save t w =
    match mongo_down w with
    | Some message =>
        (Throw message, mongo_served (session (mongo w)) (transactions (mongo w)) w)
    | None =>
        (Ok tt, mongo_served (InTransaction (Some t)) (transactions (mongo w)) w)
    end.
Proof.
  unfold Transaction_save, mongo_request, mongo_down, mongo_served.
  destruct (mongo_fail (mongo w) (mongo_ops (mongo w))); reflexivity.
Qed.

Lemma commitTransaction_run (t : Transaction) (w : World) :
  session (mongo w) = InTransaction (Some t) →
  commitTransaction w =
    match mongo_down w with
    | Some message =>
        (Throw message, mongo_served (session (mongo w)) (transactions (mongo w)) w)
    | None =>
        (Ok tt, mongo_served Committed (transactions (mongo w) ++ [t]) w)
    end.
Proof.
  intros Hs. unfold commitTransaction, mongo_request, mongo_down, mongo_served.
  destruct (mongo_fail (mongo w) (mongo_ops (mongo w))); [reflexivity|].
  cbn. rewrite Hs. reflexivity.
Qed.

(** ** What a read through the cache can change

    A read touches Redis and the call log of the chain, nothing else; with
    the chain healthy it answers; with Redis reachable and no entry under
    its key it answers what the ledger holds. *)

Lemma getUserPoints_shape (a : string) (w : World) :
  let key := generateKey CacheKeys.USER_POINTS a in
  chain_healthy w →
  ∃ v r c,
    getUserPoints a w = (Ok v, with_chain c (with_redis r w))
    ∧ read_only w r c
    ∧ (∀ k, k ≠ key → keyspace r !! k = keyspace (redis w) !! k)
    ∧ (cache_reachable w → keyspace (redis w) !! key = None →
       v = Js.VNum (Js.Number (on_chain_points a (ledger (chain w))))).
Proof.
  intros key Hchain. rewrite getUserPoints_run. fold key. cbn zeta.
  destruct (if redis_down w then None else cached key w) as [v|] eqn:Hanswer.
  - do 3 eexists. split; [reflexivity|]. split; [split; reflexivity|].
    split; [reflexivity|].
    intros Hup Hnone. rewrite (Hup _ : redis_down w = false) in Hanswer.
    unfold cached in Hanswer. rewrite Hnone in Hanswer. discriminate.
  - replace (chain_down w) with (@None string) by (symmetry; apply Hchain).
    do 3 eexists. split; [reflexivity|]. split; [split; reflexivity|].
    split; [|reflexivity].
    intros k Hk. tidy.
    match goal with |- context [if ?b then _ else _] => destruct b end;
      [reflexivity|].
    rewrite lookup_insert_ne by congruence. reflexivity.
Qed.

Lemma getNFTMetadata_shape (a : string) (w : World) :
  let key := generateKey CacheKeys.NFT_METADATA a in
  chain_healthy w →
  ∃ v r c,
    getNFTMetadata a w = (Ok v, with_chain c (with_redis r w))
    ∧ read_only w r c
    ∧ (∀ k, k ≠ key → keyspace r !! k = keyspace (redis w) !! k)
    ∧ (cache_reachable w → keyspace (redis w) !! key = None →
       v = transformed (on_chain_card a (ledger (chain w)))).
Proof.
  intros key Hchain. rewrite getNFTMetadata_run. fold key. cbn zeta.
  destruct (if redis_down w then None else cached key w) as [v|] eqn:Hanswer.
  - do 3 eexists. split; [reflexivity|]. split; [split; reflexivity|].
    split; [reflexivity|].
    intros Hup Hnone. rewrite (Hup _ : redis_down w = false) in Hanswer.
    unfold cached in Hanswer. rewrite Hnone in Hanswer. discriminate.
  - replace (chain_down w) with (@None string) by (symmetry; apply Hchain).
    do 3 eexists. split; [reflexivity|]. split; [split; reflexivity|].
    split; [|reflexivity].
    intros k Hk. tidy.
    match goal with |- context [if ?b then _ else _] => destruct b end;
      [reflexivity|].
    rewrite lookup_insert_ne by congruence. reflexivity.
Qed.

Lemma sendEmail_run (to subject category : string) (w : World) :
  sendEmail to subject category w =
    (Ok (negb (ses_fail (ses w) (length (outbox (ses w))))),
     with_ses {| outbox := outbox (ses w) ++
                   [({| mail_to := to; mail_subject := subject;
                        mail_category := category |},
                     negb (ses_fail (ses w) (length (outbox (ses w)))))];
                 ses_fail := ses_fail (ses w) |} w).
Proof. reflexivity. Qed.


(** ** The transaction handler up to the gateway call *)

Lemma recordTransactionHandler_lookup_rejected (req : Request) (w : World) (e : string) :
  mongo_down w = Some e →
  ∃ w', recordTransactionHandler req w = (Ok internal_error, w')
    ∧ transactions (mongo w') = transactions (mongo w)
    ∧ session (mongo w') = Aborted
    ∧ chain w' = chain w ∧ redis w' = redis w.
Proof.
  intros Hdown. unfold recordTransactionHandler.
  run_ok ltac:(reflexivity).
  erewrite try_catch_throw; cycle 1.
  { run_throw ltac:(rewrite User_findOne_run;
                    replace (mongo_down _) with (Some e) by (symmetry; exact Hdown);
                    reflexivity).
    reflexivity. }
  eexists. split; [reflexivity|]. repeat split.
Qed.

Lemma recordTransactionHandler_not_found (req : Request) (w : World) :
  mongo_down w = None →
  registered (body_userAddress req) w = None →
  ∃ w', recordTransactionHandler req w = (Ok user_not_found, w')
    ∧ transactions (mongo w') = transactions (mongo w)
    ∧ session (mongo w') = Aborted
    ∧ chain w' = chain w ∧ redis w' = redis w.
Proof.
  intros Hup Hnone. unfold recordTransactionHandler.
  run_ok ltac:(reflexivity).
  erewrite try_catch_ok; cycle 1.
  { run_ok ltac:(rewrite User_findOne_run;
                 replace (mongo_down _) with (@None string) by (symmetry; exact Hup);
                 reflexivity).
    replace (registered _ _) with (@None User) by (symmetry; exact Hnone).
    reflexivity. }
  eexists. split; [reflexivity|]. repeat split.
Qed.

Lemma recordTransactionHandler_save_rejected (req : Request) (w : World)
    (u : User) (e : string) :
  mongo_down w = None →
  registered (body_userAddress req) w = Some u →
  mongo_fail (mongo w) (S (mongo_ops (mongo w))) = Some e →
  ∃ w', recordTransactionHandler req w = (Ok internal_error, w')
    ∧ transactions (mongo w') = transactions (mongo w)
    ∧ session (mongo w') = Aborted
    ∧ chain w' = chain w ∧ redis w' = redis w.
Proof.
  intros Hup Hu Hdown. unfold recordTransactionHandler.
  run_ok ltac:(reflexivity).
  erewrite try_catch_throw; cycle 1.
  { run_ok ltac:(rewrite User_findOne_run;
                 replace (mongo_down _) with (@None string) by (symmetry; exact Hup);
                 reflexivity).
    replace (registered _ _) with (Some u) by (symmetry; exact Hu).
    run_ok ltac:(reflexivity).
    run_ok ltac:(reflexivity).
    run_throw ltac:(rewrite Transaction_save_run;
                    replace (mongo_down _) with (Some e) by (symmetry; exact Hdown);
                    reflexivity).
    reflexivity. }
  eexists. split; [reflexivity|]. repeat split.
Qed.

Lemma recordTransactionHandler_reaches_chain (req : Request) (w : World) (u : User) :
  mongo_down w = None →
  registered (body_userAddress req) w = Some u →
  mongo_fail (mongo w) (S (mongo_ops (mongo w))) = None →
  recordTransactionHandler req w =
    match recordOnBlockchain req u (document req w) (clock w) (persisted req w) with
    | (Ok response, w') => (Ok response, w')
    | (Throw message, w') => (Ok (blockchain_error message), aborted w')
    end.
Proof.
  intros Hup Hu Hsave. unfold recordTransactionHandler.
  run_ok ltac:(reflexivity).
  unfold try_catch at 1.
  run_ok ltac:(rewrite User_findOne_run;
               replace (mongo_down _) with (@None string) by (symmetry; exact Hup);
               reflexivity).
  replace (registered _ _) with (Some u) by (symmetry; exact Hu).
  run_ok ltac:(reflexivity).
  run_ok ltac:(reflexivity).
  run_ok ltac:(rewrite Transaction_save_run;
               replace (mongo_down _) with (@None string) by (symmetry; exact Hsave);
               reflexivity).
  unfold try_catch.
  change (mongo_served _ _ (mongo_served _ _ _)) with (persisted req w).
  change (clock (mongo_served _ _ _)) with (clock w).
  change {| tx_userAddress := _; tx_date := _; tx_vehicleType := _;
            tx_serviceType := _; tx_price := _; recordedOnChain := false;
            blockchainTxHash := None; createdAt := _ |}
    with (document req w).
  destruct (recordOnBlockchain req u (document req w) (clock w) (persisted req w))
    as [[response|message] w']; reflexivity.
Qed.

(** ** The block that records on the blockchain

    With the chain and the store answering, the block runs to its 200
    response whatever Redis and SES do: the document is committed, the
    mails and events are determined by the points and the card the two
    reads returned, and with Redis reachable those are the ledger's. *)

Ltac confirmed_leaf Hledger Hfresh :=
  split; [reflexivity|]; split; [reflexivity|]; split; [reflexivity|];
  split; [exact Hledger|];
  split; [rewrite <- ?app_assoc, ?app_nil_r; reflexivity|];
  split; [rewrite <- ?app_assoc, ?app_nil_r; reflexivity|exact Hfresh].

Lemma recordOnBlockchain_confirmed (req : Request) (u : User) (t : Transaction)
    (now : Z) (w : World) :
  let a := body_userAddress req in
  let out := onRecordTransaction (chain w) (ledger (chain w)) a (now `div` 1000) in
  store_healthy w →
  chain_healthy w →
  let '(res, w') := recordOnBlockchain req u t now w in
  ∃ points nft b0 b1,
    let newTier := determineTierByPoints points in
    let currentTier := Js.or_default (Js.tier nft) "Bronze" in
    let changed := bool_decide (newTier ≠ currentTier) in
    res = Ok {| status := 200; json := Recorded out.2 points newTier |}
    ∧ transactions (mongo w') = transactions (mongo w) ++ [confirmed t out.2]
    ∧ session (mongo w') = Committed
    ∧ ledger (chain w') = out.1
    ∧ outbox (ses w')
      = outbox (ses w) ++ (free_wash_mail (email u), b0)
          :: (if changed then [(tier_mail w, b1)] else [])
    ∧ emitted w'
      = emitted w ++
        (if app_io req then
           transaction_recorded a (body_date req) (body_vehicleType req)
             (body_serviceType req) points
           :: (if changed then [tier_upgraded a currentTier newTier points] else [])
         else [])
    ∧ (cache_reachable w →
       points = Js.VNum (Js.Number (on_chain_points a out.1))
       ∧ nft = transformed (on_chain_card a out.1)).
Proof.
  intros a out Hstore Hchain.
  unfold recordOnBlockchain. fold a.
  run_ok ltac:(rewrite recordTransaction_run;
               replace (chain_down _) with (@None string) by (symmetry; apply Hchain);
               reflexivity).
  tidy. fold out.
  run_ok ltac:(rewrite Transaction_save_run;
               replace (mongo_down _) with (@None string) by (symmetry; apply Hstore);
               reflexivity).
  tidy.
  run_ok ltac:(reflexivity).
  tidy.
  (* the two reads *)
  match goal with |- context [bind (getUserPoints a) _ ?W] =>
    set (w5 := W);
    destruct (getUserPoints_shape a w5)
      as (points & r1 & c1 & Hrun1 & Hro1 & Hks1 & Hval1);
      [intros n; apply Hchain|];
    rewrite (bind_ok _ _ _ _ _ Hrun1); clear Hrun1
  end.
  match goal with |- context [bind (getNFTMetadata a) _ ?W] =>
    destruct (getNFTMetadata_shape a W)
      as (nft & r2 & c2 & Hrun2 & Hro2 & Hks2 & Hval2);
      [intros n; tidy; rewrite (ro_chain_fail _ _ _ Hro1); apply Hchain|];
    rewrite (bind_ok _ _ _ _ _ Hrun2); clear Hrun2
  end.
  assert (Hledger : ledger c2 = out.1).
  { rewrite (ro_ledger _ _ _ Hro2). tidy. rewrite (ro_ledger _ _ _ Hro1).
    reflexivity. }
  assert (Hfresh : cache_reachable w →
            points = Js.VNum (Js.Number (on_chain_points a out.1))
            ∧ nft = transformed (on_chain_card a out.1)).
  { intros Hup. split.
    - apply Hval1; [exact Hup|]. subst w5. tidy.
      do 2 apply invalidated_stays_gone. apply invalidated_gone. apply Hup.
    - rewrite Hval2.
      + tidy. rewrite (ro_ledger _ _ _ Hro1). reflexivity.
      + intros n. tidy. rewrite (ro_redis_fail _ _ _ Hro1). apply Hup.
      + tidy. rewrite Hks1 by (unfold generateKey; simpl; discriminate).
        subst w5. tidy. apply invalidated_gone. apply Hup. }
  clear Hks1 Hks2 Hval1 Hval2.
  destruct (bool_decide (determineTierByPoints points
                         ≠ Js.or_default (Js.tier nft) "Bronze")) eqn:Hchanged.
  - run_ok ltac:(reflexivity). tidy.
    run_ok ltac:(erewrite commitTransaction_run by reflexivity;
                 replace (mongo_down _) with (@None string) by (symmetry; apply Hstore);
                 reflexivity).
    run_ok ltac:(reflexivity). tidy.
    destruct (app_io req).
    + run_ok ltac:(reflexivity). unfold ret. subst w5. tidy.
      exists points, nft. do 2 eexists. rewrite Hchanged.
      confirmed_leaf Hledger Hfresh.
    + run_ok ltac:(reflexivity). unfold ret. subst w5. tidy.
      exists points, nft. do 2 eexists. rewrite Hchanged.
      confirmed_leaf Hledger Hfresh.
  - run_ok ltac:(reflexivity). tidy.
    run_ok ltac:(erewrite commitTransaction_run by reflexivity;
                 replace (mongo_down _) with (@None string) by (symmetry; apply Hstore);
                 reflexivity).
    run_ok ltac:(reflexivity). tidy.
    destruct (app_io req).
    + run_ok ltac:(reflexivity). unfold ret. subst w5. tidy.
      exists points, nft, (negb (ses_fail (ses w) (length (outbox (ses w))))), true.
      rewrite Hchanged.
      confirmed_leaf Hledger Hfresh.
    + run_ok ltac:(reflexivity). unfold ret. subst w5. tidy.
      exists points, nft, (negb (ses_fail (ses w) (length (outbox (ses w))))), true.
      rewrite Hchanged.
      confirmed_leaf Hledger Hfresh.

Qed.

Lemma recordOnBlockchain_write_fails (req : Request) (u : User) (t : Transaction)
    (now : Z) (w : World) (message : string) :
  chain_down w = Some message →
  recordOnBlockchain req u t now w =
    (Throw message,
     chain_logged (call_recordTransaction (body_userAddress req) (now `div` 1000))
       (ledger (chain w)) w).
Proof.
  intros Hdown. unfold recordOnBlockchain.
  run_throw ltac:(rewrite recordTransaction_run, Hdown; reflexivity).
  reflexivity.
Qed.

Lemma recordTransactionHandler_confirmed (req : Request) (w : World) (u : User) :
  let a := body_userAddress req in
  let out := onRecordTransaction (chain w) (ledger (chain w)) a (clock w `div` 1000) in
  registered a w = Some u →
  store_healthy w →
  chain_healthy w →
  ∃ points nft b0 b1 w',
    let newTier := determineTierByPoints points in
    let currentTier := Js.or_default (Js.tier nft) "Bronze" in
    let changed := bool_decide (newTier ≠ currentTier) in
    recordTransactionHandler req w
      = (Ok {| status := 200; json := Recorded out.2 points newTier |}, w')
    ∧ transactions (mongo w')
      = transactions (mongo w) ++ [confirmed (document req w) out.2]
    ∧ session (mongo w') = Committed
    ∧ ledger (chain w') = out.1
    ∧ outbox (ses w')
      = outbox (ses w) ++ (free_wash_mail (email u), b0)
          :: (if changed then [(tier_mail w, b1)] else [])
    ∧ emitted w'
      = emitted w ++
        (if app_io req then
           transaction_recorded a (body_date req) (body_vehicleType req)
             (body_serviceType req) points
           :: (if changed then [tier_upgraded a currentTier newTier points] else [])
         else [])
    ∧ (cache_reachable w →
       points = Js.VNum (Js.Number (on_chain_points a out.1))
       ∧ nft = transformed (on_chain_card a out.1)).
Proof.
  intros a out Hu Hstore Hchain.
  rewrite (recordTransactionHandler_reaches_chain req w u)
    by (apply Hstore || exact Hu).
  pose proof (recordOnBlockchain_confirmed req u (document req w) (clock w)
                (persisted req w) Hstore Hchain) as Hblock.
  destruct (recordOnBlockchain req u (document req w) (clock w) (persisted req w))
    as [res w'].
  destruct Hblock as (points & nft & b0 & b1 & -> & Hblock).
  exists points, nft, b0, b1, w'. split; [reflexivity|]. exact Hblock.
Qed.

(** * The claims about the transaction handler *)

(** C4: when the gateway's write to the chain fails, the handler answers
    500 "Blockchain Error" carrying the chain's message, the session is
    aborted and the committed transactions are what they were before the
    call: the document written under the session is not among them, and
    every query over the transactions answers as before.  The ledger and
    the cache are untouched. *)
Theorem recordTransactionHandler_rolls_back (req : Request) (w : World)
    (u : User) (message : string) :
  registered (body_userAddress req) w = Some u →
  mongo_down w = None →
  mongo_fail (mongo w) (S (mongo_ops (mongo w))) = None →
  chain_down w = Some message →
  ∃ w', recordTransactionHandler req w = (Ok (blockchain_error message), w')
    ∧ status (blockchain_error message) = 500
    ∧ transactions (mongo w') = transactions (mongo w)
    ∧ session (mongo w') = Aborted
    ∧ ledger (chain w') = ledger (chain w)
    ∧ redis w' = redis w.
Proof.
  intros Hu Hlookup Hsave Hdown.
  rewrite (recordTransactionHandler_reaches_chain req w u Hlookup Hu Hsave).
  rewrite (recordOnBlockchain_write_fails _ _ _ _ _ message) by exact Hdown.
  eexists. split; [reflexivity|]. repeat split.
Qed.

Lemma recordTransactionHandler_rolls_back_witness :
  ∃ w', recordTransactionHandler Demo.wash
          (Demo.world 950 Demo.up (λ _, Some "rpc timeout"))
        = (Ok (blockchain_error "rpc timeout"), w')
    ∧ transactions (mongo w') = []
    ∧ session (mongo w') = Aborted.
Proof.
  destruct (recordTransactionHandler_rolls_back Demo.wash
              (Demo.world 950 Demo.up (λ _, Some "rpc timeout"))
              {| userAddress := Demo.alice; email := "alice@example.com";
                 name := "Alice" |}
              "rpc timeout" eq_refl eq_refl eq_refl eq_refl)
    as (w' & Hrun & _ & Htxs & Hsession & _).
  exists w'. split; [exact Hrun|]. split; [exact Htxs|exact Hsession].
Defined.

(** C3, as the code has it: for a registered user, when the chain
    answers the write and the two reads that follow it and the store
    accepts the writes, the handler answers 200 with the transaction
    hash, the points and the tier, and the confirmed document is
    committed, whatever Redis and SES do and whether or not a socket
    server is attached. *)
Theorem recordTransactionHandler_commits (req : Request) (w : World) (u : User) :
  let a := body_userAddress req in
  let out := onRecordTransaction (chain w) (ledger (chain w)) a (clock w `div` 1000) in
  registered a w = Some u →
  store_healthy w →
  chain_healthy w →
  ∃ points w',
    recordTransactionHandler req w
      = (Ok {| status := 200;
               json := Recorded out.2 points (determineTierByPoints points) |}, w')
    ∧ transactions (mongo w')
      = transactions (mongo w) ++ [confirmed (document req w) out.2]
    ∧ session (mongo w') = Committed
    ∧ ledger (chain w') = out.1.
Proof.
  intros a out Hu Hstore Hchain.
  destruct (recordTransactionHandler_confirmed req w u Hu Hstore Hchain)
    as (points & nft & b0 & b1 & w' & Hrun & Htxs & Hsession & Hledger & _).
  exists points, w'. repeat split; assumption.
Qed.

Lemma recordTransactionHandler_commits_witness :
  ∃ w', recordTransactionHandler Demo.wash (Demo.world 950 Demo.down Demo.healthy)
        = (Ok {| status := 200; json := Recorded "0xabc123" (Js.VNum 1010) "Silver" |},
           w')
    ∧ session (mongo w') = Committed.
Proof.
  destruct (recordTransactionHandler_commits Demo.wash
              (Demo.world 950 Demo.down Demo.healthy)
              {| userAddress := Demo.alice; email := "alice@example.com";
                 name := "Alice" |}
              eq_refl (λ n, eq_refl) (λ n, eq_refl))
    as (points & w' & Hrun & _ & Hsession & _).
  exists w'. split; [|exact Hsession].
  rewrite Hrun. 
  assert (Hpoints : points = Js.VNum 1010).
  { assert (H : (recordTransactionHandler Demo.wash
                   (Demo.world 950 Demo.down Demo.healthy)).1
                = Ok {| status := 200;
                        json := Recorded "0xabc123" (Js.VNum 1010) "Silver" |})
      by (vm_compute; reflexivity).
    rewrite Hrun in H. cbn in H. congruence. }
  rewrite Hpoints. reflexivity.
Defined.

(** C3, as the specification has it, fails: the write to the chain
    succeeds (the ledger shows the 60 points) and the read of the points
    that follows it times out; the handler then answers 500, aborts the
    session and leaves no transaction behind. *)
Lemma recordTransactionHandler_read_failure_aborts :
  (recordTransactionHandler Demo.wash
     (Demo.world 950 Demo.up Demo.second_call_fails)).1
    = Ok (blockchain_error "rpc timeout")
  ∧ chain_log (chain (recordTransactionHandler Demo.wash
                        (Demo.world 950 Demo.up Demo.second_call_fails)).2)
    = [call_recordTransaction Demo.alice 1714110029;
       call_getUserPoints Demo.alice]
  ∧ on_chain_points Demo.alice
      (ledger (chain (recordTransactionHandler Demo.wash
                        (Demo.world 950 Demo.up Demo.second_call_fails)).2))
    = 1010
  ∧ transactions (mongo (recordTransactionHandler Demo.wash
                           (Demo.world 950 Demo.up Demo.second_call_fails)).2)
    = []
  ∧ session (mongo (recordTransactionHandler Demo.wash
                      (Demo.world 950 Demo.up Demo.second_call_fails)).2)
    = Aborted.
Proof. repeat split; vm_compute; reflexivity. Qed.

(** C9, as the code has it: with every service answering, the handler
    compares the tier derived from the points the chain reports after the
    write with the tier written on the user's card on the chain (Bronze
    when the card has none).  When they differ, that call hands exactly
    one tier-upgrade mail to SES and, if a socket server is attached,
    emits exactly one [tier:upgraded] event; when they are equal it does
    neither.  The tier the user had before the transaction plays no
    part. *)
Theorem recordTransactionHandler_tier_notifications (req : Request) (w : World)
    (u : User) :
  let a := body_userAddress req in
  let out := onRecordTransaction (chain w) (ledger (chain w)) a (clock w `div` 1000) in
  let points := Js.VNum (Js.Number (on_chain_points a out.1)) in
  let newTier := determineTierByPoints points in
  let currentTier :=
    Js.or_default (Some (Js.nft_tier (on_chain_card a out.1))) "Bronze" in
  let changed := bool_decide (newTier ≠ currentTier) in
  registered a w = Some u →
  store_healthy w →
  chain_healthy w →
  cache_reachable w →
  ∃ b0 b1 w',
    recordTransactionHandler req w
      = (Ok {| status := 200; json := Recorded out.2 points newTier |}, w')
    ∧ outbox (ses w')
      = outbox (ses w) ++ (free_wash_mail (email u), b0)
          :: (if changed then [(tier_mail w, b1)] else [])
    ∧ emitted w'
      = emitted w ++
        (if app_io req then
           transaction_recorded a (body_date req) (body_vehicleType req)
             (body_serviceType req) points
           :: (if changed then [tier_upgraded a currentTier newTier points] else [])
         else []).
Proof.
  intros a out points newTier currentTier changed Hu Hstore Hchain Hup.
  destruct (recordTransactionHandler_confirmed req w u Hu Hstore Hchain)
    as (points' & nft & b0 & b1 & w' & Hrun & _ & _ & _ & Hout & Hemit & Hfresh).
  destruct (Hfresh Hup) as [-> ->].
  exists b0, b1, w'. split; [exact Hrun|]. split; [exact Hout|exact Hemit].
Qed.

Lemma recordTransactionHandler_tier_notifications_witness :
  ∃ b0 b1 w',
    recordTransactionHandler Demo.wash (Demo.world 950 Demo.up Demo.healthy)
      = (Ok {| status := 200; json := Recorded "0xabc123" (Js.VNum 1010) "Silver" |},
         w')
    ∧ outbox (ses w')
      = [(free_wash_mail "alice@example.com", b0);
         (tier_mail (Demo.world 950 Demo.up Demo.healthy), b1)]
    ∧ emitted w'
      = [transaction_recorded Demo.alice "2024-04-26" "Motor Kecil" "Reguler"
           (Js.VNum 1010);
         tier_upgraded Demo.alice "Bronze" "Silver" (Js.VNum 1010)].
Proof.
  exact (recordTransactionHandler_tier_notifications Demo.wash
           (Demo.world 950 Demo.up Demo.healthy)
           {| userAddress := Demo.alice; email := "alice@example.com";
              name := "Alice" |}
           eq_refl (λ n, eq_refl) (λ n, eq_refl) (λ n, eq_refl)).
Defined.

(** C9, as the specification has it, fails.  The user crosses from 950
    to 1010 points with the first wash, and a second identical wash an
    hour later earns no points and changes no tier; the card on the chain
    still reads Bronze, so the second call sends a second tier-upgrade
    mail and emits a second [tier:upgraded] event.  (Were the contract to
    rewrite the card itself when it records the transaction, the crossing
    would go unnoticed instead: no mail and no event at all.) *)
Lemma recordTransactionHandler_repeats_tier_upgrade :
  (on_chain_points Demo.alice
     (ledger (chain (recordTransactionHandler Demo.wash
                       (Demo.world 950 Demo.up Demo.healthy)).2)) = 1010
   ∧ (recordTransactionHandler Demo.wash
        (elapse 3600000
           (recordTransactionHandler Demo.wash
              (Demo.world 950 Demo.up Demo.healthy)).2)).1
     = Ok {| status := 200; json := Recorded "0xabc123" (Js.VNum 1010) "Silver" |}
   ∧ tier_events
       (recordTransactionHandler Demo.wash
          (elapse 3600000
             (recordTransactionHandler Demo.wash
                (Demo.world 950 Demo.up Demo.healthy)).2)).2
     = [tier_upgraded Demo.alice "Bronze" "Silver" (Js.VNum 1010);
        tier_upgraded Demo.alice "Bronze" "Silver" (Js.VNum 1010)]
   ∧ length
       (mails_of "tier-upgrade"
          (recordTransactionHandler Demo.wash
             (elapse 3600000
                (recordTransactionHandler Demo.wash
                   (Demo.world 950 Demo.up Demo.healthy)).2)).2)
     = 2%nat)
  ∧ ((recordTransactionHandler Demo.wash
        (Demo.with_contract Demo.loyalty_with_card
           (Demo.world 950 Demo.up Demo.healthy))).1
     = Ok {| status := 200; json := Recorded "0xabc123" (Js.VNum 1010) "Silver" |}
     ∧ tier_events
         (recordTransactionHandler Demo.wash
            (Demo.with_contract Demo.loyalty_with_card
               (Demo.world 950 Demo.up Demo.healthy))).2 = []
     ∧ mails_of "tier-upgrade"
         (recordTransactionHandler Demo.wash
            (Demo.with_contract Demo.loyalty_with_card
               (Demo.world 950 Demo.up Demo.healthy))).2 = []).
Proof. repeat split; vm_compute; reflexivity. Qed.

(** * The free-wash status *)

Lemma getFreeWashStatus_run (a : string) (w : World) :
  let key := generateKey CacheKeys.FREE_WASH_STATUS a in
  let w1 := redis_logged (GET key) (keyspace (redis w)) w in
  getFreeWashStatus a w =
    match cache_answer key w with
    | Some v => (Ok v, w1)
    | None =>
        match chain_down w with
        | Some message =>
            (Throw message,
             chain_logged (call_getFreeWashStatus a) (ledger (chain w)) w1)
        | None =>
            let coupon := on_chain_coupon a (ledger (chain w)) in
            let v := Js.VStatus
                       {| Js.fw_available := Js.fw_available coupon;
                          Js.fw_expiryTime := Js.Number (Js.fw_expiryTime coupon);
                          Js.fw_used := Js.fw_used coupon |} in
            let w2 := chain_logged (call_getFreeWashStatus a) (ledger (chain w)) w1 in
            (Ok v,
             redis_logged (SETEX key DEFAULT_EXPIRY v)
               (if redis_down w2 then keyspace (redis w2)
                else <[key := {| payload := v;
                                 expireAt := clock w + DEFAULT_EXPIRY * 1000 |}]>
                       (keyspace (redis w2))) w2)
        end
    end.
Proof.
  intros key w1. unfold getFreeWashStatus. rewrite try_catch_rethrow.
  fold key. unfold bind at 1. rewrite getCachedData_run. fold w1.
  unfold cache_answer.
  destruct (if redis_down w then None else cached key w) as [v|]; [reflexivity|].
  unfold bind at 1, contract_getFreeWashStatus. rewrite chain_call_run.
  change (chain_down w1) with (chain_down w).
  destruct (chain_down w) as [message|]; [reflexivity|].
  cbn [fst snd]. unfold bind. rewrite cacheData_run. reflexivity.
Qed.

(** C2, as the code has it: the status endpoint reports
    [active = available && !used] for the status the gateway returns,
    and returns the expiry time next to it without comparing it with the
    current time.  On a cache miss the status is the coupon on the
    ledger, so the report is the same at every clock. *)
Theorem getFreeWashStatusHandler_active (req : Request) (w : World) :
  let a := body_userAddress req in
  (∀ s w1,
     getFreeWashStatus a w = (Ok (Js.VStatus s), w1) →
     getFreeWashStatusHandler req w
       = (Ok {| status := 200;
                json := FreeWash (Some (Js.fw_available s && negb (Js.fw_used s)))
                          (Some (Js.fw_expiryTime s))
                          (Some (Js.fw_used s)) |}, w1))
  ∧ (cache_answer (generateKey CacheKeys.FREE_WASH_STATUS a) w = None →
     chain_down w = None →
     let coupon := on_chain_coupon a (ledger (chain w)) in
     (getFreeWashStatusHandler req w).1
       = Ok {| status := 200;
               json := FreeWash
                         (Some (Js.fw_available coupon && negb (Js.fw_used coupon)))
                         (Some (Js.Number (Js.fw_expiryTime coupon)))
                         (Some (Js.fw_used coupon)) |}).
Proof.
  intros a. split.
  - intros s w1 Hread. unfold getFreeWashStatusHandler. fold a.
    erewrite try_catch_ok; [reflexivity|].
    rewrite (bind_ok _ _ _ _ _ Hread). unfold ret. cbn.
    destruct (Js.fw_available s), (Js.fw_used s); reflexivity.
  - intros Hmiss Hchain coupon. unfold getFreeWashStatusHandler. fold a.
    unfold try_catch, bind. rewrite getFreeWashStatus_run, Hmiss, Hchain.
    cbn. fold coupon.
    destruct (Js.fw_available coupon), (Js.fw_used coupon); reflexivity.
Qed.

Lemma getFreeWashStatusHandler_active_witness :
  (getFreeWashStatusHandler Demo.wash
     (Demo.with_coupon Demo.lapsed_coupon (Demo.world 950 Demo.up Demo.healthy))).1
  = Ok {| status := 200;
          json := FreeWash (Some true) (Some 1714023629) (Some false) |}.
Proof.
  exact (proj2 (getFreeWashStatusHandler_active Demo.wash
                  (Demo.with_coupon Demo.lapsed_coupon
                     (Demo.world 950 Demo.up Demo.healthy)))
           eq_refl eq_refl).
Defined.

(** C2, as the specification has it, fails.  A coupon that is available,
    unused and expired the day before, inactive by the predicate of the
    specification, is reported active.  So is a coupon that was running
    when the chain was read and expired a minute later: five minutes on,
    the cached status is still reported active, without a call to the
    chain. *)
Lemma getFreeWashStatusHandler_reports_lapsed_coupon_active :
  (on_chain_coupon Demo.alice
     (ledger (chain (Demo.with_coupon Demo.lapsed_coupon
                       (Demo.world 950 Demo.up Demo.healthy))))
     = Demo.lapsed_coupon
   ∧ spec_isActive Demo.lapsed_coupon
       (clock (Demo.with_coupon Demo.lapsed_coupon
                 (Demo.world 950 Demo.up Demo.healthy))) = false
   ∧ spec_isActive Demo.lapsed_coupon
       (clock (Demo.with_coupon Demo.lapsed_coupon
                 (Demo.world 950 Demo.up Demo.healthy)) `div` 1000) = false
   ∧ (getFreeWashStatusHandler Demo.wash
        (Demo.with_coupon Demo.lapsed_coupon
           (Demo.world 950 Demo.up Demo.healthy))).1
     = Ok {| status := 200;
             json := FreeWash (Some true) (Some 1714023629) (Some false) |})
  ∧ (spec_isActive Demo.running_coupon
       (clock (Demo.world 950 Demo.up Demo.healthy) `div` 1000) = true
     ∧ spec_isActive Demo.running_coupon
         ((clock (Demo.world 950 Demo.up Demo.healthy) + 300000) `div` 1000)
       = false
     ∧ (getFreeWashStatusHandler Demo.wash
          (elapse 300000
             (getFreeWashStatusHandler Demo.wash
                (Demo.with_coupon Demo.running_coupon
                   (Demo.world 950 Demo.up Demo.healthy))).2)).1
       = Ok {| status := 200;
               json := FreeWash (Some true) (Some 1714110089) (Some false) |}
     ∧ chain_log
         (chain (getFreeWashStatusHandler Demo.wash
                   (elapse 300000
                      (getFreeWashStatusHandler Demo.wash
                         (Demo.with_coupon Demo.running_coupon
                            (Demo.world 950 Demo.up Demo.healthy))).2)).2)
       = [call_getFreeWashStatus Demo.alice]).
Proof. repeat split; vm_compute; reflexivity. Qed.

(** * Further properties of the code *)

(** ** Tiers *)

(** X1: for whole-number points, as the gateway returns them, more
    points never give a lower tier, the tier is one of the three names,
    and every number below 1000, the negative ones included, is
    Bronze. *)
Theorem determineTierByPoints_monotone (p q : Z) :
  p <= q →
  (tier_rank (determineTierByPoints (Js.VNum p))
     ≤ tier_rank (determineTierByPoints (Js.VNum q)))%nat
  ∧ determineTierByPoints (Js.VNum p) ∈ ["Bronze"; "Silver"; "Gold"]
  ∧ (p < 1000 → determineTierByPoints (Js.VNum p) = "Bronze")
  ∧ (determineTierByPoints (Js.VNum p) = "Gold" →
     determineTierByPoints (Js.VNum q) = "Gold").
Proof.
  intros Hpq. unfold determineTierByPoints, Js.ge.
  destruct (Z.leb_spec 5000 p), (Z.leb_spec 5000 q),
    (Z.leb_spec 1000 p), (Z.leb_spec 1000 q); try lia;
    (split; [vm_compute; lia|]);
    (split; [rewrite !elem_of_cons; auto|]);
    (split; [intros; (reflexivity || lia)|]);
    intros; (reflexivity || discriminate).
Qed.

Lemma determineTierByPoints_monotone_witness :
  950 <= 1010 ∧
  (tier_rank (determineTierByPoints (Js.VNum 950)) = 0
   ∧ tier_rank (determineTierByPoints (Js.VNum 1010)) = 1)%nat ∧
  (tier_rank (determineTierByPoints (Js.VNum 950))
     ≤ tier_rank (determineTierByPoints (Js.VNum 1010)))%nat.
Proof.
  split; [lia|]. split; [split; reflexivity|].
  apply (determineTierByPoints_monotone 950 1010). lia.
Defined.

(** ** Cache keys *)

Lemma generateKey_same_prefix (prefix i j : string) :
  generateKey prefix i = generateKey prefix j → i = j.
Proof.
  unfold generateKey. induction prefix as [|c r IH]; cbn.
  - intros [=]. assumption.
  - intros [=]. auto.
Qed.

Lemma generateKey_prefix (p q i j : string) :
  colon_free p = true → colon_free q = true →
  generateKey p i = generateKey q j → p = q.
Proof.
  unfold generateKey. revert q.
  induction p as [|c p IH]; intros [|d q] Hp Hq; cbn in *.
  - reflexivity.
  - intros [= <- _]. rewrite bool_decide_eq_true_2 in Hq by reflexivity.
    discriminate.
  - intros [= -> _]. rewrite bool_decide_eq_true_2 in Hp by reflexivity.
    discriminate.
  - intros [= <- Hrest].
    apply andb_prop in Hp as [_ Hp]. apply andb_prop in Hq as [_ Hq].
    f_equal. exact (IH q Hp Hq Hrest).
Qed.

(** X2: a cache key determines its prefix and its identifier: two keys
    built by [generateKey] from colon-free prefixes (as all of
    [CacheKeys] are) are equal only when both the prefixes and the
    identifiers are.  Entries of different users, or of different kinds
    for one user, never share a key. *)
Theorem generateKey_injective (p q i j : string) :
  colon_free p = true →
  colon_free q = true →
  generateKey p i = generateKey q j →
  p = q ∧ i = j.
Proof.
  intros Hp Hq Heq.
  pose proof (generateKey_prefix p q i j Hp Hq Heq) as <-.
  split; [reflexivity|]. exact (generateKey_same_prefix p i j Heq).
Qed.

Lemma generateKey_injective_witness :
  colon_free CacheKeys.USER_POINTS = true ∧
  colon_free CacheKeys.NFT_METADATA = true ∧
  (generateKey CacheKeys.USER_POINTS Demo.alice
     = generateKey CacheKeys.NFT_METADATA Demo.alice →
   CacheKeys.USER_POINTS = CacheKeys.NFT_METADATA ∧ Demo.alice = Demo.alice).
Proof.
  split; [reflexivity|]. split; [reflexivity|].
  apply (generateKey_injective CacheKeys.USER_POINTS CacheKeys.NFT_METADATA
           Demo.alice Demo.alice); reflexivity.
Defined.

(** X3: [recordTransaction] for one user leaves every cache entry of
    every other user in place, and of its own user every entry but the
    points, the free-wash status and the NFT metadata (the pages of the
    activity log, for one, stay cached), whether the chain call succeeds
    or not. *)
Theorem recordTransaction_other_entries (a : string) (timestamp : Z) (w : World)
    (prefix identifier : string) :
  colon_free prefix = true →
  identifier ≠ a
  ∨ prefix ∉ [CacheKeys.USER_POINTS; CacheKeys.FREE_WASH_STATUS;
              CacheKeys.NFT_METADATA] →
  keyspace (redis (recordTransaction a timestamp w).2)
    !! generateKey prefix identifier
  = keyspace (redis w) !! generateKey prefix identifier.
Proof.
  intros Hprefix Hother.
  assert (Hne : ∀ q, q ∈ [CacheKeys.USER_POINTS; CacheKeys.FREE_WASH_STATUS;
                          CacheKeys.NFT_METADATA] →
                generateKey prefix identifier ≠ generateKey q a).
  { intros q Hq Heq.
    assert (Hcolon : colon_free q = true).
    { rewrite !elem_of_cons, elem_of_nil in Hq.
      destruct Hq as [->|[->|[->|[]]]]; reflexivity. }
    pose proof (generateKey_prefix _ _ _ _ Hprefix Hcolon Heq) as ->.
    apply generateKey_same_prefix in Heq as ->.
    destruct Hother as [Hid|Hp]; [congruence|contradiction]. }
  rewrite recordTransaction_run.
  destruct (chain_down w) as [message|]; [reflexivity|].
  cbn [snd]. rewrite !invalidated_lookup.
  rewrite !bool_decide_eq_false_2 by (apply Hne; repeat constructor).
  reflexivity.
Qed.

Lemma recordTransaction_other_entries_witness :
  keyspace (redis Warm.world) !! generateKey CacheKeys.USER_POINTS Demo.alice
  = Some {| payload := Js.VNum 950; expireAt := 1714110629873 |}
  ∧ keyspace (redis (recordTransaction Warm.bob 1714110029873 Warm.world).2)
      !! generateKey CacheKeys.USER_POINTS Demo.alice
    = Some {| payload := Js.VNum 950; expireAt := 1714110629873 |}
  ∧ keyspace (redis (recordTransaction Demo.alice 1714110029873 Warm.world).2)
      !! generateKey CacheKeys.USER_POINTS Demo.alice
    = None.
Proof.
  split; [reflexivity|]. split; [|reflexivity].
  rewrite (recordTransaction_other_entries Warm.bob 1714110029873 Warm.world
             CacheKeys.USER_POINTS Demo.alice);
    [reflexivity|reflexivity|left; discriminate].
Defined.

(** ** The cache between a write and the next read *)

Lemma getUserPoints_shape_free (a : string) (w : World) :
  ledger (chain (getUserPoints a w).2) = ledger (chain w)
  ∧ encode (chain (getUserPoints a w).2) = encode (chain w).
Proof.
  rewrite getUserPoints_run. cbn zeta.
  destruct (if redis_down w then None else cached _ w) as [v|];
    [|destruct (chain_down w)]; split; reflexivity.
Qed.

(** What a served read leaves under its key. *)
Lemma getUserPoints_leaves_cached (a : string) (w w1 : World) (v : Js.value) :
  cache_reachable w →
  getUserPoints a w = (Ok v, w1) →
  cached (generateKey CacheKeys.USER_POINTS a) w1 = Some v
  ∧ redis_fail (redis w1) = redis_fail (redis w).
Proof.
  intros Hup. rewrite getUserPoints_run. cbn zeta.
  rewrite (Hup _ : redis_down w = false).
  destruct (cached _ w) as [v0|] eqn:Hhit.
  - intros [= <- <-]. split; [exact Hhit|reflexivity].
  - destruct (chain_down w); [discriminate|].
    replace (redis_down _) with false by (symmetry; apply Hup).
    intros [= <- <-]. split; [|reflexivity].
    unfold cached. cbn. rewrite lookup_insert_eq. unfold live. cbn.
    rewrite (proj2 (Z.ltb_lt _ _)) by (unfold DEFAULT_EXPIRY; lia). reflexivity.
Qed.

(** X4: a read sees the write that preceded it.  With Redis reachable
    and the chain answering, a [getUserPoints] that follows a
    [recordTransaction] for the same user answers the balance the
    contract left on the ledger, also when an earlier read had cached
    the balance from before the write: the write deleted that entry and
    the read goes to the chain again. *)
Theorem getUserPoints_reads_the_write (a : string) (timestamp : Z) (w : World) :
  let w1 := (getUserPoints a w).2 in
  let w2 := (recordTransaction a timestamp w1).2 in
  let written := (onRecordTransaction (chain w) (ledger (chain w)) a
                    (timestamp `div` 1000)).1 in
  cache_reachable w →
  chain_healthy w →
  ∃ w3, getUserPoints a w2
        = (Ok (Js.VNum (Js.Number (on_chain_points a written))), w3)
    ∧ ledger (chain w3) = written
    ∧ cached (generateKey CacheKeys.USER_POINTS a) w3
      = Some (Js.VNum (Js.Number (on_chain_points a written))).
Proof.
  intros w1 w2 written Hup Hchain.
  destruct (getUserPoints_shape a w Hchain) as (v & r & c & Hrun & Hro & _).
  assert (Hw1 : w1 = with_chain c (with_redis r w)) by (subst w1; rewrite Hrun; reflexivity).
  assert (Hup1 : cache_reachable w1).
  { intros n. rewrite Hw1. cbn. rewrite (ro_redis_fail _ _ _ Hro). apply Hup. }
  assert (Hchain1 : chain_healthy w1).
  { intros n. rewrite Hw1. cbn. rewrite (ro_chain_fail _ _ _ Hro). apply Hchain. }
  assert (Hwritten : ledger (chain w2) = written).
  { subst w2. rewrite recordTransaction_run.
    rewrite (Hchain1 _ : chain_down w1 = None). cbn.
    rewrite Hw1. cbn. rewrite (ro_ledger _ _ _ Hro), (ro_logic _ _ _ Hro).
    reflexivity. }
  destruct (getUserPoints_after_recordTransaction a timestamp w1
              (Hchain1 _) (Hchain1 _) Hup1) as (w3 & Hread & _).
  fold w2 in Hread. rewrite Hwritten in Hread.
  exists w3. split; [exact Hread|].
  pose proof (getUserPoints_shape_free a w2) as [Hledger _].
  rewrite Hread in Hledger. cbn [snd] in Hledger.
  split; [rewrite Hledger; exact Hwritten|].
  apply (getUserPoints_leaves_cached a w2 w3); [|exact Hread].
  intros n. subst w2. rewrite recordTransaction_run.
  rewrite (Hchain1 _ : chain_down w1 = None). cbn. apply Hup1.
Qed.

Lemma getUserPoints_reads_the_write_witness :
  ∃ w3, getUserPoints Demo.alice
          (recordTransaction Demo.alice 1714110029873
             (getUserPoints Demo.alice
                (Demo.world 950 Demo.up Demo.healthy)).2).2
        = (Ok (Js.VNum 1010), w3).
Proof.
  destruct (getUserPoints_reads_the_write Demo.alice 1714110029873
              (Demo.world 950 Demo.up Demo.healthy)
              (λ n, eq_refl) (λ n, eq_refl)) as (w3 & Hread & _).
  exists w3. exact Hread.
Defined.

(** X5: when Redis rejects the delete of the points key, the write still
    answers success and the entry cached before the write survives it: a
    [getUserPoints] that Redis serves afterwards answers that old value
    and does not call the chain. *)
Theorem getUserPoints_stale_after_rejected_delete (a : string) (timestamp : Z)
    (w : World) (v : Js.value) :
  let key := generateKey CacheKeys.USER_POINTS a in
  chain_down w = None →
  redis_down w = true →
  cached key w = Some v →
  redis_fail (redis w) (length (redis_log (redis w)) + 3)%nat = false →
  ∃ w2, getUserPoints a (recordTransaction a timestamp w).2 = (Ok v, w2)
    ∧ chain_log (chain w2)
      = chain_log (chain w) ++ [call_recordTransaction a (timestamp `div` 1000)]
    ∧ ledger (chain w2)
      = (onRecordTransaction (chain w) (ledger (chain w)) a
           (timestamp `div` 1000)).1.
Proof.
  intros key Hwrite Hdown Hhit Hlater.
  destruct (recordTransaction_rejected_delete a timestamp w Hwrite Hdown)
    as [_ Hkept].
  rewrite recordTransaction_run, Hwrite in *. cbn [snd] in *.
  eexists. split.
  - apply getUserPoints_hit.
    + rewrite !redis_down_invalidated. rewrite !redis_log_invalidated.
      cbn [redis chain_logged with_chain]. rewrite !length_app. cbn [length].
      rewrite <- Hlater. f_equal. lia.
    + unfold cached in *. fold key. fold key in Hkept. rewrite Hkept.
      exact Hhit.
  - split; reflexivity.
Qed.

Lemma getUserPoints_stale_after_rejected_delete_witness :
  ∃ w2, getUserPoints Demo.alice
          (recordTransaction Demo.alice 1714110029873
             (getUserPoints Demo.alice
                (Demo.world 950
                   (λ n, (2 <=? n)%nat && (n <=? 4)%nat) Demo.healthy)).2).2
        = (Ok (Js.VNum 950), w2)
    ∧ on_chain_points Demo.alice (ledger (chain w2)) = 1010.
Proof.
  destruct (getUserPoints_stale_after_rejected_delete Demo.alice 1714110029873
              (getUserPoints Demo.alice
                 (Demo.world 950
                    (λ n, (2 <=? n)%nat && (n <=? 4)%nat) Demo.healthy)).2
              (Js.VNum 950) eq_refl eq_refl eq_refl eq_refl)
    as (w2 & Hrun & _ & Hledger).
  exists w2. split; [exact Hrun|]. rewrite Hledger. reflexivity.
Defined.

(** X6: an entry is served for ten minutes and not a millisecond longer.
    When a first [getUserPoints] had to populate the cache, a second one
    made 600 000 ms later or more, with Redis reachable and the chain
    answering, calls the chain again and answers the balance the ledger
    holds. *)
Theorem getUserPoints_after_expiry (a : string) (w : World) (dt : Z) :
  let key := generateKey CacheKeys.USER_POINTS a in
  let balance := Js.VNum (Js.Number (on_chain_points a (ledger (chain w)))) in
  cache_reachable w →
  cached key w = None →
  chain_down w = None →
  chain_fail (chain w) (S (length (chain_log (chain w)))) = None →
  DEFAULT_EXPIRY * 1000 <= dt →
  (getUserPoints a w).1 = Ok balance
  ∧ ∃ w2, getUserPoints a (elapse dt (getUserPoints a w).2) = (Ok balance, w2)
      ∧ chain_log (chain w2)
        = chain_log (chain w) ++ [call_getUserPoints a; call_getUserPoints a].
Proof.
  intros key balance Hup Hmiss Hfirst Hsecond Hdt.
  rewrite getUserPoints_run. fold key.
  rewrite (Hup _ : redis_down w = false), Hmiss, Hfirst. cbn zeta. fold balance.
  replace (redis_down _) with false by (symmetry; apply Hup).
  cbn [fst snd]. split; [reflexivity|].
  rewrite getUserPoints_run. fold key. cbn zeta.
  replace (redis_down _) with false by (symmetry; apply Hup).
  replace (cached key _) with (@None Js.value).
  2: { symmetry. unfold cached, elapse. cbn.
       rewrite lookup_insert_eq. unfold live. cbn.
       rewrite (proj2 (Z.ltb_ge _ _)) by lia. reflexivity. }
  replace (chain_down _) with (@None string).
  2: { symmetry. unfold chain_down. cbn. rewrite length_app, Nat.add_1_r.
       exact Hsecond. }
  eexists. split; [reflexivity|]. cbn. rewrite <- app_assoc. reflexivity.
Qed.

Lemma getUserPoints_after_expiry_witness :
  ∃ w2, getUserPoints Demo.alice
          (elapse 600000
             (getUserPoints Demo.alice (Demo.world 950 Demo.up Demo.healthy)).2)
        = (Ok (Js.VNum 950), w2)
    ∧ chain_log (chain w2)
      = [call_getUserPoints Demo.alice; call_getUserPoints Demo.alice].
Proof.
  destruct (getUserPoints_after_expiry Demo.alice
              (Demo.world 950 Demo.up Demo.healthy) 600000
              (λ n, eq_refl) eq_refl eq_refl eq_refl)
    as (_ & w2 & Hrun & Hlog); [unfold DEFAULT_EXPIRY; lia|].
  exists w2. split; [exact Hrun|exact Hlog].
Defined.

(** X7: a live cache entry is all a read needs.  With Redis serving the
    [GET], [getUserPoints] answers the cached value whatever the state
    of the chain: the chain is not called (so the read succeeds during a
    chain outage), and a balance that changed on the ledger since the
    entry was written goes unseen. *)
Theorem getUserPoints_served_from_cache (a : string) (w : World) (v : Js.value) :
  redis_down w = false →
  cached (generateKey CacheKeys.USER_POINTS a) w = Some v →
  ∃ w', getUserPoints a w = (Ok v, w')
    ∧ chain w' = chain w
    ∧ keyspace (redis w') = keyspace (redis w)
    ∧ (getUserPointsHandler a w).1 = Ok (Replied 200 v).
Proof.
  intros Hup Hhit. eexists. split; [apply getUserPoints_hit; assumption|].
  split; [reflexivity|]. split; [reflexivity|].
  unfold getUserPointsHandler.
  erewrite try_catch_ok; [reflexivity|].
  rewrite (bind_ok _ _ _ _ _ (getUserPoints_hit a w v Hup Hhit)). reflexivity.
Qed.

Lemma getUserPoints_served_from_cache_witness :
  ∃ w', getUserPoints Demo.alice
          (with_chain
             {| ledger := Demo.ledger0 5000; onRecordTransaction := Demo.loyalty;
                encode := λ _ _ _, "0xsignature"; chain_log := [];
                chain_fail := λ _, Some "rpc timeout" |}
             (getUserPoints Demo.alice (Demo.world 950 Demo.up Demo.healthy)).2)
        = (Ok (Js.VNum 950), w').
Proof.
  destruct (getUserPoints_served_from_cache Demo.alice
              (with_chain
                 {| ledger := Demo.ledger0 5000; onRecordTransaction := Demo.loyalty;
                    encode := λ _ _ _, "0xsignature"; chain_log := [];
                    chain_fail := λ _, Some "rpc timeout" |}
                 (getUserPoints Demo.alice (Demo.world 950 Demo.up Demo.healthy)).2)
              (Js.VNum 950) eq_refl eq_refl) as (w' & Hrun & _).
  exists w'. exact Hrun.
Defined.

(** ** The transaction handler before the gateway *)

(** X8: when the user lookup is rejected by the store, or finds no user
    under an address given in stored form (lower-case, trimmed, so that
    the filter mongoose casts is the address itself), the transaction
    handler ends before the gateway is called: it answers 500 "Internal
    Server Error" or 404 "User Not Found", the session is aborted, no
    document is committed, and the chain, the cache, the outbox and the
    socket are exactly what they were. *)
Theorem recordTransactionHandler_stops_before_gateway (req : Request) (w : World) :
  mongo_down w ≠ None
  ∨ (stored_form (body_userAddress req)
     ∧ registered (body_userAddress req) w = None) →
  ∃ w', recordTransactionHandler req w
        = (Ok match mongo_down w with
              | Some _ => internal_error
              | None => user_not_found
              end, w')
    ∧ transactions (mongo w') = transactions (mongo w)
    ∧ session (mongo w') = Aborted
    ∧ chain w' = chain w ∧ redis w' = redis w
    ∧ ses w' = ses w ∧ emitted w' = emitted w.
Proof.
  intros Hstop. unfold recordTransactionHandler.
  run_ok ltac:(reflexivity).
  destruct (mongo_down w) as [e|] eqn:Hdown.
  - erewrite try_catch_throw; cycle 1.
    { run_throw ltac:(rewrite User_findOne_run;
                      replace (mongo_down _) with (Some e) by (symmetry; exact Hdown);
                      reflexivity).
      reflexivity. }
    eexists. split; [reflexivity|]. repeat split.
  - destruct Hstop as [Hstop|[_ Hnone]]; [congruence|].
    erewrite try_catch_ok; cycle 1.
    { run_ok ltac:(rewrite User_findOne_run;
                   replace (mongo_down _) with (@None string) by (symmetry; exact Hdown);
                   reflexivity).
      replace (registered _ _) with (@None User) by (symmetry; exact Hnone).
      reflexivity. }
    eexists. split; [reflexivity|]. repeat split.
Qed.

Lemma recordTransactionHandler_stops_before_gateway_witness :
  (recordTransactionHandler
     {| body_userAddress := "0x00000000000000000000000000000000000000b2";
        body_date := "2024-04-26"; body_vehicleType := "Motor Kecil";
        body_serviceType := "Reguler"; body_price := 15000; app_io := true |}
     (Demo.world 950 Demo.up Demo.healthy)).1 = Ok user_not_found.
Proof.
  destruct (recordTransactionHandler_stops_before_gateway
              {| body_userAddress := "0x00000000000000000000000000000000000000b2";
                 body_date := "2024-04-26"; body_vehicleType := "Motor Kecil";
                 body_serviceType := "Reguler"; body_price := 15000;
                 app_io := true |}
              (Demo.world 950 Demo.up Demo.healthy)
              (or_intror (conj eq_refl eq_refl)))
    as (w' & Hrun & _).
  rewrite Hrun. reflexivity.
Defined.

(** ** Listing the transactions of a day *)

Lemma mongo_counted_served (n : nat) (w : World) :
  mongo_counted n (mongo_served (session (mongo w)) (transactions (mongo w)) w)
  = mongo_counted (S n) w.
Proof.
  unfold mongo_counted, mongo_served, with_mongo. cbn.
  rewrite Nat.add_succ_r. reflexivity.
Qed.

(** The lookups of [getTransactionsByDate]: every one of them is sent,
    whatever the others answer. *)
Lemma Promise_all_lookups_world (l : list Transaction) (w : World) :
  (Promise_all
     (map (λ tx,
             let! user := User_findOne (tx_userAddress tx) in
             ret {| row_userAddress := tx_userAddress tx;
                    row_userName := match user with
                                    | Some u => name u
                                    | None => "Unknown"
                                    end;
                    row_date := tx_date tx;
                    row_vehicleType := tx_vehicleType tx;
                    row_serviceType := tx_serviceType tx;
                    row_price := tx_price tx;
                    row_createdAt := createdAt tx |}) l) w).2
  = mongo_counted (length l) w.
Proof.
  revert w. induction l as [|tx l IH]; intros w.
  - destruct w as [? ? ? [] ? ? ?]. reflexivity.
  - cbn [map Promise_all length]. unfold bind at 1.
    rewrite User_findOne_run.
    destruct (mongo_down w); cbn [snd].
    + rewrite IH. apply mongo_counted_served.
    + unfold ret at 1.
      match goal with |- context [Promise_all ?ps ?W] =>
        specialize (IH W); destruct (Promise_all ps W) as [[rows|e] w2]
      end; cbn [snd] in *; rewrite IH; apply mongo_counted_served.
Qed.

Lemma Promise_all_lookups_served (l : list Transaction) (w : World) :
  (∀ n, (n < length l)%nat →
        mongo_fail (mongo w) (n + mongo_ops (mongo w)) = None) →
  (Promise_all
     (map (λ tx,
             let! user := User_findOne (tx_userAddress tx) in
             ret {| row_userAddress := tx_userAddress tx;
                    row_userName := match user with
                                    | Some u => name u
                                    | None => "Unknown"
                                    end;
                    row_date := tx_date tx;
                    row_vehicleType := tx_vehicleType tx;
                    row_serviceType := tx_serviceType tx;
                    row_price := tx_price tx;
                    row_createdAt := createdAt tx |}) l) w).1
  = Ok (map (row_of w) l).
Proof.
  revert w. induction l as [|tx l IH]; intros w Hserved; [reflexivity|].
  cbn [map Promise_all length]. unfold bind at 1.
  rewrite User_findOne_run.
  replace (mongo_down w) with (@None string)
    by (symmetry; apply (Hserved 0%nat); cbn; lia).
  unfold ret at 1.
  match goal with |- context [Promise_all ?ps ?W] =>
    specialize (IH W); destruct (Promise_all ps W) as [res w2]
  end.
  cbn [fst] in IH. rewrite IH; [reflexivity|].
  intros n Hn. cbn. rewrite Nat.add_succ_r. apply (Hserved (S n)). cbn. lia.
Qed.

Lemma Promise_all_lookups_rejected (l : list Transaction) (w : World)
    (n : nat) (e : string) :
  (n < length l)%nat →
  mongo_fail (mongo w) (n + mongo_ops (mongo w)) = Some e →
  ∃ e',
  (Promise_all
     (map (λ tx,
             let! user := User_findOne (tx_userAddress tx) in
             ret {| row_userAddress := tx_userAddress tx;
                    row_userName := match user with
                                    | Some u => name u
                                    | None => "Unknown"
                                    end;
                    row_date := tx_date tx;
                    row_vehicleType := tx_vehicleType tx;
                    row_serviceType := tx_serviceType tx;
                    row_price := tx_price tx;
                    row_createdAt := createdAt tx |}) l) w).1
  = Throw e'.
Proof.
  revert w n. induction l as [|tx l IH]; intros w n Hn Hfail; [cbn in Hn; lia|].
  cbn [map Promise_all length]. unfold bind at 1.
  rewrite User_findOne_run.
  destruct (mongo_down w) as [e0|] eqn:Hdown; [eexists; reflexivity|].
  unfold ret at 1.
  destruct n as [|n]; [unfold mongo_down in Hdown; cbn in Hfail; congruence|].
  match goal with |- context [Promise_all ?ps ?W] =>
    destruct (IH W n) as [e' He'];
      [cbn in Hn; lia | cbn; rewrite Nat.add_succ_r; exact Hfail |];
    destruct (Promise_all ps W) as [res w2]
  end.
  cbn [fst] in He'. subst res. eexists. reflexivity.
Qed.

(** The documents of a day, as the query returns them. *)
Lemma getTransactionsByDate_run (date : string) (w : World) :
  let found := merge_sort newest_first
                 (filter (λ t, tx_date t = date) (transactions (mongo w))) in
  (∀ n, (n ≤ length found)%nat →
        mongo_fail (mongo w) (n + mongo_ops (mongo w)) = None) →
  getTransactionsByDate date w
  = (Ok (Replied 200 (map (row_of w) found)), mongo_counted (S (length found)) w).
Proof.
  intros found Hserved. unfold getTransactionsByDate.
  erewrite try_catch_ok; [reflexivity|].
  unfold bind at 1. unfold Transaction_find_by_date, mongo_request.
  replace (mongo_fail (mongo w) (mongo_ops (mongo w))) with (@None string)
    by (symmetry; apply (Hserved 0%nat); lia).
  cbn [transactions]. fold found.
  unfold bind at 1.
  match goal with |- context [Promise_all ?ps ?W] =>
    pose proof (Promise_all_lookups_served found W) as Hrows;
    pose proof (Promise_all_lookups_world found W) as Hworld;
    destruct (Promise_all ps W) as [res w2]
  end.
  cbn [fst snd] in *. rewrite Hrows, Hworld.
  - unfold ret. f_equal.
    unfold mongo_counted, with_mongo. cbn. rewrite Nat.add_succ_r. reflexivity.
  - intros n Hn. cbn. rewrite Nat.add_succ_r. apply (Hserved (S n)). lia.
Qed.

#[local] Instance newest_first_total : Total newest_first.
Proof. intros x y. unfold newest_first. lia. Qed.

#[local] Instance newest_first_transitive : Transitive newest_first.
Proof. intros x y z. unfold newest_first. lia. Qed.

(** X9: with the store answering, [getTransactionsByDate] answers 200
    with one row per committed document of that date and no other row,
    newest first; it sends one query for the documents and one more per
    document found, and changes no data. *)
Theorem getTransactionsByDate_lists_the_day (date : string) (w : World) :
  store_healthy w →
  ∃ rows w',
    getTransactionsByDate date w = (Ok (Replied 200 rows), w')
    ∧ rows ≡ₚ map (row_of w)
                (filter (λ t, tx_date t = date) (transactions (mongo w)))
    ∧ Sorted (λ r s, row_createdAt s <= row_createdAt r) rows
    ∧ (∀ r, r ∈ rows → row_date r = date)
    ∧ mongo_ops (mongo w') = (S (length rows) + mongo_ops (mongo w))%nat
    ∧ transactions (mongo w') = transactions (mongo w)
    ∧ users (mongo w') = users (mongo w)
    ∧ session (mongo w') = session (mongo w).
Proof.
  intros Hstore. do 2 eexists.
  split; [apply getTransactionsByDate_run; intros; apply Hstore|].
  split; [apply fmap_Permutation, merge_sort_Permutation|].
  split.
  { pose proof (Sorted_merge_sort newest_first
                  (filter (λ t, tx_date t = date) (transactions (mongo w)))) as Hs.
    induction Hs as [|x l Hs IH Hhd]; cbn; constructor; [exact IH|].
    destruct Hhd; cbn; constructor. assumption. }
  split.
  { intros r Hr. apply list_elem_of_fmap in Hr as (t & -> & Ht).
    rewrite merge_sort_Permutation in Ht.
    apply list_elem_of_filter in Ht as [Ht _]. exact Ht. }
  split; [cbn; rewrite length_map; reflexivity|].
  repeat split.
Qed.

(** X10: one rejected request is enough to hide the whole day.  When the
    store rejects the query, or the lookup of the user of any one of the
    documents found, [getTransactionsByDate] answers 500 "Internal Server
    Error" and none of the rows. *)
Theorem getTransactionsByDate_one_rejection (date : string) (w : World)
    (n : nat) (e : string) :
  (n ≤ length (filter (λ t, tx_date t = date) (transactions (mongo w))))%nat →
  mongo_fail (mongo w) (n + mongo_ops (mongo w)) = Some e →
  (getTransactionsByDate date w).1
  = Ok (Refused 500 "Internal Server Error" "Failed to get transactions").
Proof.
  intros Hn Hfail. unfold getTransactionsByDate, try_catch.
  match goal with |- context [bind ?m ?k w] =>
    assert (∃ e', (bind m k w).1 = Throw e') as [e' He'];
      [|destruct (bind m k w) as [res w']; cbn [fst] in He'; subst res; reflexivity]
  end.
  unfold bind at 1. unfold Transaction_find_by_date, mongo_request.
  destruct (mongo_fail (mongo w) (mongo_ops (mongo w))) as [e0|] eqn:Hdown;
    [eexists; reflexivity|].
  cbn [transactions].
  destruct n as [|n]; [cbn in Hfail; congruence|].
  unfold bind at 1.
  match goal with |- context [Promise_all (map ?f ?l) ?W] =>
    destruct (Promise_all_lookups_rejected l W n e) as [e' He'];
      [rewrite merge_sort_Permutation; lia
      |cbn; rewrite Nat.add_succ_r; exact Hfail|];
    destruct (Promise_all (map f l) W) as [res w2]
  end.
  cbn [fst] in He'. subst res. eexists. reflexivity.
Qed.

Lemma getTransactionsByDate_lists_the_day_witness :
  ∃ rows w',
    getTransactionsByDate "2024-04-26" (Books.world Demo.healthy)
    = (Ok (Replied 200 rows), w')
    ∧ rows ≡ₚ map (row_of (Books.world Demo.healthy))
                [ Books.wash_at "2024-04-26" 1714100000000;
                  Books.wash_at "2024-04-26" 1714108000000 ].
Proof.
  destruct (getTransactionsByDate_lists_the_day "2024-04-26"
              (Books.world Demo.healthy) (λ n, eq_refl))
    as (rows & w' & Hrun & Hrows & _).
  exists rows, w'. split; [exact Hrun|exact Hrows].
Defined.

Lemma getTransactionsByDate_one_rejection_witness :
  (getTransactionsByDate "2024-04-26" (Books.world Books.third_request_fails)).1
  = Ok (Refused 500 "Internal Server Error" "Failed to get transactions").
Proof.
  apply (getTransactionsByDate_one_rejection "2024-04-26"
           (Books.world Books.third_request_fails) 2 "connection reset").
  - vm_compute. lia.
  - reflexivity.
Defined.

(** ** What the gateway leaves alone *)

Lemma getUserPoints_outside (a : string) (w : World) :
  outside_gateway w (getUserPoints a w).2
  ∧ ledger (chain (getUserPoints a w).2) = ledger (chain w)
  ∧ onRecordTransaction (chain (getUserPoints a w).2) = onRecordTransaction (chain w).
Proof.
  rewrite getUserPoints_run. cbn zeta.
  destruct (if redis_down w then None else cached _ w) as [v|];
    [|destruct (chain_down w)]; repeat split.
Qed.

Lemma getNFTMetadata_outside (a : string) (w : World) :
  outside_gateway w (getNFTMetadata a w).2
  ∧ ledger (chain (getNFTMetadata a w).2) = ledger (chain w)
  ∧ onRecordTransaction (chain (getNFTMetadata a w).2) = onRecordTransaction (chain w).
Proof.
  rewrite getNFTMetadata_run. cbn zeta.
  destruct (if redis_down w then None else cached _ w) as [v|];
    [|destruct (chain_down w)]; repeat split.
Qed.

(** ** Every outcome of the block that records on the blockchain *)

Ltac tidy_in H :=
  cbn [clock redis chain mongo ses ADMIN_EMAIL emitted
       with_clock with_redis with_chain with_mongo with_ses with_emitted
       users transactions session mongo_ops mongo_fail set_session mongo_served
       keyspace redis_log redis_fail redis_logged invalidated
       ledger onRecordTransaction encode chain_log chain_fail chain_logged
       outbox ses_fail txHash success fst snd] in H.

Lemma recordOnBlockchain_outcomes (req : Request) (u : User) (t : Transaction)
    (now : Z) (w : World) :
  let a := body_userAddress req in
  let out := onRecordTransaction (chain w) (ledger (chain w)) a (now `div` 1000) in
  let '(res, w') := recordOnBlockchain req u t now w in
  users (mongo w') = users (mongo w)
  ∧ mongo_fail (mongo w') = mongo_fail (mongo w)
  ∧ match res with
    | Ok response =>
        (∃ points,
           response = {| status := 200;
                         json := Recorded out.2 points (determineTierByPoints points) |})
        ∧ transactions (mongo w') = transactions (mongo w) ++ [confirmed t out.2]
        ∧ session (mongo w') = Committed
        ∧ ledger (chain w') = out.1
    | Throw message =>
        transactions (mongo w') = transactions (mongo w)
        ∧ (chain_down w = None → ledger (chain w') = out.1)
        ∧ (chain_down w ≠ None → ledger (chain w') = ledger (chain w))
    end.
Proof.
  intros a out. unfold recordOnBlockchain. fold a.
  unfold bind at 1. rewrite recordTransaction_run. cbn zeta. fold out.
  destruct (chain_down w) as [message|] eqn:Hchain.
  { repeat split. congruence. }
  tidy.
  unfold bind at 1. rewrite Transaction_save_run.
  match goal with |- context [mongo_down ?W] =>
    change (mongo_down W) with (mongo_down w) end.
  destruct (mongo_down w) as [message|] eqn:Hstore.
  { repeat split. congruence. }
  run_ok ltac:(reflexivity). tidy.
  match goal with |- context [bind (getUserPoints a) _ ?W] =>
    destruct (getUserPoints_outside a W) as ([Hm1 _ _ _ _] & Hl1 & _);
    unfold bind at 1;
    destruct (getUserPoints a W) as [[points|message] w5]
  end; cbn [snd] in Hm1, Hl1; tidy_in Hm1; tidy_in Hl1.
  2: { rewrite Hm1, Hl1. repeat split. congruence. }
  match goal with |- context [bind (getNFTMetadata a) _ ?W] =>
    destruct (getNFTMetadata_outside a W) as ([Hm2 _ _ _ _] & Hl2 & _);
    unfold bind at 1;
    destruct (getNFTMetadata a W) as [[nft|message] w6]
  end; cbn [snd] in Hm2, Hl2; rewrite Hm1 in Hm2; rewrite Hl1 in Hl2.
  2: { rewrite Hm2, Hl2. repeat split. congruence. }
  clear Hm1 Hl1.
  assert (Hcommit : ∀ (w7 : World) (k : unit → M Response),
            mongo w7 = mongo w6 → ledger (chain w7) = ledger (chain w6) →
            (∀ w8, ∃ w9, k tt w8 = (Ok {| status := 200;
                                          json := Recorded out.2 points
                                                    (determineTierByPoints points) |}, w9)
                         ∧ mongo w9 = mongo w8 ∧ chain w9 = chain w8) →
            let '(res, w') := bind commitTransaction k w7 in
            users (mongo w') = users (mongo w)
            ∧ mongo_fail (mongo w') = mongo_fail (mongo w)
            ∧ match res with
              | Ok response =>
                  (∃ points,
                     response = {| status := 200;
                                   json := Recorded out.2 points
                                             (determineTierByPoints points) |})
                  ∧ transactions (mongo w') = transactions (mongo w) ++ [confirmed t out.2]
                  ∧ session (mongo w') = Committed
                  ∧ ledger (chain w') = out.1
              | Throw message =>
                  transactions (mongo w') = transactions (mongo w)
                  ∧ (@None string = None → ledger (chain w') = out.1)
                  ∧ (@None string ≠ None → ledger (chain w') = ledger (chain w))
              end).
  { intros w7 k Hm7 Hl7 Hk. unfold bind at 1.
    rewrite (commitTransaction_run (confirmed t out.2))
      by (rewrite Hm7, Hm2; reflexivity).
    unfold mongo_down, mongo_served. rewrite Hm7, Hm2. tidy.
    destruct (mongo_fail (mongo w) (S (mongo_ops (mongo w)))) as [message|].
    - tidy. rewrite Hl7, Hl2. repeat split. congruence.
    - match goal with |- context [k tt ?W] =>
        destruct (Hk W) as (w9 & -> & Hm9 & Hc9) end.
      rewrite Hm9, Hc9. tidy. rewrite Hl7, Hl2. repeat split. eexists; reflexivity. }
  destruct (bool_decide (determineTierByPoints points
                         ≠ Js.or_default (Js.tier nft) "Bronze")).
  - run_ok ltac:(reflexivity).
    match goal with |- context [bind commitTransaction ?k ?W] =>
      apply (Hcommit W k) end; [reflexivity|reflexivity|].
    intros w8. destruct (app_io req); eexists; (split; [reflexivity|]); split; reflexivity.
  - run_ok ltac:(reflexivity).
    match goal with |- context [bind commitTransaction ?k ?W] =>
      apply (Hcommit W k) end; [reflexivity|reflexivity|].
    intros w8. destruct (app_io req); eexists; (split; [reflexivity|]); split; reflexivity.
Qed.

(** ** Every outcome of the transaction handler *)

Lemma recordTransactionHandler_cases (req : Request) (w : World) :
  let a := body_userAddress req in
  let out := onRecordTransaction (chain w) (ledger (chain w)) a (clock w `div` 1000) in
  let '(res, w') := recordTransactionHandler req w in
  users (mongo w') = users (mongo w)
  ∧ mongo_fail (mongo w') = mongo_fail (mongo w)
  ∧ ∃ response, res = Ok response
    ∧ ((∃ points,
          response = {| status := 200;
                        json := Recorded out.2 points (determineTierByPoints points) |})
       ∧ transactions (mongo w')
         = transactions (mongo w) ++ [confirmed (document req w) out.2]
       ∧ session (mongo w') = Committed
       ∧ ledger (chain w') = out.1
       ∨ (status response = 404 ∨ status response = 500)
         ∧ transactions (mongo w') = transactions (mongo w)
         ∧ session (mongo w') = Aborted).
Proof.
  intros a out.
  destruct (mongo_down w) as [e|] eqn:Hlookup.
  { unfold recordTransactionHandler.
    run_ok ltac:(reflexivity).
    erewrite try_catch_throw; cycle 1.
    { run_throw ltac:(rewrite User_findOne_run;
                      replace (mongo_down _) with (Some e) by (symmetry; exact Hlookup);
                      reflexivity).
      reflexivity. }
    cbn. split; [reflexivity|]. split; [reflexivity|].
    eexists. split; [reflexivity|]. right. repeat split. right. reflexivity. }
  destruct (registered a w) as [u|] eqn:Hu.
  2: { unfold recordTransactionHandler.
       run_ok ltac:(reflexivity).
       erewrite try_catch_ok; cycle 1.
       { run_ok ltac:(rewrite User_findOne_run;
                      replace (mongo_down _) with (@None string)
                        by (symmetry; exact Hlookup);
                      reflexivity).
         replace (registered _ _) with (@None User) by (symmetry; exact Hu).
         reflexivity. }
       cbn. split; [reflexivity|]. split; [reflexivity|].
       eexists. split; [reflexivity|]. right. repeat split. left. reflexivity. }
  destruct (mongo_fail (mongo w) (S (mongo_ops (mongo w)))) as [e|] eqn:Hsave.
  { unfold recordTransactionHandler.
    run_ok ltac:(reflexivity).
    erewrite try_catch_throw; cycle 1.
    { run_ok ltac:(rewrite User_findOne_run;
                   replace (mongo_down _) with (@None string)
                     by (symmetry; exact Hlookup);
                   reflexivity).
      replace (registered _ _) with (Some u) by (symmetry; exact Hu).
      run_ok ltac:(reflexivity).
      run_ok ltac:(reflexivity).
      run_throw ltac:(rewrite Transaction_save_run;
                      replace (mongo_down _) with (Some e) by (symmetry; exact Hsave);
                      reflexivity).
      reflexivity. }
    cbn. split; [reflexivity|]. split; [reflexivity|].
    eexists. split; [reflexivity|]. right. repeat split. right. reflexivity. }
  rewrite (recordTransactionHandler_reaches_chain req w u Hlookup Hu Hsave).
  pose proof (recordOnBlockchain_outcomes req u (document req w) (clock w)
                (persisted req w)) as Hblock.
  cbn zeta in Hblock.
  destruct (recordOnBlockchain req u (document req w) (clock w) (persisted req w))
    as [[response|message] w'].
  - destruct Hblock as (Husers & Hfail & Hpoints & Htx & Hs & Hl).
    split; [exact Husers|]. split; [exact Hfail|].
    exists response. split; [reflexivity|]. left.
    split; [exact Hpoints|]. split; [exact Htx|]. split; [exact Hs|exact Hl].
  - destruct Hblock as (Husers & Hfail & Htx & _).
    split; [exact Husers|]. split; [exact Hfail|].
    eexists. split; [reflexivity|]. right.
    split; [right; reflexivity|]. split; [exact Htx|reflexivity].
Qed.

(** X11: every outcome of the transaction handler.  Once the session is
    started, for an address in stored form and short of a rejected
    commit, whatever else Redis, the chain, the store and SES do, the
    handler answers, and it answers one of two ways: 200 with exactly one
    document added to the committed transactions, the one of the request
    marked as recorded with the hash of the chain write, or 404 or 500
    with the committed transactions as they were and the session
    aborted.  An unconfirmed document is never committed, and the users
    are never written. *)
Theorem recordTransactionHandler_outcomes (req : Request) (w : World) :
  let a := body_userAddress req in
  let out := onRecordTransaction (chain w) (ledger (chain w)) a (clock w `div` 1000) in
  stored_form a →
  commit_served w →
  ∃ response w',
    recordTransactionHandler req w = (Ok response, w')
    ∧ users (mongo w') = users (mongo w)
    ∧ ((∃ points,
          response = {| status := 200;
                        json := Recorded out.2 points (determineTierByPoints points) |})
       ∧ transactions (mongo w')
         = transactions (mongo w) ++ [confirmed (document req w) out.2]
       ∧ session (mongo w') = Committed
       ∧ ledger (chain w') = out.1
       ∨ (status response = 404 ∨ status response = 500)
         ∧ transactions (mongo w') = transactions (mongo w)
         ∧ session (mongo w') = Aborted).
Proof.
  intros a out _ _.
  pose proof (recordTransactionHandler_cases req w) as Hcases. cbn zeta in Hcases.
  destruct (recordTransactionHandler req w) as [res w'].
  destruct Hcases as (Husers & _ & response & -> & Hcases).
  exists response, w'. split; [reflexivity|]. split; [exact Husers|exact Hcases].
Qed.

Lemma recordTransactionHandler_outcomes_witness :
  ∃ response,
    (recordTransactionHandler Demo.wash (Books.world Books.save_fails)).1
    = Ok response
    ∧ status response = 500
    ∧ transactions (mongo (recordTransactionHandler Demo.wash
                             (Books.world Books.save_fails)).2)
      = transactions (mongo (Books.world Books.save_fails)).
Proof.
  destruct (recordTransactionHandler_outcomes Demo.wash
              (Books.world Books.save_fails) eq_refl eq_refl)
    as (response & w' & Hrun & _ & [([points ->] & _)|(_ & Htx & _)]).
  - exfalso. apply (f_equal fst) in Hrun. vm_compute in Hrun. discriminate Hrun.
  - exists response. rewrite Hrun. cbn [fst snd].
    split; [reflexivity|]. split; [|exact Htx].
    apply (f_equal fst) in Hrun. vm_compute in Hrun.
    injection Hrun as <-. reflexivity.
Defined.

(** ** The handler and the listing of the day *)

Lemma row_of_users (w w' : World) (tx : Transaction) :
  users (mongo w') = users (mongo w) → row_of w' tx = row_of w tx.
Proof. intros Hu. unfold row_of, registered. rewrite Hu. reflexivity. Qed.

Lemma listed_same (date : string) (w w' : World) :
  users (mongo w') = users (mongo w) →
  transactions (mongo w') = transactions (mongo w) →
  listed date w' = listed date w.
Proof.
  intros Hu Ht. unfold listed. rewrite Ht.
  apply map_ext. intros tx. apply row_of_users, Hu.
Qed.

Lemma getTransactionsByDate_listed (date : string) (w : World) :
  store_healthy w →
  (getTransactionsByDate date w).1 = Ok (Replied 200 (listed date w)).
Proof.
  intros Hstore. rewrite getTransactionsByDate_run by (intros; apply Hstore).
  reflexivity.
Qed.

(** The newest document of a list comes first. *)
Lemma merge_sort_newest (l : list Transaction) (x : Transaction) :
  x ∈ l →
  (∀ y, y ∈ l → y = x ∨ createdAt y < createdAt x) →
  head (merge_sort newest_first l) = Some x.
Proof.
  intros Hx Hnewest.
  pose proof (StronglySorted_merge_sort newest_first l) as Hsorted.
  pose proof (merge_sort_Permutation newest_first l) as Hperm.
  destruct (merge_sort newest_first l) as [|z s].
  - rewrite <- Hperm in Hx. inversion Hx.
  - cbn. f_equal.
    assert (Hz : z ∈ l) by (rewrite <- Hperm; left).
    destruct (Hnewest z Hz) as [->|Hlt]; [reflexivity|].
    rewrite <- Hperm in Hx. apply elem_of_cons in Hx as [->|Hx]; [reflexivity|].
    apply StronglySorted_inv in Hsorted as [_ Hall].
    rewrite Forall_forall in Hall. specialize (Hall x Hx).
    unfold newest_first in Hall. lia.
Qed.

Lemma getTransactionsByDate_served (date : string) (w : World) :
  store_serves w →
  (getTransactionsByDate date w).1 = Ok (Replied 200 (listed date w)).
Proof.
  intros Hserves. rewrite getTransactionsByDate_run; [reflexivity|].
  intros n _. rewrite Nat.add_comm. apply Hserves.
Qed.

(** X12: a call of the transaction handler that does not answer 200 leaves
    no trace in the listings.  For an address in stored form and short of
    a rejected commit, whatever made the call fail (the store rejecting
    the lookup or a save, the chain failing at the write or at a read
    after the write went through), the rows of every day are what they
    were, and a listing the store serves afterwards answers them. *)
Theorem getTransactionsByDate_after_failed_recording (req : Request) (w : World)
    (response : Response) (date : string) :
  let w' := (recordTransactionHandler req w).2 in
  stored_form (body_userAddress req) →
  commit_served w →
  (recordTransactionHandler req w).1 = Ok response →
  status response ≠ 200 →
  store_serves w' →
  listed date w' = listed date w
  ∧ (getTransactionsByDate date w').1 = Ok (Replied 200 (listed date w))
  ∧ (store_serves w →
     (getTransactionsByDate date w).1 = Ok (Replied 200 (listed date w))).
Proof.
  intros w' _ _ Hres Hstatus Hserves. subst w'.
  pose proof (recordTransactionHandler_cases req w) as Hcases. cbn zeta in Hcases.
  destruct (recordTransactionHandler req w) as [res w'].
  cbn [fst snd] in *. subst res.
  destruct Hcases as (Husers & Hfail & r & [= <-] & Hcases).
  destruct Hcases as [([points ->] & _)|(_ & Htx & _)]; [cbn in Hstatus; congruence|].
  pose proof (listed_same date w w' Husers Htx) as Hsame.
  split; [exact Hsame|]. split; [|apply getTransactionsByDate_served].
  rewrite <- Hsame. apply getTransactionsByDate_served, Hserves.
Qed.

Lemma getTransactionsByDate_after_failed_recording_witness :
  (recordTransactionHandler Demo.wash (Books.world Books.save_fails)).1
  = Ok internal_error
  ∧ length (listed "2024-04-26" (Books.world Books.save_fails)) = 2%nat
  ∧ (getTransactionsByDate "2024-04-26"
       (recordTransactionHandler Demo.wash (Books.world Books.save_fails)).2).1
    = Ok (Replied 200 (listed "2024-04-26" (Books.world Books.save_fails))).
Proof.
  split; [vm_compute; reflexivity|]. split; [reflexivity|].
  apply (getTransactionsByDate_after_failed_recording Demo.wash
           (Books.world Books.save_fails) internal_error "2024-04-26"
           eq_refl eq_refl).
  - vm_compute. reflexivity.
  - cbn. lia.
  - intros n. reflexivity.
Defined.

(** X13: a recording that answers 200 shows in the listing of its day and
    in no other.  With the store answering, the listing of the day of
    the request afterwards holds the row of the new document, in first
    place when every document committed before is older than the
    request; the listing of any other day is what it was. *)
Theorem getTransactionsByDate_after_recording (req : Request) (w : World)
    (response : Response) :
  let w' := (recordTransactionHandler req w).2 in
  let hash := (onRecordTransaction (chain w) (ledger (chain w))
                 (body_userAddress req) (clock w `div` 1000)).2 in
  let row := row_of w (confirmed (document req w) hash) in
  store_healthy w →
  (recordTransactionHandler req w).1 = Ok response →
  status response = 200 →
  (getTransactionsByDate (body_date req) w').1
  = Ok (Replied 200 (listed (body_date req) w'))
  ∧ row ∈ listed (body_date req) w'
  ∧ length (listed (body_date req) w') = S (length (listed (body_date req) w))
  ∧ ((∀ t, t ∈ transactions (mongo w) → createdAt t < clock w) →
     head (listed (body_date req) w') = Some row)
  ∧ (∀ date, date ≠ body_date req → listed date w' = listed date w).
Proof.
  intros w' hash row Hstore Hres Hstatus. subst w'.
  pose proof (recordTransactionHandler_cases req w) as Hcases. cbn zeta in Hcases.
  destruct (recordTransactionHandler req w) as [res w'].
  cbn [fst snd] in *. subst res.
  destruct Hcases as (Husers & Hfail & r & [= <-] & Hcases).
  destruct Hcases as [(_ & Htx & _)|([Hs|Hs] & _)]; [|congruence|congruence].
  fold hash in Htx.
  assert (Hfilter : filter (λ t, tx_date t = body_date req) (transactions (mongo w'))
                    = filter (λ t, tx_date t = body_date req) (transactions (mongo w))
                      ++ [confirmed (document req w) hash]).
  { rewrite Htx, filter_app. f_equal. cbn. rewrite decide_True; reflexivity. }
  assert (Hrow : ∀ tx, row_of w' tx = row_of w tx)
    by (intros tx; apply row_of_users, Husers).
  split; [apply getTransactionsByDate_listed; intros n; rewrite Hfail; apply Hstore|].
  split.
  { unfold listed. apply list_elem_of_fmap. exists (confirmed (document req w) hash).
    split; [symmetry; apply Hrow|].
    rewrite merge_sort_Permutation, Hfilter.
    apply elem_of_app. right. left. }
  split.
  { unfold listed. rewrite !length_map, !merge_sort_Permutation, Hfilter.
    rewrite length_app. cbn. lia. }
  split.
  { intros Hnewer. unfold listed.
    assert (Hhead : head (merge_sort newest_first
                            (filter (λ t, tx_date t = body_date req)
                               (transactions (mongo w'))))
                    = Some (confirmed (document req w) hash)).
    { apply merge_sort_newest.
      - rewrite Hfilter. apply elem_of_app. right. left.
      - intros y Hy. rewrite Hfilter in Hy.
        apply elem_of_app in Hy as [Hy|Hy].
        + right. apply list_elem_of_filter in Hy as [_ Hy]. apply Hnewer, Hy.
        + left. apply list_elem_of_singleton in Hy. exact Hy. }
    destruct (merge_sort _ _) as [|z s]; [discriminate Hhead|].
    injection Hhead as ->. cbn. rewrite Hrow. reflexivity. }
  intros date Hdate. unfold listed. rewrite Htx, filter_app.
  replace (filter (λ t, tx_date t = date) [confirmed (document req w) hash])
    with (@nil Transaction).
  - rewrite app_nil_r. apply map_ext. exact Hrow.
  - cbn. rewrite decide_False; [reflexivity|]. cbn. congruence.
Qed.

Lemma getTransactionsByDate_after_recording_witness :
  length (listed "2024-04-26"
            (recordTransactionHandler Demo.wash (Books.world Demo.healthy)).2)
  = 3%nat.
Proof.
  destruct (getTransactionsByDate_after_recording Demo.wash
              (Books.world Demo.healthy)
              {| status := 200;
                 json := Recorded "0xabc123" (Js.VNum 1010) "Silver" |}
              (λ n, eq_refl) ltac:(vm_compute; reflexivity) eq_refl)
    as (_ & _ & Hlength & _).
  etransitivity; [exact Hlength|reflexivity].
Defined.

(** X14: a chain write that went through is not taken back.  When the
    write to the chain succeeded and the handler nevertheless does not
    answer 200 because a read of the chain or the second save failed
    afterwards (a rejected commit is left out), the answer is 500
    "Blockchain Error", no document is committed and the session is
    aborted, while the ledger keeps what the contract made of the
    write. *)
Theorem recordTransactionHandler_orphaned_write (req : Request) (w : World)
    (u : User) (response : Response) :
  let a := body_userAddress req in
  let out := onRecordTransaction (chain w) (ledger (chain w)) a (clock w `div` 1000) in
  let w' := (recordTransactionHandler req w).2 in
  registered a w = Some u →
  mongo_down w = None →
  mongo_fail (mongo w) (S (mongo_ops (mongo w))) = None →
  commit_served w →
  chain_down w = None →
  (recordTransactionHandler req w).1 = Ok response →
  status response ≠ 200 →
  (∃ message, response = blockchain_error message)
  ∧ ledger (chain w') = out.1
  ∧ transactions (mongo w') = transactions (mongo w)
  ∧ session (mongo w') = Aborted.
Proof.
  intros a out w' Hu Hlookup Hsave _ Hchain Hres Hstatus. subst w'.
  rewrite (recordTransactionHandler_reaches_chain req w u Hlookup Hu Hsave) in *.
  pose proof (recordOnBlockchain_outcomes req u (document req w) (clock w)
                (persisted req w)) as Hblock.
  cbn zeta in Hblock.
  destruct (recordOnBlockchain req u (document req w) (clock w) (persisted req w))
    as [[r|message] w1]; cbn [fst snd] in *.
  - destruct Hblock as (_ & _ & [points ->] & _).
    injection Hres as <-. cbn in Hstatus. congruence.
  - destruct Hblock as (_ & _ & Htx & Hledger & _).
    injection Hres as <-.
    split; [eexists; reflexivity|]. split; [apply Hledger, Hchain|].
    split; [exact Htx|reflexivity].
Qed.

Lemma recordTransactionHandler_orphaned_write_witness :
  on_chain_points Demo.alice
    (ledger (chain (recordTransactionHandler Demo.wash
                      (Demo.world 950 Demo.up Demo.second_call_fails)).2))
  = 1010
  ∧ transactions (mongo (recordTransactionHandler Demo.wash
                           (Demo.world 950 Demo.up Demo.second_call_fails)).2)
    = [].
Proof.
  destruct (recordTransactionHandler_orphaned_write Demo.wash
              (Demo.world 950 Demo.up Demo.second_call_fails)
              {| userAddress := Demo.alice; email := "alice@example.com";
                 name := "Alice" |}
              (blockchain_error "rpc timeout")
              eq_refl eq_refl eq_refl eq_refl eq_refl
              ltac:(vm_compute; reflexivity) ltac:(cbn; lia))
    as (_ & Hledger & Htx & _).
  split; [rewrite Hledger; reflexivity|exact Htx].
Defined.

(** ** Signing a redemption *)

Lemma requiredPointsFor_cases (packageType : Z) (w : World) :
  (∃ r, requiredPointsFor packageType w = (Ok r, w))
  ∨ requiredPointsFor packageType w = (Throw "Invalid package type", w).
Proof.
  unfold requiredPointsFor.
  destruct packageType as [|[[]|[]|]|]; (left; eexists; reflexivity) || (right; reflexivity).
Qed.

Lemma signRedeemPackage_run (a : string) (packageType nonce r : Z) (w w1 : World)
    (v : Js.value) :
  getUserPoints a w = (Ok v, w1) →
  requiredPointsFor packageType w1 = (Ok r, w1) →
  Js.lt v r = false →
  signRedeemPackage a packageType nonce w
  = (match chain_down w1 with
     | Some message => Throw message
     | None => Ok (encode (chain w1) a packageType nonce)
     end,
     chain_logged (call_encode a packageType nonce) (ledger (chain w1)) w1).
Proof.
  intros Hread Hreq Henough.
  unfold signRedeemPackage. rewrite try_catch_rethrow.
  rewrite (bind_ok _ _ _ _ _ Hread), (bind_ok _ _ _ _ _ Hreq), Henough.
  unfold bind, generateEIP712Signature. rewrite try_catch_rethrow, chain_call_run.
  destruct (chain_down w1); reflexivity.
Qed.

(** X15: the threshold is inclusive and nothing is spent.  When the
    points read answers a balance at or above the requirement of the
    package and the chain answers, [signRedeemPackage] returns the
    signature over the user, the package and the nonce, [signRedeem]
    answers 200 with it, and the ledger is what it was: the gateway
    checks the balance, it does not debit it. *)
Theorem signRedeemPackage_signs (a : string) (packageType nonce p r : Z)
    (w w1 : World) :
  getUserPoints a w = (Ok (Js.VNum p), w1) →
  requiredPointsFor packageType w1 = (Ok r, w1) →
  r <= p →
  chain_down w1 = None →
  let signature := encode (chain w) a packageType nonce in
  ∃ w2, signRedeemPackage a packageType nonce w = (Ok signature, w2)
    ∧ (signRedeem a packageType nonce w).1 = Ok (Replied 200 signature)
    ∧ ledger (chain w2) = ledger (chain w)
    ∧ chain_log (chain w2) = chain_log (chain w1) ++ [call_encode a packageType nonce].
Proof.
  intros Hread Hreq Henough Hchain signature.
  assert (Hlt : Js.lt (Js.VNum p) r = false) by (cbn; apply Z.ltb_ge; lia).
  pose proof (signRedeemPackage_run a packageType nonce r w w1 _ Hread Hreq Hlt)
    as Hrun.
  rewrite Hchain in Hrun.
  pose proof (getUserPoints_shape_free a w) as Hframe.
  rewrite Hread in Hframe. cbn [snd] in Hframe.
  destruct Hframe as (Hledger & Hencode).
  rewrite Hencode in Hrun. fold signature in Hrun.
  eexists. split; [exact Hrun|].
  split.
  { unfold signRedeem. erewrite try_catch_ok; [reflexivity|].
    rewrite (bind_ok _ _ _ _ _ Hrun). reflexivity. }
  split; [exact Hledger|reflexivity].
Qed.

Lemma signRedeemPackage_signs_witness :
  (signRedeem Demo.alice 1 7 (Demo.world 1000 Demo.up Demo.healthy)).1
  = Ok (Replied 200 "0xsignature").
Proof.
  destruct (signRedeemPackage_signs Demo.alice 1 7 1000 1000
              (Demo.world 1000 Demo.up Demo.healthy)
              (getUserPoints Demo.alice (Demo.world 1000 Demo.up Demo.healthy)).2
              eq_refl eq_refl ltac:(lia) eq_refl) as (w2 & _ & Hreply & _).
  exact Hreply.
Defined.

Lemma requiredPointsFor_anywhere (packageType r : Z) (w w' : World) :
  requiredPointsFor packageType w = (Ok r, w) →
  requiredPointsFor packageType w' = (Ok r, w').
Proof.
  unfold requiredPointsFor.
  destruct packageType as [|[[]|[]|]|]; cbn; intros [=]; subst; reflexivity.
Qed.

(** X16: a signature issued once is issued again.  With Redis reachable,
    when [signRedeemPackage] has signed a redemption, a further call for
    the same user and package, made at once with any nonce, signs as
    well, provided the chain answers: the balance it checks is the
    cached one, which the first signature did not touch, and the ledger
    is still what it was before the first call. *)
Theorem signRedeemPackage_again (a : string) (packageType nonce nonce' : Z)
    (w : World) (signature : string) :
  let w1 := (signRedeemPackage a packageType nonce w).2 in
  cache_reachable w →
  (signRedeemPackage a packageType nonce w).1 = Ok signature →
  chain_down w1 = None →
  ∃ w2, signRedeemPackage a packageType nonce' w1
        = (Ok (encode (chain w) a packageType nonce'), w2)
    ∧ ledger (chain w2) = ledger (chain w).
Proof.
  intros w1' Hup Hfirst' Hchain. subst w1'.
  destruct (signRedeemPackage a packageType nonce w) as [res w1] eqn:Hfirst.
  cbn [fst snd] in *. subst res.
  pose proof (getUserPoints_shape_free a w) as Hframe.
  destruct (getUserPoints a w) as [[v|e] w0] eqn:Hread; cbn [snd] in Hframe.
  2: { unfold signRedeemPackage in Hfirst.
       rewrite try_catch_rethrow, (bind_throw _ _ _ _ _ Hread) in Hfirst.
       discriminate. }
  destruct (requiredPointsFor_cases packageType w0) as [[r Hreq]|Hreq].
  2: { unfold signRedeemPackage in Hfirst.
       rewrite try_catch_rethrow, (bind_ok _ _ _ _ _ Hread),
         (bind_throw _ _ _ _ _ Hreq) in Hfirst.
       discriminate. }
  destruct (Js.lt v r) eqn:Hlt.
  { unfold signRedeemPackage in Hfirst.
    rewrite try_catch_rethrow, (bind_ok _ _ _ _ _ Hread),
      (bind_ok _ _ _ _ _ Hreq), Hlt in Hfirst.
    discriminate. }
  rewrite (signRedeemPackage_run a packageType nonce r w w0 v Hread Hreq Hlt) in Hfirst.
  injection Hfirst as _ <-.
  destruct (getUserPoints_leaves_cached a w w0 v Hup Hread) as [Hhit Horacle].
  destruct Hframe as [Hledger Hencode].
  eexists. split.
  - erewrite (signRedeemPackage_run a packageType nonce' r); cycle 1.
    + apply getUserPoints_hit; [|exact Hhit].
      unfold redis_down. cbn. rewrite Horacle. apply Hup.
    + apply (requiredPointsFor_anywhere _ _ w0), Hreq.
    + exact Hlt.
    + change (chain_down (redis_logged _ _ ?W)) with (chain_down W).
      rewrite Hchain. cbn. rewrite Hencode. reflexivity.
  - cbn. exact Hledger.
Qed.

Lemma signRedeemPackage_again_witness :
  ∃ w2, signRedeemPackage Demo.alice 1 8
          (signRedeemPackage Demo.alice 1 7
             (Demo.world 1000 Demo.up Demo.healthy)).2
        = (Ok "0xsignature", w2)
    ∧ on_chain_points Demo.alice (ledger (chain w2)) = 1000.
Proof.
  destruct (signRedeemPackage_again Demo.alice 1 7 8
              (Demo.world 1000 Demo.up Demo.healthy)
              "0xsignature" (λ n, eq_refl) eq_refl eq_refl)
    as (w2 & Hrun & Hledger).
  exists w2. split; [exact Hrun|]. rewrite Hledger. reflexivity.
Defined.

(** X17: one outage, two answers.  When the points are not served from
    the cache and the chain call fails with [message], the read throws
    that message; [getUserPointsHandler] answers 500 "Blockchain Error"
    with a fixed text, while [signRedeem] answers 400 "Signature Error"
    and hands the message of the chain to the caller. *)
Theorem signRedeem_chain_outage (a : string) (packageType nonce : Z)
    (w : World) (message : string) :
  cache_answer (generateKey CacheKeys.USER_POINTS a) w = None →
  chain_down w = Some message →
  (getUserPoints a w).1 = Throw message
  ∧ (getUserPointsHandler a w).1
    = Ok (Refused 500 "Blockchain Error" "Failed to get user points")
  ∧ (signRedeem a packageType nonce w).1
    = Ok (Refused 400 "Signature Error" message)
  ∧ ledger (chain (signRedeem a packageType nonce w).2) = ledger (chain w).
Proof.
  intros Hmiss Hdown.
  pose proof (getUserPoints_run a w) as Hread. cbn zeta in Hread.
  unfold cache_answer in Hmiss. rewrite Hmiss, Hdown in Hread.
  split; [rewrite Hread; reflexivity|].
  split.
  { unfold getUserPointsHandler. erewrite try_catch_throw; [reflexivity|].
    rewrite (bind_throw _ _ _ _ _ Hread). reflexivity. }
  assert (Hsign : signRedeemPackage a packageType nonce w
                  = (Throw message,
                     chain_logged (call_getUserPoints a) (ledger (chain w))
                       (redis_logged (GET (generateKey CacheKeys.USER_POINTS a))
                          (keyspace (redis w)) w))).
  { unfold signRedeemPackage. rewrite try_catch_rethrow.
    rewrite (bind_throw _ _ _ _ _ Hread). reflexivity. }
  unfold signRedeem.
  erewrite try_catch_throw by (rewrite (bind_throw _ _ _ _ _ Hsign); reflexivity).
  split; reflexivity.
Qed.

Lemma signRedeem_chain_outage_witness :
  (signRedeem Demo.alice 1 7
     (Demo.world 5000 Demo.up (λ _, Some "rpc timeout"))).1
  = Ok (Refused 400 "Signature Error" "rpc timeout").
Proof.
  destruct (signRedeem_chain_outage Demo.alice 1 7
              (Demo.world 5000 Demo.up (λ _, Some "rpc timeout")) "rpc timeout"
              eq_refl eq_refl) as (_ & _ & Hreply & _).
  exact Hreply.
Defined.

(** X18: for a package the gateway knows, the balance decides.  When
    [packageType] is the number 1, 2 or 3, the balance is served from
    the cache and the chain answers, [signRedeem] answers 400 with the
    insufficient-points message exactly when the balance is below the
    requirement of the package (1000, 3000, 5000), and 200 with the
    signature otherwise. *)
Theorem signRedeem_decides_on_balance (a : string) (packageType nonce p : Z)
    (w : World) :
  let r := match packageType with 1 => 1000 | 2 => 3000 | _ => 5000 end in
  1 <= packageType <= 3 →
  redis_down w = false →
  cached (generateKey CacheKeys.USER_POINTS a) w = Some (Js.VNum p) →
  chain_down w = None →
  (signRedeem a packageType nonce w).1
  = Ok (if p <? r then
          Refused 400 "Signature Error" (insufficientPoints r (Js.VNum p))
        else Replied 200 (encode (chain w) a packageType nonce)).
Proof.
  intros r Hvalid Hup Hhit Hchain.
  pose proof (getUserPoints_hit a w _ Hup Hhit) as Hread.
  set (w1 := redis_logged _ _ w) in Hread.
  assert (Hreq : requiredPointsFor packageType w1 = (Ok r, w1)).
  { assert (packageType = 1 ∨ packageType = 2 ∨ packageType = 3) as [->|[->| ->]]
      by lia; reflexivity. }
  unfold signRedeem, try_catch, bind at 1.
  destruct (p <? r) eqn:Hlt.
  - assert (Hsign : signRedeemPackage a packageType nonce w
                    = (Throw (insufficientPoints r (Js.VNum p)), w1)).
    { unfold signRedeemPackage. rewrite try_catch_rethrow.
      rewrite (bind_ok _ _ _ _ _ Hread), (bind_ok _ _ _ _ _ Hreq).
      cbn [Js.lt]. rewrite Hlt. reflexivity. }
    rewrite Hsign. reflexivity.
  - rewrite (signRedeemPackage_run a packageType nonce r w w1 _ Hread Hreq)
      by exact Hlt.
    change (chain_down w1) with (chain_down w). rewrite Hchain. reflexivity.
Qed.

Lemma signRedeem_decides_on_balance_witness :
  (signRedeem Demo.alice 2 7
     (getUserPoints Demo.alice (Demo.world 2999 Demo.up Demo.healthy)).2).1
  = Ok (Refused 400 "Signature Error"
          "Insufficient points. Required: 3000, Available: 2999").
Proof.
  apply (signRedeem_decides_on_balance Demo.alice 2 7 2999
           (getUserPoints Demo.alice (Demo.world 2999 Demo.up Demo.healthy)).2
           ltac:(lia) eq_refl eq_refl eq_refl).
Defined.

(** ** Frames and metadata *)

Lemma lower_idempotent (c : ascii) : lower (lower c) = lower c.
Proof. destruct c as [[] [] [] [] [] [] [] []]; reflexivity. Qed.

Lemma toLowerCase_idempotent (s : string) :
  toLowerCase (toLowerCase s) = toLowerCase s.
Proof.
  induction s as [|c s IH]; [reflexivity|].
  cbn [toLowerCase]. rewrite lower_idempotent, IH. reflexivity.
Qed.

(** X19: every tier the tier engine can name has a frame.  For any
    points value the frame of [determineTierByPoints points] is never
    [null]: it is "ipfs://" followed by the CID configured for that
    tier, and by the word "undefined" when the variable is unset; the
    metadata built from the two carries the tier as its one attribute. *)
Theorem getFrameUrlByTier_of_points (env : FrameEnv) (points : Js.value)
    (image : string) :
  let tier := determineTierByPoints points in
  let cid := if Js.ge points 5000 then GOLD_FRAME_CID env
             else if Js.ge points 1000 then SILVER_FRAME_CID env
             else BRONZE_FRAME_CID env in
  let metadata := generateNFTMetadata image tier (getFrameUrlByTier env tier) in
  getFrameUrlByTier env tier = Some ("ipfs://" +:+ interpolate cid)
  ∧ (cid = None → md_frame metadata = Some "ipfs://undefined")
  ∧ md_attributes metadata = [ {| trait_type := "Tier"; value := md_tier metadata |} ]
  ∧ tier_rank (md_tier metadata)
    = (if Js.ge points 5000 then 2 else if Js.ge points 1000 then 1 else 0)%nat.
Proof.
  unfold determineTierByPoints.
  destruct (Js.ge points 5000); [|destruct (Js.ge points 1000)]; cbn;
    (split; [reflexivity|]);
    (split; [intros Hunset; unfold getFrameUrlByTier; cbn; rewrite Hunset; reflexivity|]);
    split; reflexivity.
Qed.

(** X20: the frame does not depend on the case of the tier, and it is
    [null] exactly when the tier, lower-cased, is none of "bronze",
    "silver" and "gold". *)
Theorem getFrameUrlByTier_case_insensitive (env : FrameEnv) (tier : string) :
  getFrameUrlByTier env (toLowerCase tier) = getFrameUrlByTier env tier
  ∧ (getFrameUrlByTier env tier = None
     ↔ toLowerCase tier ∉ ["bronze"; "silver"; "gold"]).
Proof.
  unfold getFrameUrlByTier. cbn zeta. rewrite toLowerCase_idempotent.
  split; [reflexivity|].
  rewrite !not_elem_of_cons.
  repeat case_bool_decide; split; intros Hnull; try discriminate;
    try reflexivity; try tauto.
  repeat split; try assumption. apply not_elem_of_nil.
Qed.

(** ** The API key *)

Lemma startsWith_iff (s prefix : string) :
  startsWith s prefix = true ↔ ∃ rest, s = prefix +:+ rest.
Proof.
  revert s. induction prefix as [|p ps IH]; intros s; cbn.
  - split; [intros _; exists s; reflexivity|destruct s; reflexivity].
  - destruct s as [|c cs].
    + cbn. split; [discriminate|intros [rest [=]]].
    + cbn. rewrite andb_true_iff, bool_decide_eq_true, IH. split.
      * intros [-> [rest ->]]. exists rest. reflexivity.
      * intros [rest [= -> ->]]. split; [reflexivity|]. exists rest. reflexivity.
Qed.

Lemma split_nonempty (separator : ascii) (s : string) : split separator s ≠ [].
Proof.
  destruct s as [|c r]; cbn; [discriminate|].
  case_bool_decide; [discriminate|]. destruct (split separator r); discriminate.
Qed.

(** The first piece of a split is what stands before the first
    separator. *)
Lemma split_head (s key : string) :
  head (split " " s) = Some key
  ↔ space_free key = true
    ∧ (s = key ∨ ∃ rest, s = key +:+ " " +:+ rest).
Proof.
  revert key. induction s as [|c r IH]; intros key.
  - cbn. split.
    + intros [= <-]. split; [reflexivity|]. left. reflexivity.
    + intros [Hfree [<-|[rest Hrest]]]; [reflexivity|].
      destruct key; discriminate.
  - cbn [split]. case_bool_decide as Hc.
    + subst c. cbn. split.
      * intros [= <-]. split; [reflexivity|]. right. exists r. reflexivity.
      * intros [Hfree [Hkey|[rest Hrest]]]; [subst key; cbn in Hfree; discriminate|].
        destruct key as [|k key]; [reflexivity|].
        cbn in Hrest. injection Hrest as <- _. cbn in Hfree. discriminate.
    + pose proof (split_nonempty " " r) as Hne.
      destruct (split " " r) as [|first rest0]; [congruence|].
      cbn. cbn in IH. split.
      * intros [= <-]. destruct (proj1 (IH first) eq_refl) as [Hfree Hshape].
        split.
        { cbn. rewrite Hfree. rewrite bool_decide_eq_false_2 by exact Hc.
          reflexivity. }
        destruct Hshape as [->|[rest ->]]; [left; reflexivity|].
        right. exists rest. reflexivity.
      * intros [Hfree Hshape].
        destruct key as [|k key].
        { destruct Hshape as [[=]|[rest [= -> _]]]. congruence. }
        cbn in Hfree. apply andb_true_iff in Hfree as [_ Hfree].
        assert (c = k ∧ (r = key ∨ ∃ rest, r = key +:+ " " +:+ rest)) as [-> Hr].
        { destruct Hshape as [[= -> ->]|[rest [= -> ->]]];
            (split; [reflexivity|]); [left; reflexivity|right; exists rest; reflexivity]. }
        f_equal. f_equal.
        assert (Some first = Some key) as [= ->]; [|reflexivity].
        apply IH. split; assumption.
Qed.

Lemma split_String (separator c : ascii) (r : string) :
  split separator (String c r)
  = if bool_decide (c = separator) then EmptyString :: split separator r
    else match split separator r with
         | first :: rest => String c first :: rest
         | [] => [String c EmptyString]
         end.
Proof. reflexivity. Qed.

Lemma bearer_Bearer (s : string) : bearer ("Bearer " +:+ s) = head (split " " s).
Proof.
  unfold bearer.
  change ("Bearer " +:+ s)
    with (String "B" (String "e" (String "a" (String "r" (String "e"
            (String "r" (String " " s))))))).
  rewrite !split_String.
  rewrite !bool_decide_eq_false_2 by discriminate.
  rewrite bool_decide_eq_true_2 by reflexivity.
  destruct (split " " s); reflexivity.
Qed.

(** X21: [checkApiKey] calls [next()] exactly for a header that reads
    "Bearer ", then the configured key, then nothing or a space and
    anything at all; the key is compared as the text up to the next
    space.  So a request is refused whenever [API_KEY] is unset, and a
    configured key that contains a space admits no request. *)
Theorem checkApiKey_accepts (API_KEY authorization : option string) :
  (checkApiKey API_KEY authorization = Next
   ↔ ∃ key, API_KEY = Some key
       ∧ space_free key = true
       ∧ (authorization = Some ("Bearer " +:+ key)
          ∨ ∃ rest, authorization = Some ("Bearer " +:+ key +:+ " " +:+ rest)))
  ∧ (API_KEY = None → checkApiKey API_KEY authorization ≠ Next)
  ∧ (∀ key, API_KEY = Some key → space_free key = false →
       checkApiKey API_KEY authorization ≠ Next).
Proof.
  assert (Hiff : checkApiKey API_KEY authorization = Next
            ↔ ∃ key, API_KEY = Some key
                ∧ space_free key = true
                ∧ (authorization = Some ("Bearer " +:+ key)
                   ∨ ∃ rest, authorization = Some ("Bearer " +:+ key +:+ " " +:+ rest))).
  { unfold checkApiKey. split.
    - destruct authorization as [authHeader|]; [|discriminate].
      destruct (negb (truthy (Some authHeader)) || negb (startsWith authHeader "Bearer "))
        eqn:Hformat; [discriminate|].
      apply orb_false_iff in Hformat as [_ Hprefix].
      apply negb_false_iff, startsWith_iff in Hprefix as [s ->].
      case_bool_decide as Hkey; [discriminate|]. intros _.
      rewrite bearer_Bearer in Hkey.
      pose proof (split_nonempty " " s) as Hne.
      destruct (split " " s) as [|key rest0] eqn:Hsplit; [congruence|].
      cbn in Hkey. exists key. split; [symmetry; exact Hkey|].
      destruct (proj1 (split_head s key)) as [Hfree Hshape];
        [rewrite Hsplit; reflexivity|].
      split; [exact Hfree|].
      destruct Hshape as [->|[rest ->]]; [left; reflexivity|].
      right. exists rest. reflexivity.
    - intros (key & -> & Hfree & Hshape).
      assert (∃ s, authorization = Some ("Bearer " +:+ s)
                   ∧ head (split " " s) = Some key) as (s & -> & Hhead).
      { destruct Hshape as [->|[rest ->]].
        - exists key. split; [reflexivity|]. apply split_head.
          split; [exact Hfree|left; reflexivity].
        - exists (key +:+ " " +:+ rest). split; [reflexivity|]. apply split_head.
          split; [exact Hfree|right; exists rest; reflexivity]. }
      replace (negb (truthy _) || negb (startsWith _ "Bearer ")) with false
        by reflexivity.
      rewrite bearer_Bearer, Hhead.
      rewrite bool_decide_eq_false_2; [reflexivity|]. intros Hne. apply Hne.
      reflexivity. }
  split; [exact Hiff|]. split.
  - intros -> Hnext. apply Hiff in Hnext as (key & [=] & _).
  - intros key -> Hspace Hnext.
    apply Hiff in Hnext as (key' & [= <-] & Hfree & _). congruence.
Qed.

Lemma checkApiKey_accepts_witness :
  checkApiKey (Some "s3cret") (Some "Bearer s3cret and more") = Next
  ∧ checkApiKey (Some "two words") (Some "Bearer two words") ≠ Next.
Proof.
  split.
  - apply (proj1 (checkApiKey_accepts (Some "s3cret")
                    (Some "Bearer s3cret and more"))).
    exists "s3cret". split; [reflexivity|]. split; [reflexivity|].
    right. exists "and more". reflexivity.
  - apply (proj2 (proj2 (checkApiKey_accepts (Some "two words")
                           (Some "Bearer two words"))) "two words");
      reflexivity.
Defined.

(** ** The admin check *)

Lemma key_refused_checkApiKey (API_KEY : option string) (req : AdminRequest) :
  key_refused API_KEY req = false
  ↔ checkApiKey API_KEY (headers_authorization req) = Next.
Proof.
  unfold key_refused, checkApiKey.
  destruct (headers_authorization req) as [authHeader|]; [|split; discriminate].
  destruct (negb (truthy (Some authHeader)) || negb (startsWith authHeader "Bearer "));
    cbn [orb]; [split; discriminate|].
  case_bool_decide; split; (discriminate || reflexivity).
Qed.

Lemma or_else_truthy (a b : option string) :
  truthy (or_else a b) = truthy a || truthy b.
Proof. unfold or_else. destruct (truthy a) eqn:Ha; [exact Ha|reflexivity]. Qed.

(** X22: [checkAdmin] lets a request through only for an admin with the
    key.  For a request whose four address fields are strings where they
    are present, it calls [next()] exactly when [checkApiKey] would, one
    of the four fields is a non-empty string, and [isAdmin] answers true
    for the first such field in the order [body.adminAddress],
    [query.adminAddress], [body.callerAddress], [query.callerAddress];
    that address is the one left in [req.adminAddress]. *)
Theorem checkAdmin_passes (isAdmin : string → M bool) (API_KEY : option string)
    (req : AdminRequest) (w : World) (address : option string) :
  (checkAdmin isAdmin API_KEY req w).1 = Ok (Next, address)
  ↔ checkApiKey API_KEY (headers_authorization req) = Next
    ∧ ∃ a, address = Some a
        ∧ adminAddress_of req = Some a
        ∧ a ≠ EmptyString
        ∧ (isAdmin a w).1 = Ok true.
Proof.
  rewrite <- key_refused_checkApiKey.
  unfold checkAdmin, try_catch.
  destruct (key_refused API_KEY req); [split; [discriminate|intros [[=] _]]|].
  destruct (adminAddress_of req) as [a|] eqn:Haddress.
  2: { split; [discriminate|]. intros (_ & a & _ & [=] & _). }
  destruct a as [|c a].
  { cbn. split; [discriminate|]. intros (_ & a & _ & [= <-] & Hne & _). congruence. }
  cbn [truthy negb]. unfold bind.
  destruct (isAdmin (String c a) w) as [[[]|e] w'] eqn:Hadmin; cbn.
  - split.
    + intros [= <-]. split; [reflexivity|]. eexists. repeat split.
      * discriminate.
      * rewrite Hadmin. reflexivity.
    + intros (_ & a' & -> & [= <-] & _). reflexivity.
  - split; [discriminate|]. intros (_ & a' & _ & [= <-] & _ & Hyes).
    rewrite Hadmin in Hyes. discriminate.
  - split; [discriminate|]. intros (_ & a' & _ & [= <-] & _ & Hyes).
    rewrite Hadmin in Hyes. discriminate.
Qed.

(** X23: what [checkAdmin] refuses without asking.  A request without
    the key is answered 401 and one with the key but without an address
    400, in that order, and in neither case is [isAdmin] called: the
    world is left as it was.  Behind [checkApiKey], as the routes mount
    it, the 401 of [checkAdmin] cannot occur.  Whatever [isAdmin] does,
    [checkAdmin] answers and does not throw. *)
Theorem checkAdmin_refuses_unasked (isAdmin : string → M bool)
    (API_KEY : option string) (req : AdminRequest) (w : World) :
  (checkApiKey API_KEY (headers_authorization req) ≠ Next →
   checkAdmin isAdmin API_KEY req w
   = (Ok (Denied 401 "Unauthorized" "Invalid API key", None), w))
  ∧ (checkApiKey API_KEY (headers_authorization req) = Next →
     (truthy (body_adminAddress req) || truthy (query_adminAddress req)
      || truthy (body_callerAddress req) || truthy (query_callerAddress req)
      = false →
      checkAdmin isAdmin API_KEY req w
      = (Ok (Denied 400 "Bad Request" "Admin address is required", None), w))
     ∧ ∀ error message,
         (checkAdmin isAdmin API_KEY req w).1
         ≠ Ok (Denied 401 error message, None))
  ∧ ∃ verdict, (checkAdmin isAdmin API_KEY req w).1 = Ok verdict.
Proof.
  rewrite <- key_refused_checkApiKey.
  unfold checkAdmin, try_catch.
  destruct (key_refused API_KEY req).
  { split; [reflexivity|]. split; [discriminate|]. eexists; reflexivity. }
  split; [congruence|].
  assert (Htruthy : truthy (adminAddress_of req)
                    = truthy (body_adminAddress req) || truthy (query_adminAddress req)
                      || truthy (body_callerAddress req)
                      || truthy (query_callerAddress req))
    by (unfold adminAddress_of; rewrite !or_else_truthy, !orb_assoc; reflexivity).
  rewrite <- Htruthy. clear Htruthy.
  destruct (adminAddress_of req) as [[|c a]|]; cbn [truthy negb].
  - split; [split; [reflexivity|discriminate]|]. eexists; reflexivity.
  - unfold bind.
    destruct (isAdmin (String c a) w) as [[[]|e] w']; cbn;
      (split; [split; discriminate|]); eexists; reflexivity.
  - split; [split; [reflexivity|discriminate]|]. eexists; reflexivity.
Qed.

Lemma checkAdmin_passes_witness :
  (checkAdmin (λ a, ret (bool_decide (a = Demo.alice))) (Some "s3cret")
     {| headers_authorization := Some "Bearer s3cret";
        body_adminAddress := Some EmptyString;
        query_adminAddress := None;
        body_callerAddress := Some Demo.alice;
        query_callerAddress := Some "0x00000000000000000000000000000000000000b2" |}
     (Demo.world 950 Demo.up Demo.healthy)).1
  = Ok (Next, Some Demo.alice).
Proof.
  apply (proj2 (checkAdmin_passes (λ a, ret (bool_decide (a = Demo.alice)))
                  (Some "s3cret")
                  {| headers_authorization := Some "Bearer s3cret";
                     body_adminAddress := Some EmptyString;
                     query_adminAddress := None;
                     body_callerAddress := Some Demo.alice;
                     query_callerAddress :=
                       Some "0x00000000000000000000000000000000000000b2" |}
                  (Demo.world 950 Demo.up Demo.healthy) (Some Demo.alice))).
  split; [reflexivity|]. exists Demo.alice.
  split; [reflexivity|]. split; [reflexivity|]. split; [discriminate|reflexivity].
Defined.

Lemma checkAdmin_refuses_unasked_witness :
  checkAdmin (λ a, throw "never asked") (Some "s3cret")
    {| headers_authorization := Some "Bearer wrong";
       body_adminAddress := Some Demo.alice;
       query_adminAddress := None;
       body_callerAddress := None;
       query_callerAddress := None |}
    (Demo.world 950 Demo.up Demo.healthy)
  = (Ok (Denied 401 "Unauthorized" "Invalid API key", None),
     Demo.world 950 Demo.up Demo.healthy).
Proof.
  apply (proj1 (checkAdmin_refuses_unasked (λ a, throw "never asked")
                  (Some "s3cret")
                  {| headers_authorization := Some "Bearer wrong";
                     body_adminAddress := Some Demo.alice;
                     query_adminAddress := None;
                     body_callerAddress := None;
                     query_callerAddress := None |}
                  (Demo.world 950 Demo.up Demo.healthy))).
  discriminate.
Defined.

(** ** Prices *)

(** X24: [getPrices] never serves a price.  Its first statement calls a
    name the module does not import, so whatever the cache and the store
    hold and however they answer, the handler answers 500 "Failed to get
    prices", sends no command to Redis and no request to the store:
    the world is left as it was. *)
Theorem getPrices_always_fails (Prices Formatted : Type) (Price_find : M Prices)
    (cachePrices : string → Prices → Z → M bool)
    (formatPricesResponse : Prices → Formatted) (w : World) :
  getPrices Prices Formatted Price_find cachePrices formatPricesResponse w
  = (Ok (Refused 500 "Internal Server Error" "Failed to get prices"), w)
  ∧ ∀ body, (getPrices Prices Formatted Price_find cachePrices
               formatPricesResponse w).1 ≠ Ok (Replied 200 body).
Proof. split; [reflexivity|discriminate]. Qed.

(** X25: [updatePrice] refuses a price of zero as it refuses a missing
    one.  When one of the three sizes is absent or 0, or the vehicle or
    the service type is absent or empty, the handler answers 400 and
    neither the store nor the cache is touched. *)
Theorem updatePrice_refuses (PriceDocument : Type)
    (Price_findOneAndUpdate : string → string → PriceTable → M PriceDocument)
    (body : PriceBody) (w : World) :
  truthy (body_vehicle body) && truthy (body_priceServiceType body)
  && match body_prices body with
     | Some prices => truthy_number (kecil prices) && truthy_number (sedang prices)
                      && truthy_number (besar prices)
     | None => false
     end = false →
  ∃ message,
    updatePrice PriceDocument Price_findOneAndUpdate body w
    = (Ok (Refused 400 "Bad Request" message), w).
Proof.
  intros Hfalsy. unfold updatePrice, try_catch.
  destruct (body_vehicle body) as [[|c v]|],
    (body_priceServiceType body) as [[|c' s]|],
    (body_prices body) as [prices|];
    try (eexists; reflexivity).
  cbn [truthy negb orb andb] in *.
  destruct (truthy_number (kecil prices)), (truthy_number (sedang prices)),
    (truthy_number (besar prices)); cbn [negb orb andb] in *;
    try discriminate; eexists; reflexivity.
Qed.

Lemma updatePrice_refuses_witness :
  ∃ message,
    updatePrice unit (λ _ _ _, ret tt)
      {| body_vehicle := Some "motor"; body_priceServiceType := Some "reguler";
         body_prices := Some {| kecil := Some 0; sedang := Some 20000;
                                besar := Some 25000 |} |}
      (Demo.world 950 Demo.up Demo.healthy)
    = (Ok (Refused 400 "Bad Request" message),
       Demo.world 950 Demo.up Demo.healthy).
Proof.
  apply (updatePrice_refuses unit (λ _ _ _, ret tt)
           {| body_vehicle := Some "motor"; body_priceServiceType := Some "reguler";
              body_prices := Some {| kecil := Some 0; sedang := Some 20000;
                                     besar := Some 25000 |} |}
           (Demo.world 950 Demo.up Demo.healthy)).
  reflexivity.
Defined.

(** X26: an accepted price update drops the cached price list, a
    rejected one does not.  With vehicle, service type and three
    non-zero sizes given, the handler hands them to the store; when the
    store answers, it then deletes "prices:all" (with Redis reachable
    the key is gone) and answers 200 with the stored document; when the
    store rejects, it answers 500 and sends no command to Redis. *)
Theorem updatePrice_invalidates (PriceDocument : Type)
    (Price_findOneAndUpdate : string → string → PriceTable → M PriceDocument)
    (vehicle serviceType : string) (prices : PriceTable) (w : World) :
  let body := {| body_vehicle := Some vehicle;
                 body_priceServiceType := Some serviceType;
                 body_prices := Some prices |} in
  let stored := Price_findOneAndUpdate vehicle serviceType prices w in
  vehicle ≠ EmptyString →
  serviceType ≠ EmptyString →
  truthy_number (kecil prices) && truthy_number (sedang prices)
  && truthy_number (besar prices) = true →
  updatePrice PriceDocument Price_findOneAndUpdate body w
  = match stored.1 with
    | Ok document =>
        (Ok (Replied 200 document), invalidated "prices:all" stored.2)
    | Throw _ =>
        (Ok (Refused 500 "Internal Server Error" "Failed to update price"),
         stored.2)
    end
  ∧ (redis_down stored.2 = false →
     ∀ document, stored.1 = Ok document →
     keyspace (redis (updatePrice PriceDocument Price_findOneAndUpdate body w).2)
       !! "prices:all" = None).
Proof.
  intros body stored Hvehicle Hservice Hprices.
  assert (Hrun : updatePrice PriceDocument Price_findOneAndUpdate body w
                 = match stored.1 with
                   | Ok document =>
                       (Ok (Replied 200 document), invalidated "prices:all" stored.2)
                   | Throw _ =>
                       (Ok (Refused 500 "Internal Server Error"
                              "Failed to update price"), stored.2)
                   end).
  { unfold updatePrice, try_catch. cbn [body body_vehicle body_priceServiceType
                                          body_prices].
    destruct vehicle as [|c v]; [congruence|].
    destruct serviceType as [|c' s]; [congruence|].
    cbn [truthy negb orb].
    apply andb_true_iff in Hprices as [Hprices ->].
    apply andb_true_iff in Hprices as [-> ->]. cbn [negb orb].
    unfold bind at 1. subst stored.
    destruct (Price_findOneAndUpdate (String c v) (String c' s) prices w)
      as [[document|e] w1]; [|reflexivity].
    cbn [fst snd]. unfold bind. rewrite invalidateCache_run. reflexivity. }
  split; [exact Hrun|].
  intros Hup document Hok. rewrite Hrun, Hok. cbn [snd].
  apply invalidated_gone, Hup.
Qed.

Lemma updatePrice_invalidates_witness :
  (updatePrice unit (λ _ _ _, ret tt)
     {| body_vehicle := Some "motor"; body_priceServiceType := Some "reguler";
        body_prices := Some {| kecil := Some 18000; sedang := Some 20000;
                               besar := Some 25000 |} |}
     (Demo.world 950 Demo.up Demo.healthy)).1
  = Ok (Replied 200 tt).
Proof.
  destruct (updatePrice_invalidates unit (λ _ _ _, ret tt) "motor" "reguler"
              {| kecil := Some 18000; sedang := Some 20000; besar := Some 25000 |}
              (Demo.world 950 Demo.up Demo.healthy)
              ltac:(discriminate) ltac:(discriminate) eq_refl) as [Hrun _].
  rewrite Hrun. reflexivity.
Defined.

(** ** Addresses *)

Lemma is_hex_lower (c : ascii) : is_hex c = true → is_hex (lower c) = true.
Proof. destruct c as [[] [] [] [] [] [] [] []]; vm_compute; congruence. Qed.

Lemma is_hex_not_space (c : ascii) : is_hex c = true → is_space c = false.
Proof. destruct c as [[] [] [] [] [] [] [] []]; vm_compute; congruence. Qed.

Lemma all_hex_toLowerCase (s : string) :
  all_hex s = true →
  all_hex (toLowerCase s) = true
  ∧ String.length (toLowerCase s) = String.length s.
Proof.
  induction s as [|c s IH]; [split; reflexivity|].
  cbn. intros [Hc Hs]%andb_true_iff. destruct (IH Hs) as [IH1 IH2].
  rewrite (is_hex_lower c Hc), IH1, IH2. split; reflexivity.
Qed.

Lemma trimEnd_String (c : ascii) (r : string) :
  is_space c = false → trimEnd r = r → trimEnd (String c r) = String c r.
Proof.
  intros Hc Hr. cbn [trimEnd]. rewrite Hr.
  destruct r; [rewrite Hc|]; reflexivity.
Qed.

Lemma all_hex_trimEnd (s : string) :
  all_hex s = true → trimEnd s = s.
Proof.
  induction s as [|c s IH]; [reflexivity|].
  cbn [all_hex]. intros [Hc Hs]%andb_true_iff.
  apply trimEnd_String; [apply is_hex_not_space, Hc|apply IH, Hs].
Qed.

(** X27: what the schema setters store for a validated address.  For a
    [userAddress] that matches [/^0x[a-fA-F0-9]{40}$/], as the request
    validation demands, trimming changes nothing, so the document of the
    transaction handler holds the lower-cased address; that address
    matches the pattern again (the [match] of the model cannot fail on
    it) and is a fixed point of the setters. *)
Theorem ethereumAddress_stored (req : Request) (w : World) :
  ethereumAddress (body_userAddress req) = true →
  let stored := tx_userAddress (document req w) in
  stored = toLowerCase (body_userAddress req)
  ∧ ethereumAddress stored = true
  ∧ trim (toLowerCase stored) = stored.
Proof.
  intros Hvalid stored. subst stored. cbn [document tx_userAddress].
  destruct (body_userAddress req) as [|c0 [|c1 digits]];
    [discriminate Hvalid| |].
  { destruct c0 as [[] [] [] [] [] [] [] []]; discriminate Hvalid. }
  destruct c0 as [[] [] [] [] [] [] [] []]; cbn in Hvalid; try discriminate Hvalid.
  destruct c1 as [[] [] [] [] [] [] [] []]; cbn in Hvalid; try discriminate Hvalid.
  apply andb_true_iff in Hvalid as [Hlength Hhex].
  destruct (all_hex_toLowerCase digits Hhex) as [Hhex' Hlength'].
  assert (Htrim : trim (toLowerCase (String "0" (String "x" digits)))
                  = toLowerCase (String "0" (String "x" digits))).
  { unfold trim.
    change (trimStart (toLowerCase (String "0" (String "x" digits))))
      with (String "0" (String "x" (toLowerCase digits))).
    do 2 (apply trimEnd_String; [reflexivity|]).
    apply all_hex_trimEnd, Hhex'. }
  split; [exact Htrim|]. rewrite Htrim. split.
  - cbn. rewrite Hlength', Hlength, Hhex'. reflexivity.
  - rewrite toLowerCase_idempotent. exact Htrim.
Qed.

Lemma ethereumAddress_stored_witness :
  tx_userAddress
    (document
       {| body_userAddress := "0x00000000000000000000000000000000000000A1";
          body_date := "2024-04-26"; body_vehicleType := "Motor Kecil";
          body_serviceType := "Reguler"; body_price := 15000; app_io := true |}
       (Demo.world 950 Demo.up Demo.healthy))
  = Demo.alice.
Proof.
  destruct (ethereumAddress_stored
              {| body_userAddress := "0x00000000000000000000000000000000000000A1";
                 body_date := "2024-04-26"; body_vehicleType := "Motor Kecil";
                 body_serviceType := "Reguler"; body_price := 15000;
                 app_io := true |}
              (Demo.world 950 Demo.up Demo.healthy) eq_refl) as [Hstored _].
  rewrite Hstored. reflexivity.
Defined.

(** ** Mail *)

(** X29: mail is best effort.  With the user registered, Redis reachable
    and the store and the chain answering, the answer of the transaction
    handler and what it commits do not depend on SES: whichever messages
    SES rejects, the handler answers 200 with the same body, commits the
    same document and leaves the same ledger as when SES delivers, and
    the free-wash mail was handed to SES all the same. *)
Theorem recordTransactionHandler_mail_outage (req : Request) (w : World) (u : User)
    (oracle : nat → bool) :
  let a := body_userAddress req in
  let out := onRecordTransaction (chain w) (ledger (chain w)) a (clock w `div` 1000) in
  let w_ses := with_ses {| outbox := outbox (ses w); ses_fail := oracle |} w in
  registered a w = Some u →
  store_healthy w →
  chain_healthy w →
  cache_reachable w →
  ∃ response,
    (recordTransactionHandler req w).1 = Ok response
    ∧ (recordTransactionHandler req w_ses).1 = Ok response
    ∧ status response = 200
    ∧ transactions (mongo (recordTransactionHandler req w_ses).2)
      = transactions (mongo (recordTransactionHandler req w).2)
    ∧ ledger (chain (recordTransactionHandler req w_ses).2) = out.1
    ∧ ∃ delivered,
        (free_wash_mail (email u), delivered)
        ∈ outbox (ses (recordTransactionHandler req w_ses).2).
Proof.
  intros a out w_ses Hu Hstore Hchain Hup.
  destruct (recordTransactionHandler_confirmed req w u Hu Hstore Hchain)
    as (points & nft & b0 & b1 & w1 & Hrun & Htx & _ & _ & _ & _ & Hfresh).
  destruct (recordTransactionHandler_confirmed req w_ses u Hu Hstore Hchain)
    as (points' & nft' & b0' & b1' & w2 & Hrun' & Htx' & _ & Hledger' & Hout' & _ & Hfresh').
  destruct (Hfresh Hup) as [-> ->]. destruct (Hfresh' Hup) as [-> ->].
  cbn zeta in *. fold a in Hrun, Hrun'. fold out in Hrun.
  change (onRecordTransaction (chain w_ses) (ledger (chain w_ses)) a
            (clock w_ses `div` 1000)) with out in *.
  eexists. split; [rewrite Hrun; reflexivity|].
  split; [rewrite Hrun'; reflexivity|]. split; [reflexivity|].
  rewrite Hrun, Hrun'. cbn [snd]. rewrite Htx, Htx'.
  split; [reflexivity|]. split; [exact Hledger'|].
  exists b0'. rewrite Hout'. apply elem_of_app. right. left.
Qed.

Lemma recordTransactionHandler_mail_outage_witness :
  (recordTransactionHandler Demo.wash
     (with_ses {| outbox := []; ses_fail := Demo.down |}
        (Demo.world 950 Demo.up Demo.healthy))).1
  = Ok {| status := 200; json := Recorded "0xabc123" (Js.VNum 1010) "Silver" |}.
Proof.
  destruct (recordTransactionHandler_mail_outage Demo.wash
              (Demo.world 950 Demo.up Demo.healthy)
              {| userAddress := Demo.alice; email := "alice@example.com";
                 name := "Alice" |}
              Demo.down eq_refl (λ n, eq_refl) (λ n, eq_refl) (λ n, eq_refl))
    as (response & Hrun & Hrun' & _).
  etransitivity; [exact Hrun'|]. rewrite <- Hrun. vm_compute. reflexivity.
Defined.
